(** * KPI analytics query engine (tools.py): model and properties

    The five public operations of [tools.py] are embedded as functions over
    an explicit model of the two CSV tables.  A numeric cell is a finite
    float64 value, written as the rational it stands for ([Q]), so that
    the comparisons the code makes are exact.  The means are pandas' and
    are taken as it computes them, rounding included: they are
    parameters of the model, with a binary64 instance for the concrete
    tables.  A timestamp is a day number or NaT. *)

From Stdlib Require Import ZArith QArith Qminmax List String Ascii Bool Lia Lqa.
From Stdlib Require Import DecimalString Sorted OrderedTypeEx SpecFloat.
Import ListNotations.

Local Open Scope Z_scope.
Local Open Scope string_scope.

(** ** Exceptions and the error monad *)

(** The Python exception classes the operations can meet. *)
Inductive exn : Type :=
| FileNotFoundError (path : string)
| KeyError (key : string)
| ValueError (msg : string)
| UnboundLocalError (var : string).

(** [str(e)] in the handlers.  The wording of a message is the library's
    and varies with its version; no property below depends on it. *)
Definition exn_str (e : exn) : string :=
  match e with
  | FileNotFoundError p => "[Errno 2] No such file or directory: '" ++ p ++ "'"
  | KeyError k => "'" ++ k ++ "'"
  | ValueError m => m
  | UnboundLocalError v =>
      "cannot access local variable '" ++ v ++ "' where it is not associated with a value"
  end.

Inductive result (A : Type) : Type :=
| Ok (a : A)
| Raise (e : exn).

Arguments Ok {A} a.
Arguments Raise {A} e.

Definition bind {A B : Type} (m : result A) (k : A -> result B) : result B :=
  match m with
  | Ok a => k a
  | Raise e => Raise e
  end.

Notation "x <- m ;; k" := (bind m (fun x => k))
  (at level 61, m at next level, right associativity).
Notation "' p <- m ;; k" := (bind m (fun x => let p := x in k))
  (at level 61, p pattern, m at next level, right associativity).

(** [try: body  except Exception as e: return handler(e)] *)
Definition try_except {A : Type} (body : result A) (handler : exn -> A) : result A :=
  match body with
  | Ok a => Ok a
  | Raise e => Ok (handler e)
  end.

(** ** Data model *)

(** A pandas Timestamp; [None] is NaT. *)
Definition Timestamp : Type := option Z.
Definition NaT : Timestamp := None.

(** One row of a loaded CSV table, after
    [df["Date"] = pd.to_datetime(df["Date"], errors="coerce")].
    [KPI] is the label column of the anomaly table (absent from the
    measurement table); [cells] holds the numeric KPI columns, a missing
    or null cell being NaN.  The tables have the schema of the two CSV
    files: the key columns Date, Site_ID and Sector_ID, and the KPI
    columns listed in [columns]; a KPI name is looked up among the
    latter only. *)
Record Row : Type := mkRow {
  Date : Timestamp;
  Site_ID : option string;
  Sector_ID : option string;
  KPI : option string;
  cells : list (string * option Q)
}.

Record DataFrame : Type := mkDataFrame {
  columns : list string;
  rows : list Row
}.

Definition cell (k : string) (r : Row) : option Q :=
  match find (fun p => fst p =? k) (cells r) with
  | Some (_, v) => v
  | None => None
  end.

Definition has_column (df : DataFrame) (k : string) : bool :=
  existsb (String.eqb k) (columns df).

(** Selecting a column that the frame does not have raises KeyError. *)
Definition require_column (df : DataFrame) (k : string) : result unit :=
  if has_column df k then Ok tt else Raise (KeyError k).

Definition notna {A : Type} (o : option A) : bool :=
  match o with Some _ => true | None => false end.

Definition is_empty {A : Type} (l : list A) : bool :=
  match l with [] => true | _ :: _ => false end.

(** Python truthiness of an [Optional[str]] argument: [None] and the empty
    string are falsy. *)
Definition truthy (a : option string) : option string :=
  match a with
  | Some s => if s =? "" then None else Some s
  | None => None
  end.

(** An argument with a default value: left out by the caller, or passed. *)
Inductive passed (A : Type) : Type :=
| Omitted
| Passed (a : A).

Arguments Omitted {A}.
Arguments Passed {A} a.

Definition or_default {A : Type} (d : A) (p : passed A) : A :=
  match p with Omitted => d | Passed a => a end.

(** ** Timestamps *)

(** [row_date >= bound]; any comparison with NaT is False. *)
Definition ts_ge (d bound : Timestamp) : bool :=
  match d, bound with
  | Some a, Some b => (b <=? a)%Z
  | _, _ => false
  end.

Definition ts_le (d bound : Timestamp) : bool :=
  match d, bound with
  | Some a, Some b => (a <=? b)%Z
  | _, _ => false
  end.

Definition ts_eqb (a b : Timestamp) : bool :=
  match a, b with
  | Some x, Some y => (x =? y)%Z
  | None, None => true
  | _, _ => false
  end.

(** [ts - timedelta(days=n)]; NaT stays NaT. *)
Definition sub_days (t : Timestamp) (n : Z) : Timestamp :=
  match t with Some d => Some (d - n) | None => None end.

(** [series.max()] of a datetime column: NaT values are skipped, an empty
    column gives NaT. *)
Definition ts_max (l : list Timestamp) : Timestamp :=
  fold_left (fun acc t =>
               match acc, t with
               | Some a, Some b => Some (Z.max a b)
               | None, Some b => Some b
               | _, None => acc
               end) l None.

Definition ts_min (l : list Timestamp) : Timestamp :=
  fold_left (fun acc t =>
               match acc, t with
               | Some a, Some b => Some (Z.min a b)
               | None, Some b => Some b
               | _, None => acc
               end) l None.

(** ** Numeric helpers *)

Definition Qlt_bool (a b : Q) : bool := negb (Qle_bool b a).

(** [series.dropna()] *)
Fixpoint dropna_values (l : list (option Q)) : list Q :=
  match l with
  | [] => []
  | Some q :: t => q :: dropna_values t
  | None :: t => dropna_values t
  end.

(** [series.idxmax()] and [series.idxmin()] over labelled values: the label
    of the first occurrence of the extreme value. *)
Definition idxmax {K : Type} (l : list (K * Q)) : option (K * Q) :=
  match l with
  | [] => None
  | h :: t => Some (fold_left (fun best kv =>
                                 if Qlt_bool (snd best) (snd kv) then kv else best) t h)
  end.

Definition idxmin {K : Type} (l : list (K * Q)) : option (K * Q) :=
  match l with
  | [] => None
  | h :: t => Some (fold_left (fun best kv =>
                                 if Qlt_bool (snd kv) (snd best) then kv else best) t h)
  end.

(** [str.lower()], on the ASCII letters. *)
Definition lower_ascii (c : ascii) : ascii :=
  let n := nat_of_ascii c in
  if (65 <=? n)%nat && (n <=? 90)%nat then ascii_of_nat (n + 32) else c.

Fixpoint lower (s : string) : string :=
  match s with
  | EmptyString => EmptyString
  | String c t => String (lower_ascii c) (lower t)
  end.

(** ** Grouping *)

(** [groupby(key)]: groups in ascending key order, each keeping its rows'
    values in row order. *)
Fixpoint insert_group {V : Type} (k : string) (v : V) (g : list (string * list V))
  : list (string * list V) :=
  match g with
  | [] => [(k, [v])]
  | (k', vs) :: g' =>
      match String.compare k k' with
      | Eq => (k', (vs ++ [v])%list) :: g'
      | Lt => (k, [v]) :: g
      | Gt => (k', vs) :: insert_group k v g'
      end
  end.

Definition groupby {V : Type} (kvs : list (string * V)) : list (string * list V) :=
  fold_left (fun g kv => insert_group (fst kv) (snd kv) g) kvs [].

(** [groupby("Date").size()]: rows per date, ascending dates. *)
Fixpoint insert_count (d : Z) (g : list (Z * nat)) : list (Z * nat) :=
  match g with
  | [] => [(d, 1%nat)]
  | (d', n) :: g' =>
      match Z.compare d d' with
      | Eq => (d', S n) :: g'
      | Lt => (d, 1%nat) :: g
      | Gt => (d', n) :: insert_count d g'
      end
  end.

Definition count_by_date (ds : list Z) : list (Z * nat) :=
  fold_left (fun g d => insert_count d g) ds [].


(** ** Reports *)

(** The directional section of [compare_kpi_impact]. *)
Inductive DirectionalComment : Type :=
| NoPositiveChanges
| ConditionalProb (conditional_prob : Q) (likely : bool).

Record Directional : Type := mkDirectional {
  directional_comment : DirectionalComment;
  directional_ratio : Q
}.

Inductive GrangerVerdict : Type :=
| HelpsPredict
| NoEvidence.

Record KpiStats : Type := mkKpiStats {
  stat_kpi : string;
  stat_missing : nat;
  stat_mean : option Q;
  stat_min : option Q;
  stat_max : option Q
}.

Record AnomalySummary : Type := mkAnomalySummary {
  anomaly_count : nat;
  kpi_avg : Q;
  avg_above : option Q;          (* [None] is the "N/A" placeholder *)
  avg_below : option Q;
  group : string;
  Kpis : list string;
  peak_anomaly_note : option (Z * nat);
  related_counts : list (string * nat)
}.

(** What an operation returns before it is formatted as text. *)
Inductive Report : Type :=
| ExtremeNoData (kpi_name : string) (start_date end_date : Timestamp)
| ExtremeSite (start_date end_date : Timestamp) (site_id direction kpi_name : string)
              (value : Q)
| PeakSiteNotFound (site_id : string)
| PeakNoData (site_id : string) (start_date end_date : Timestamp)
| PeakDay (date : Timestamp) (site_id label kpi_name : string) (value : Q)
          (start_date end_date : Timestamp)
| ImpactNoData (kpi_x kpi_y : string)
| Impact (kpi_x kpi_y : string) (site_id : option string) (directional : Directional)
         (best_p_value : Q) (verdict : GrangerVerdict)
| DatasetEmpty
| DatasetSummary (date_min date_max : Timestamp) (num_sites num_sectors : nat)
                 (kpi_stats : list KpiStats)
| AnomalyNoData (kpi_name : string)
| AnomalyNoBase
| AnomalyReport (kpi_name : string) (summary : AnomalySummary).

Definition nl : string := String (ascii_of_nat 10) EmptyString.

Definition str_nat (n : nat) : string := NilEmpty.string_of_uint (Nat.to_uint n).

(** [str.capitalize()], on the ASCII letters. *)
Definition upper_ascii (c : ascii) : ascii :=
  let n := nat_of_ascii c in
  if (97 <=? n)%nat && (n <=? 122)%nat then ascii_of_nat (n - 32) else c.

Definition capitalize (s : string) : string :=
  match s with
  | EmptyString => EmptyString
  | String c t => String (upper_ascii c) (lower t)
  end.

Section Formatting.

(** Python's number and date formatting: [f"{v:.Nf}"], [f"{v}"] of a
    float, and [f"{ts.date()}"] of a Timestamp that is not NaT. *)
Variable fmt_fixed : nat -> Q -> string.
Variable fmt_float : Q -> string.
Variable fmt_day : Z -> string.

Definition fmt_date (t : Timestamp) : string :=
  match t with Some d => fmt_day d | None => "NaT" end.

Definition fmt_stat (o : option Q) : string :=
  match o with Some q => fmt_fixed 2 q | None => "nan" end.

Definition fmt_placeholder (o : option Q) : string :=
  match o with Some q => fmt_float q | None => "None" end.

Definition render_directional (kpi_x kpi_y : string) (site_id : option string)
           (d : Directional) : string :=
  match directional_comment d with
  | NoPositiveChanges =>
      "No positive changes in " ++ kpi_x ++ " to evaluate directional effect on "
        ++ kpi_y ++ "."
  | ConditionalProb p likely =>
      "When **" ++ kpi_x ++ " increases**, **" ++ kpi_y ++ " increases** "
        ++ fmt_fixed 1 (p * 100)%Q ++ "% of the time over the selected period "
        ++ match truthy site_id with
           | Some s => "for site `" ++ s ++ "`"
           | None => "(all sites)"
           end
        ++ ". This suggests a " ++ (if likely then "likely" else "weak")
        ++ " directional relationship."
  end.

Definition render_granger (kpi_x kpi_y : string) (p : Q) (v : GrangerVerdict) : string :=
  "**Granger Causality Test**: Examining whether changes in `" ++ kpi_x
    ++ "` help predict future changes in `" ++ kpi_y ++ "`." ++ nl
    ++ "→ The p-value is **" ++ fmt_fixed 4 p ++ "**." ++ nl
    ++ match v with
       | HelpsPredict =>
           "Since the p-value is less than 0.05, this suggests that changes in **`"
             ++ kpi_x ++ "` likely help predict future values of `" ++ kpi_y
             ++ "`** (i.e., `" ++ kpi_x ++ "` Granger-causes `" ++ kpi_y ++ "`)." ++ nl
       | NoEvidence =>
           "Since the p-value is greater than 0.05, there is **no statistical evidence** that `"
             ++ kpi_x ++ "` helps predict `" ++ kpi_y ++ "`." ++ nl
       end.

Definition render_peak_note (kpi_name : string) (n : option (Z * nat)) : string :=
  match n with
  | Some (d, c) =>
      "Most anomalies for `" ++ kpi_name ++ "` occurred on **" ++ fmt_day d
        ++ "** with **" ++ str_nat c ++ " anomalies**." ++ nl ++ nl
  | None => ""
  end.

Definition render_related (rc : list (string * nat)) : string :=
  match rc with
  | [] => ""
  | _ :: _ =>
      "On the same days, anomalies also occurred in other KPI's which may be cause for anomalies in {kpi_name}:"
        ++ nl
        ++ String.concat "" (map (fun kv => "- `" ++ fst kv ++ "`: " ++ str_nat (snd kv)
                                              ++ " times" ++ nl) rc)
  end.

Definition render_anomalies (kpi_name : string) (s : AnomalySummary) : string :=
  "**Anomaly Summary for KPI: `" ++ kpi_name ++ "`**" ++ nl ++ nl
    ++ "**Date Range Analyzed**: Based on filtered inputs or inferred from peak anomaly activity."
    ++ nl ++ nl
    ++ "**Key Statistics**:" ++ nl
    ++ "- Total anomalies detected: **" ++ str_nat (anomaly_count s) ++ "**" ++ nl
    ++ "- Baseline average of `" ++ kpi_name ++ "`: **" ++ fmt_fixed 2 (kpi_avg s)
    ++ "**" ++ nl
    ++ "- Avg anomaly value **above** baseline: **" ++ fmt_placeholder (avg_above s)
    ++ "**" ++ nl
    ++ "- Avg anomaly value **below** baseline: **" ++ fmt_placeholder (avg_below s)
    ++ "**" ++ nl ++ nl
    ++ "**KPI Group Classification**:" ++ nl
    ++ "- Group: **" ++ capitalize (group s) ++ "**" ++ nl
    ++ "- Related KPIs: " ++ String.concat ", " (Kpis s) ++ nl ++ nl
    ++ "**Peak Anomaly Info**:" ++ nl
    ++ render_peak_note kpi_name (peak_anomaly_note s)
    ++ "**Co-occurring Anomalies**:" ++ nl
    ++ render_related (related_counts s) ++ nl
    ++ "- Use this above summary about `" ++ kpi_name
    ++ "` trends, anomaly patterns, and relationships to answer with details." ++ nl
    ++ "- If a user asks about **why** anomalies occurred, do **not** generate speculative causes. tell the answer based on the related  kpi summary."
    ++ nl.

(** [str.strip()] of the summary only removes its final newline. *)
Definition render_dataset (dmin dmax : Timestamp) (sites sectors : nat)
           (stats : list KpiStats) : string :=
  "**KPI Dataset Overview**" ++ nl
    ++ "- Date Range: **" ++ fmt_date dmin ++ " to " ++ fmt_date dmax ++ "**" ++ nl
    ++ "- Sites: **" ++ str_nat sites ++ "**" ++ nl
    ++ "- Sectors: **" ++ str_nat sectors ++ "**" ++ nl
    ++ "- Available KPIs (" ++ str_nat (List.length stats) ++ "): "
    ++ String.concat ", " (map stat_kpi stats) ++ nl ++ nl
    ++ "**Per-KPI Statistics**"
    ++ String.concat "" (map (fun s => nl ++ "• **" ++ stat_kpi s ++ "**" ++ nl
                                ++ "  - Missing values: " ++ str_nat (stat_missing s) ++ nl
                                ++ "  - Mean: " ++ fmt_stat (stat_mean s) ++ nl
                                ++ "  - Min: " ++ fmt_stat (stat_min s) ++ nl
                                ++ "  - Max: " ++ fmt_stat (stat_max s)) stats).

Definition render (r : Report) : string :=
  match r with
  | ExtremeNoData kpi_name s e =>
      "No data available for `" ++ kpi_name ++ "` between " ++ fmt_date s ++ " and "
        ++ fmt_date e ++ "."
  | ExtremeSite s e site_id direction kpi_name value =>
      "Between **" ++ fmt_date s ++ "** and **" ++ fmt_date e ++ "**, site `" ++ site_id
        ++ "` had the " ++ direction ++ " average **" ++ kpi_name ++ "** of **"
        ++ fmt_fixed 2 value ++ "**."
  | PeakSiteNotFound site_id => "No data found for site `" ++ site_id ++ "`."
  | PeakNoData site_id s e =>
      "No data found for `" ++ site_id ++ "` between " ++ fmt_date s ++ " and "
        ++ fmt_date e ++ "."
  | PeakDay date site_id label kpi_name value s e =>
      " On **" ++ fmt_date date ++ "**, site `" ++ site_id ++ "` had the " ++ label
        ++ " **" ++ kpi_name ++ "** of **" ++ fmt_fixed 2 value ++ "** between "
        ++ fmt_date s ++ " and " ++ fmt_date e ++ "."
  | ImpactNoData kpi_x kpi_y =>
      "No data available for " ++ kpi_x ++ " and " ++ kpi_y ++ "."
  | Impact kpi_x kpi_y site_id d p v =>
      render_directional kpi_x kpi_y site_id d ++ nl ++ nl
        ++ render_granger kpi_x kpi_y p v
        ++ "Answer the quetion with general knowedge with the above results as proof with numbers."
  | DatasetEmpty => "Dataset appears empty or could not be parsed."
  | DatasetSummary dmin dmax sites sectors stats =>
      render_dataset dmin dmax sites sectors stats
  | AnomalyNoData kpi_name =>
      "No anomaly data found for `" ++ kpi_name ++ "` with given filters."
  | AnomalyNoBase => "No base KPI data found to compare anomalies."
  | AnomalyReport kpi_name s => render_anomalies kpi_name s
  end.

End Formatting.

(** ** The operations *)

Definition KPI_CSV_PATH : string := "Data\KPI_data_cleaned.csv".

Definition kpi_groups : list (string * list string) :=
  [ ("signal", ["RSRP"; "SINR"]);
    ("latency", ["DL_Throughput"; "UL_Throughput"; "RTT"]);
    ("access", ["Active_Users"; "CPU_Utilization"; "Handover_Success_Rate"]);
    ("stability", ["Packet_Loss"; "Call_Drop_Rate"]) ].

(** The loop over [kpi_groups.items()] that stops at the first group
    listing [kpi_name]. *)
Definition find_group (kpi_name : string) : option (string * list string) :=
  find (fun g => existsb (String.eqb kpi_name) (snd g)) kpi_groups.

(** [df.dropna(subset=["Date", "Site_ID"] + kpis)] *)
Definition dropna_subset (kpis : list string) (l : list Row) : list Row :=
  filter (fun r => notna (Date r) && notna (Site_ID r)
                   && forallb (fun k => notna (cell k r)) kpis) l.

Definition site_is (site : string) (r : Row) : bool :=
  match Site_ID r with Some s => s =? site | None => false end.

Definition sector_is (sector : string) (r : Row) : bool :=
  match Sector_ID r with Some s => s =? sector | None => false end.

Definition kpi_is (kpi : string) (r : Row) : bool :=
  match KPI r with Some s => s =? kpi | None => false end.

Definition in_window (start_date end_date : Timestamp) (r : Row) : bool :=
  ts_ge (Date r) start_date && ts_le (Date r) end_date.

(** [if site_id: df = df[df["Site_ID"] == site_id]] and the same for the
    sector. *)
Definition entity_filter (site_id sector_id : option string) (l : list Row) : list Row :=
  let l := match truthy site_id with Some s => filter (site_is s) l | None => l end in
  match truthy sector_id with Some s => filter (sector_is s) l | None => l end.

(** The (site, value) pairs that [groupby("Site_ID")[kpi].mean()] averages. *)
Definition site_values (kpi : string) (l : list Row) : list (string * Q) :=
  flat_map (fun r => match Site_ID r, cell kpi r with
                     | Some s, Some v => [(s, v)]
                     | _, _ => []
                     end) l.

Definition mean_by_site (mean : list Q -> Q) (kpi : string) (l : list Row)
  : list (string * Q) :=
  map (fun g => (fst g, mean (snd g))) (groupby (site_values kpi l)).

(** The rows of a frame labelled with their value of [kpi]. *)
Definition row_values (kpi : string) (l : list Row) : list (Row * Q) :=
  flat_map (fun r => match cell kpi r with Some v => [(r, v)] | None => [] end) l.

(** First differences [series.diff()]: NaN for the first row. *)
Fixpoint diff_from (prev : Q) (l : list Q) : list (option Q) :=
  match l with
  | [] => []
  | x :: t => Some (x - prev)%Q :: diff_from x t
  end.

Definition diff (l : list Q) : list (option Q) :=
  match l with
  | [] => []
  | h :: t => None :: diff_from h t
  end.

(** [valid]: the (ΔX, ΔY) pairs without NaN. *)
Definition valid_deltas (xy : list (Q * Q)) : list (Q * Q) :=
  flat_map (fun p => match p with
                     | (Some dx, Some dy) => [(dx, dy)]
                     | _ => []
                     end)
           (combine (diff (map fst xy)) (diff (map snd xy))).

Definition rising_x (xy : list (Q * Q)) : list (Q * Q) :=
  filter (fun p => Qlt_bool 0 (fst p)) (valid_deltas xy).

Definition rising_both (xy : list (Q * Q)) : list (Q * Q) :=
  filter (fun p => Qlt_bool 0 (snd p)) (rising_x xy).

Definition Qlen {A : Type} (l : list A) : Q := inject_Z (Z.of_nat (List.length l)).

(** Lines 208-221 of tools.py. *)
Definition directional_effect (xy : list (Q * Q)) : Directional :=
  if (List.length (rising_x xy) =? 0)%nat then
    mkDirectional NoPositiveChanges 0
  else
    let conditional_prob := (Qlen (rising_both xy) / Qlen (rising_x xy))%Q in
    mkDirectional (ConditionalProb conditional_prob (Qlt_bool (45 # 100) conditional_prob))
                  conditional_prob.

(** Python's [min] of a list. *)
Definition py_min (l : list Q) : result Q :=
  match l with
  | [] => Raise (ValueError "min() arg is an empty sequence")
  | h :: t => Ok (fold_left (fun m x => if Qlt_bool x m then x else m) t h)
  end.

Definition granger_verdict (best_p_value : Q) : GrangerVerdict :=
  if Qlt_bool best_p_value (5 # 100) then HelpsPredict else NoEvidence.

(** [idxmax] of the per-date counts: the first date with the largest count. *)
Definition peak_day (daily_counts : list (Z * nat)) : option (Z * nat) :=
  match daily_counts with
  | [] => None
  | h :: t => Some (fold_left (fun best dc =>
                                 if (snd best <? snd dc)%nat then dc else best) t h)
  end.

Definition dates_of (l : list Row) : list Z :=
  flat_map (fun r => match Date r with Some d => [d] | None => [] end) l.

Definition ts_eq_dec (a b : Timestamp) : {a = b} + {a <> b}.
Proof. decide equality. apply Z.eq_dec. Defined.

(** [series.nunique()] of a string column: distinct values, nulls apart. *)
Definition nunique (l : list (option string)) : nat :=
  List.length (nodup string_dec
                     (flat_map (fun o => match o with Some s => [s] | None => [] end) l)).

Definition Qlist_min (l : list Q) : option Q :=
  match l with
  | [] => None
  | h :: t => Some (fold_left (fun m x => if Qlt_bool x m then x else m) t h)
  end.

Definition Qlist_max (l : list Q) : option Q :=
  match l with
  | [] => None
  | h :: t => Some (fold_left (fun m x => if Qlt_bool m x then x else m) t h)
  end.

(** One line of [agg(['mean', 'min', 'max'])] with the count of missing
    values; an all-null column has NaN statistics. *)
Definition column_stats (mean : list Q -> Q) (l : list Row) (k : string) : KpiStats :=
  let col := map (cell k) l in
  let vals := dropna_values col in
  mkKpiStats k
             (List.length (filter (fun o => negb (notna o)) col))
             (if is_empty vals then None else Some (mean vals))
             (Qlist_min vals)
             (Qlist_max vals).

Section Engine.

(** The files on disk: [fs path] is the table that
    [pd.read_csv(path)] followed by the coercion of its Date column
    gives, or [None] when the file cannot be read. *)
Variable fs : string -> option DataFrame.

(** pandas' date parser on an argument string: [None] when the string
    cannot be parsed, [Some NaT] for the spellings of a null date. *)
Variable parse_datetime : string -> option Timestamp.

(** pandas' [Series.mean()] and the mean of [groupby(...)[...].mean()],
    of a non-empty list of float64 values: the value pandas returns,
    which is the exact average rounded as its summation and division
    round it (a finite value, the sum not overflowing). *)
Variable Series_mean : list Q -> Q.
Variable groupby_mean : list Q -> Q.

(** pandas' [df.sort_values("Date")]: the rows in ascending order of
    date; the order of the rows of one date is the library's. *)
Variable sort_values_Date : list Row -> list Row.

(** statsmodels' [grangercausalitytests(data, maxlag)], data rows being
    (response, predictor) pairs: for each lag tested, the p-value of
    its ["ssr_ftest"] entry. *)
Variable grangercausalitytests : list (Q * Q) -> nat -> result (list (nat * Q)).

Variable fmt_fixed : nat -> Q -> string.
Variable fmt_float : Q -> string.
Variable fmt_day : Z -> string.

Definition read_csv (path : string) : result DataFrame :=
  match fs path with
  | Some df => Ok df
  | None => Raise (FileNotFoundError path)
  end.

(** [pd.to_datetime(s, errors="coerce")] *)
Definition to_datetime_coerce (s : string) : Timestamp :=
  match parse_datetime s with
  | Some t => t
  | None => NaT
  end.

(** [pd.to_datetime(s)] *)
Definition to_datetime (s : string) : result Timestamp :=
  match parse_datetime s with
  | Some t => Ok t
  | None => Raise (ValueError ("Unknown datetime string format, unable to parse: " ++ s))
  end.

(** Lines 46-54 and 124-132: the window, with its defaults taken from
    the frame at hand. *)
Definition default_window (days : Z) (df : list Row) (start_date end_date : option string)
  : Timestamp * Timestamp :=
  let end_date := match truthy end_date with
                  | Some s => to_datetime_coerce s
                  | None => ts_max (map Date df)
                  end in
  let start_date := match truthy start_date with
                    | Some s => to_datetime_coerce s
                    | None => sub_days end_date days
                    end in
  (start_date, end_date).

(** *** get_site_kpi_extreme *)

(** Lines 39-57: the window and the rows in it. *)
Definition extreme_frame (kpi_name : string) (start_date end_date : option string)
  : result (Timestamp * Timestamp * list Row) :=
  df <- read_csv KPI_CSV_PATH ;;
  _ <- require_column df kpi_name ;;
  let df := dropna_subset [kpi_name] (rows df) in
  let '(start_date, end_date) := default_window 7 df start_date end_date in
  Ok (start_date, end_date, filter (in_window start_date end_date) df).

Definition series_idxmin {K : Type} (s : list (K * Q)) : result (K * Q) :=
  match idxmin s with
  | Some kv => Ok kv
  | None => Raise (ValueError "attempt to get argmin of an empty sequence")
  end.

Definition series_idxmax {K : Type} (s : list (K * Q)) : result (K * Q) :=
  match idxmax s with
  | Some kv => Ok kv
  | None => Raise (ValueError "attempt to get argmax of an empty sequence")
  end.

Definition get_site_kpi_extreme_body (kpi_name extreme_type : string)
           (start_date end_date : option string) : result Report :=
  ' (start_date, end_date, filtered) <- extreme_frame kpi_name start_date end_date ;;
  if is_empty filtered then
    Ok (ExtremeNoData kpi_name start_date end_date)
  else
    let avg_kpi := mean_by_site groupby_mean kpi_name filtered in
    if lower extreme_type =? "lowest" then
      ' (site_id, value) <- series_idxmin avg_kpi ;;
      Ok (ExtremeSite start_date end_date site_id "lowest" kpi_name value)
    else
      ' (site_id, value) <- series_idxmax avg_kpi ;;
      Ok (ExtremeSite start_date end_date site_id "highest" kpi_name value).

Definition get_site_kpi_extreme (kpi_name extreme_type : string)
           (start_date end_date : option string) : result string :=
  try_except
    (r <- get_site_kpi_extreme_body kpi_name extreme_type start_date end_date ;;
     Ok (render fmt_fixed fmt_float fmt_day r))
    (fun e => "Error processing KPI data: " ++ exn_str e).

(** *** get_peak_kpi_day_for_site *)

(** Lines 114-119: the rows of the site that have a date and a value. *)
Definition site_frame (site_id kpi_name : string) : result (list Row) :=
  df <- read_csv KPI_CSV_PATH ;;
  _ <- require_column df kpi_name ;;
  Ok (filter (site_is site_id) (dropna_subset [kpi_name] (rows df))).

Definition get_peak_kpi_day_for_site_body (site_id kpi_name extreme_type : string)
           (start_date end_date : option string) : result Report :=
  site_df <- site_frame site_id kpi_name ;;
  if is_empty site_df then
    Ok (PeakSiteNotFound site_id)
  else
    let '(start_date, end_date) := default_window 30 site_df start_date end_date in
    let site_df := filter (in_window start_date end_date) site_df in
    if is_empty site_df then
      Ok (PeakNoData site_id start_date end_date)
    else
      if lower extreme_type =? "lowest" then
        ' (peak_row, value) <- series_idxmin (row_values kpi_name site_df) ;;
        Ok (PeakDay (Date peak_row) site_id "lowest" kpi_name value start_date end_date)
      else
        ' (peak_row, value) <- series_idxmax (row_values kpi_name site_df) ;;
        Ok (PeakDay (Date peak_row) site_id "highest" kpi_name value start_date end_date).

Definition get_peak_kpi_day_for_site (site_id kpi_name extreme_type : string)
           (start_date end_date : option string) : result string :=
  try_except
    (r <- get_peak_kpi_day_for_site_body site_id kpi_name extreme_type start_date end_date ;;
     Ok (render fmt_fixed fmt_float fmt_day r))
    (fun e => "Error processing request: " ++ exn_str e).

(** *** compare_kpi_impact *)

(** Lines 182-192: here the date arguments are parsed without
    [errors="coerce"]. *)
Definition impact_frame (kpi_x kpi_y : string) (site_id start_date end_date : option string)
  : result (list Row) :=
  df <- read_csv KPI_CSV_PATH ;;
  _ <- require_column df kpi_x ;;
  _ <- require_column df kpi_y ;;
  let df := dropna_subset [kpi_x; kpi_y] (rows df) in
  let df := match truthy site_id with
            | Some s => filter (site_is s) df
            | None => df
            end in
  df <- match truthy start_date with
        | Some s => t <- to_datetime s ;; Ok (filter (fun r => ts_ge (Date r) t) df)
        | None => Ok df
        end ;;
  match truthy end_date with
  | Some s => t <- to_datetime s ;; Ok (filter (fun r => ts_le (Date r) t) df)
  | None => Ok df
  end.

(** Lines 198-202: the two columns, row by row.  With one name given
    twice the selection has two columns of that name and the assignment
    of its difference to a single column is refused. *)
Definition kpi_pairs (kpi_x kpi_y : string) (df : list Row) : result (list (Q * Q)) :=
  if kpi_x =? kpi_y then
    Raise (ValueError "Cannot set a DataFrame with multiple columns to the single column ΔX")
  else
    Ok (flat_map (fun r => match cell kpi_x r, cell kpi_y r with
                           | Some x, Some y => [(x, y)]
                           | _, _ => []
                           end) df).

(** [df[[kpi_y, kpi_x]]]: the response column first. *)
Definition response_first (xy : list (Q * Q)) : list (Q * Q) :=
  map (fun p => (snd p, fst p)) xy.

Definition compare_kpi_impact_body (kpi_x kpi_y : string)
           (site_id start_date end_date : option string) : result Report :=
  df <- impact_frame kpi_x kpi_y site_id start_date end_date ;;
  if is_empty df then
    Ok (ImpactNoData kpi_x kpi_y)
  else
    xy <- kpi_pairs kpi_x kpi_y (sort_values_Date df) ;;
    let directional := directional_effect xy in
    result <- grangercausalitytests (response_first xy) 2 ;;
    best_p_value <- py_min (map snd result) ;;
    Ok (Impact kpi_x kpi_y site_id directional best_p_value (granger_verdict best_p_value)).

Definition compare_kpi_impact (kpi_x kpi_y : string)
           (site_id start_date end_date : option string) : result string :=
  try_except
    (r <- compare_kpi_impact_body kpi_x kpi_y site_id start_date end_date ;;
     Ok (render fmt_fixed fmt_float fmt_day r))
    (fun e => "Error evaluating directional KPI impact: " ++ exn_str e).

(** *** describe_kpi_dataset *)

(** Lines 257-269, on a table that has its [Sector_ID] column (every
    row of the model carries the field), so that the sector count is a
    number. *)
Definition describe_kpi_dataset_body (dummy_input : option string) : result Report :=
  df <- read_csv KPI_CSV_PATH ;;
  if is_empty (rows df) then
    Ok DatasetEmpty
  else
    Ok (DatasetSummary (ts_min (map Date (rows df))) (ts_max (map Date (rows df)))
                       (nunique (map Site_ID (rows df)))
                       (nunique (map Sector_ID (rows df)))
                       (map (column_stats Series_mean (rows df)) (columns df))).

Definition describe_kpi_dataset (dummy_input : option string) : result string :=
  try_except
    (r <- describe_kpi_dataset_body dummy_input ;;
     Ok (render fmt_fixed fmt_float fmt_day r))
    (fun e => "Failed to describe KPI dataset: " ++ exn_str e).

(** *** kpi_anomalies *)

(** [if start_date: df = df[df["Date"] >= ...]] and the same for the end:
    a falsy bound leaves the frame as it is. *)
Definition date_filter (start_date end_date : option string) (l : list Row) : list Row :=
  let l := match truthy start_date with
           | Some s => filter (fun r => ts_ge (Date r) (to_datetime_coerce s)) l
           | None => l
           end in
  match truthy end_date with
  | Some s => filter (fun r => ts_le (Date r) (to_datetime_coerce s)) l
  | None => l
  end.

(** Lines 333-341: the anomaly rows of the KPI under the filters. *)
Definition anomaly_rows (kpi_name : string) (site_id sector_id start_date end_date : option string)
           (df : DataFrame) : list Row :=
  date_filter start_date end_date
              (entity_filter site_id sector_id (filter (kpi_is kpi_name) (rows df))).

(** Lines 364-372: the measurement rows the baseline is taken over. *)
Definition base_rows (kpi_name : string) (site_id sector_id start_date end_date : option string)
           (df_base : DataFrame) : list Row :=
  date_filter start_date end_date
              (entity_filter site_id sector_id
                             (filter (fun r => notna (cell kpi_name r)) (rows df_base))).

(** Reading a local variable that no assignment may have reached. *)
Definition local {A : Type} (name : string) (v : option A) : result A :=
  match v with
  | Some a => Ok a
  | None => Raise (UnboundLocalError name)
  end.

(** Lines 404-427, the co-occurrence step: [Kpis] is the group's list
    when the loop over the groups found one, [df] the filtered anomaly
    rows of the KPI. *)
Definition co_occurrence (kpi_name : string) (site_id sector_id : option string)
           (Kpis : option (list string)) (df : list Row) : result (list (string * nat)) :=
  Kpis <- local "Kpis" Kpis ;;
  let related_kpis := filter (fun k => negb (k =? kpi_name)) Kpis in
  let main_dates := nodup ts_eq_dec (map Date df) in
  df_full <- read_csv "Data/df_ensemble.csv" ;;
  let df_full := entity_filter site_id sector_id (rows df_full) in
  let df_same_days := filter (fun r => existsb (ts_eqb (Date r)) main_dates) df_full in
  Ok (flat_map (fun rkpi =>
                  let count := List.length (filter (kpi_is rkpi) df_same_days) in
                  if (0 <? count)%nat then [(rkpi, count)] else [])
               related_kpis).

Definition kpi_anomalies_body (kpi_name : string)
           (site_id sector_id start_date end_date : option string) : result Report :=
  df0 <- read_csv "Data/df_ensemble.csv" ;;
  let df := anomaly_rows kpi_name site_id sector_id start_date end_date df0 in
  let df_peak_check := filter (kpi_is kpi_name) df in
  let daily_counts := count_by_date (dates_of df_peak_check) in
  let peak_anomaly_note := peak_day daily_counts in
  if is_empty df then
    Ok (AnomalyNoData kpi_name)
  else
    df_base0 <- read_csv "Data/KPI_data_cleaned.csv" ;;
    _ <- require_column df_base0 kpi_name ;;
    let df_base := base_rows kpi_name site_id sector_id start_date end_date df_base0 in
    if is_empty df_base then
      Ok AnomalyNoBase
    else
      let kpi_avg := Series_mean (dropna_values (map (cell kpi_name) df_base)) in
      _ <- require_column df0 kpi_name ;;
      let anomaly_values := dropna_values (map (cell kpi_name) df) in
      let above_avg := filter (fun v => Qlt_bool kpi_avg v) anomaly_values in
      let below_avg := filter (fun v => Qle_bool v kpi_avg) anomaly_values in
      let anomaly_count := List.length anomaly_values in
      let avg_above := if is_empty above_avg then None else Some (Series_mean above_avg) in
      let avg_below := if is_empty below_avg then None else Some (Series_mean below_avg) in
      let found := find_group kpi_name in
      let group := match found with Some (g, _) => g | None => "unknown" end in
      let Kpis := option_map snd found in
      related_counts <- co_occurrence kpi_name site_id sector_id Kpis df ;;
      Kpis <- local "Kpis" Kpis ;;
      Ok (AnomalyReport kpi_name
            (mkAnomalySummary anomaly_count kpi_avg avg_above avg_below group Kpis
                              peak_anomaly_note related_counts)).

(** The signature's defaults apply to an argument the caller leaves out. *)
Definition kpi_anomalies (kpi_name : string) (site_id sector_id : option string)
           (start_date end_date : passed (option string)) : result string :=
  let start_date := or_default (Some "2024-01-01") start_date in
  let end_date := or_default (Some "2024-02-29") end_date in
  try_except
    (r <- kpi_anomalies_body kpi_name site_id sector_id start_date end_date ;;
     Ok (render fmt_fixed fmt_float fmt_day r))
    (fun e => "Error analyzing KPI anomalies: " ++ exn_str e).

End Engine.

(** ** Instances of the external functions and sample tables *)

Module Sample.

Definition digit (c : ascii) : option Z :=
  let n := nat_of_ascii c in
  if (48 <=? n)%nat && (n <=? 57)%nat then Some (Z.of_nat (n - 48)) else None.

Fixpoint digits (s : string) (acc : Z) : option Z :=
  match s with
  | EmptyString => Some acc
  | String c t =>
      match digit c with
      | Some d => digits t (10 * acc + d)
      | None => None
      end
  end.

Definition is_leap (y : Z) : bool :=
  ((y mod 4 =? 0) && negb (y mod 100 =? 0) || (y mod 400 =? 0))%Z.

Definition days_in_month (y m : Z) : Z :=
  if (m =? 2)%Z then (if is_leap y then 29 else 28)
  else if ((m =? 4) || (m =? 6) || (m =? 9) || (m =? 11))%Z then 30 else 31.

(** Days since 1970-01-01 of a civil date. *)
Definition days_from_civil (y m d : Z) : Z :=
  let y := if (m <=? 2)%Z then y - 1 else y in
  let era := y / 400 in
  let yoe := y - era * 400 in
  let doy := (153 * (if (2 <? m)%Z then m - 3 else m + 9) + 2) / 5 + d - 1 in
  let doe := yoe * 365 + yoe / 4 - yoe / 100 + doy in
  era * 146097 + doe - 719468.

(** A date parser that reads the [YYYY-MM-DD] form and the null
    spelling ["NaT"], and nothing else. *)
Definition iso_parse (s : string) : option Timestamp :=
  if s =? "NaT" then Some NaT
  else if (String.length s =? 10)%nat && (substring 4 1 s =? "-") && (substring 7 1 s =? "-")
  then
    match digits (substring 0 4 s) 0, digits (substring 5 2 s) 0, digits (substring 8 2 s) 0 with
    | Some y, Some m, Some d =>
        if ((1 <=? m) && (m <=? 12) && (1 <=? d) && (d <=? days_in_month y m))%Z
        then Some (Some (days_from_civil y m d))
        else None
    | _, _, _ => None
    end
  else None.

Definition str_Z (z : Z) : string := str_nat (Z.to_nat z).

Definition pad2 (z : Z) : string :=
  if (z <? 10)%Z then "0" ++ str_Z z else str_Z z.

(** The civil date of a day number, as [YYYY-MM-DD]. *)
Definition iso_day (z : Z) : string :=
  let z := z + 719468 in
  let era := z / 146097 in
  let doe := z - era * 146097 in
  let yoe := (doe - doe / 1460 + doe / 36524 - doe / 146096) / 365 in
  let doy := doe - (365 * yoe + yoe / 4 - yoe / 100) in
  let mp := (5 * doy + 2) / 153 in
  let d := doy - (153 * mp + 2) / 5 + 1 in
  let m := if (mp <? 10)%Z then mp + 3 else mp - 9 in
  let y := yoe + era * 400 + (if (m <=? 2)%Z then 1 else 0) in
  str_Z y ++ "-" ++ pad2 m ++ "-" ++ pad2 d.

Fixpoint zeros (n : nat) : string :=
  match n with
  | O => EmptyString
  | S n' => String "0" (zeros n')
  end.

Definition pad_left (w : nat) (s : string) : string :=
  zeros (w - String.length s) ++ s.

(** Decimal rendering with [n] places, ties to the even digit. *)
Definition decimal_fixed (n : nat) (q : Q) : string :=
  let scale := (10 ^ Z.of_nat n)%Z in
  let num := (Z.abs (Qnum q) * scale)%Z in
  let den := Zpos (Qden q) in
  let fl := (num / den)%Z in
  let r := (num mod den)%Z in
  let rounded := if (2 * r <? den)%Z then fl
                 else if (den <? 2 * r)%Z then (fl + 1)%Z
                      else if Z.even fl then fl else (fl + 1)%Z in
  (if (Qnum q <? 0)%Z then "-" else "")
    ++ str_Z (rounded / scale)
    ++ (if (n =? 0)%nat then "" else "." ++ pad_left n (str_Z (rounded mod scale))).

Definition decimal_float (q : Q) : string := decimal_fixed 4 q.

(** A Granger test that, as statsmodels does, refuses a series of at
    most [3 * maxlag + 1] observations, and otherwise reports the
    p-values [pvalue lag data] for the lags [1 .. maxlag]. *)
Definition granger_model (pvalue : nat -> list (Q * Q) -> Q)
           (data : list (Q * Q)) (maxlag : nat) : result (list (nat * Q)) :=
  if (List.length data <=? 3 * maxlag + 1)%nat then
    Raise (ValueError "Insufficient observations. Maximum allowable lag is 0")
  else
    Ok (map (fun lag => (lag, pvalue lag data)) (seq 1 maxlag)).

Definition pvalues (lag : nat) (data : list (Q * Q)) : Q :=
  match lag with
  | 1%nat => 12 # 100
  | _ => 3 # 100
  end.

(** A cell holding a whole number. *)
Definition num (z : Z) : option Q := Some (inject_Z z).

Definition measurement (d : Z) (site sector : string) (sinr rsrp thr lat : option Q) : Row :=
  mkRow (Some d) (Some site) (Some sector) None
        [("SINR", sinr); ("RSRP", rsrp); ("DL_Throughput", thr); ("Latency", lat)].

Definition anomaly (d : Z) (site sector kpi : string) (v : Q) : Row :=
  mkRow (Some d) (Some site) (Some sector) (Some kpi)
        [("SINR", if kpi =? "SINR" then Some v else None);
         ("RSRP", if kpi =? "RSRP" then Some v else None);
         ("DL_Throughput", if kpi =? "DL_Throughput" then Some v else None);
         ("Latency", if kpi =? "Latency" then Some v else None)].

Definition kpi_columns : list string := ["SINR"; "RSRP"; "DL_Throughput"; "Latency"].

(** Day 19723 is 2024-01-01. *)
Definition KPI_data_cleaned : DataFrame :=
  mkDataFrame kpi_columns
    [ measurement 19723 "SITE_001" "SITE_001_SECTOR_A" (num 10) (num (-90)) (num 50) (num 20);
      measurement 19724 "SITE_001" "SITE_001_SECTOR_A" (num 12) (num (-88)) (num 55) (num 21);
      measurement 19725 "SITE_001" "SITE_001_SECTOR_A" (num 11) (num (-91)) (num 52) (num 25);
      measurement 19726 "SITE_001" "SITE_001_SECTOR_A" (num 14) (num (-87)) (num 60) (num 19);
      measurement 19727 "SITE_001" "SITE_001_SECTOR_A" (num 13) (num (-89)) (num 58) (num 22);
      measurement 19728 "SITE_001" "SITE_001_SECTOR_A" (num 15) (num (-86)) (num 61) (num 18);
      measurement 19729 "SITE_001" "SITE_001_SECTOR_A" (num 9) (num (-93)) (num 47) (num 30);
      measurement 19730 "SITE_001" "SITE_001_SECTOR_A" (num 16) (num (-85)) (num 63) (num 17);
      measurement 19731 "SITE_001" "SITE_001_SECTOR_A" (num 12) (num (-90)) (num 54) (num 23);
      measurement 19730 "SITE_002" "SITE_002_SECTOR_B" (num 8) (num (-95)) (num 40) (num 35);
      measurement 19731 "SITE_002" "SITE_002_SECTOR_B" (num 6) (num (-97)) (num 38) (num 36);
      measurement 19731 "SITE_003" "SITE_003_SECTOR_A" (num 7) (num (-96)) None (num 33) ].

Definition df_ensemble : DataFrame :=
  mkDataFrame kpi_columns
    [ anomaly 19700 "SITE_001" "SITE_001_SECTOR_A" "SINR" 1;
      anomaly 19724 "SITE_001" "SITE_001_SECTOR_A" "SINR" 25;
      anomaly 19724 "SITE_001" "SITE_001_SECTOR_A" "RSRP" (-60);
      anomaly 19729 "SITE_001" "SITE_001_SECTOR_A" "SINR" 2;
      anomaly 19729 "SITE_001" "SITE_001_SECTOR_A" "DL_Throughput" 5;
      anomaly 19729 "SITE_002" "SITE_002_SECTOR_B" "RSRP" (-120);
      anomaly 19731 "SITE_002" "SITE_002_SECTOR_B" "SINR" 30;
      anomaly 19731 "SITE_002" "SITE_002_SECTOR_B" "RSRP" (-125);
      anomaly 19731 "SITE_001" "SITE_001_SECTOR_A" "Latency" 80 ].

Definition fs (path : string) : option DataFrame :=
  if path =? KPI_CSV_PATH then Some KPI_data_cleaned
  else if path =? "Data/KPI_data_cleaned.csv" then Some KPI_data_cleaned
  else if path =? "Data/df_ensemble.csv" then Some df_ensemble
  else None.

Definition granger := granger_model pvalues.

(** *** Binary64 arithmetic

    The float64 operations, on [spec_float] with 53 bits of precision:
    correctly rounded to nearest, ties to even. *)

Definition prec : Z := 53.
Definition emax : Z := 1024.

Definition float_add : spec_float -> spec_float -> spec_float := SFadd prec emax.
Definition float_sub : spec_float -> spec_float -> spec_float := SFsub prec emax.
Definition float_div : spec_float -> spec_float -> spec_float := SFdiv prec emax.

Definition float_of_Z (z : Z) : spec_float := binary_normalize prec emax z 0 false.

(** The float nearest to a rational; exact on the value of a float. *)
Definition float_of_Q (q : Q) : spec_float :=
  let q := Qred q in float_div (float_of_Z (Qnum q)) (float_of_Z (Zpos (Qden q))).

(** The rational a finite float stands for. *)
Definition Q_of_float (f : spec_float) : Q :=
  match f with
  | S754_finite s m e =>
      let z := cond_Zopp s (Zpos m) in
      Qred (if (0 <=? e)%Z then inject_Z (z * 2 ^ e) else z # Pos.shiftl 1 (Z.to_N (- e)))
  | _ => 0%Q
  end.

(** The float64 value [read_csv] gives for a decimal literal, and the
    next float above a value. *)
Definition double (q : Q) : Q := Q_of_float (float_of_Q q).
Definition next_up (q : Q) : Q := Q_of_float (SFsucc prec emax (float_of_Q q)).

(** [Series.mean()]: the sum of the values from left to right, divided
    by their number.  (On a long series pandas adds in blocks; the
    tables here hold integers, whose sums are exact in any order, or
    fewer than eight values, which are added from left to right.) *)
Definition Series_mean (l : list Q) : Q :=
  Q_of_float (float_div (fold_left float_add (map float_of_Q l) (S754_zero false))
                        (float_of_Z (Z.of_nat (List.length l)))).

(** One step of the compensated (Kahan) sum of pandas' group mean. *)
Definition kahan (acc : spec_float * spec_float) (val : spec_float)
  : spec_float * spec_float :=
  let '(sumx, compensation) := acc in
  let y := float_sub val compensation in
  let t := float_add sumx y in
  (t, float_sub (float_sub t sumx) y).

(** The mean of a group of [groupby(...).mean()]. *)
Definition groupby_mean (l : list Q) : Q :=
  Q_of_float
    (float_div (fst (fold_left kahan (map float_of_Q l) (S754_zero false, S754_zero false)))
               (float_of_Z (Z.of_nat (List.length l)))).

(** [df.sort_values("Date")] on rows whose dates are not NaT, rows of
    one date kept in their order (as pandas leaves them on a frame as
    short as the tables here). *)
Fixpoint insert_by_date (r : Row) (l : list Row) : list Row :=
  match l with
  | [] => [r]
  | h :: t =>
      match Date r, Date h with
      | Some a, Some b => if (a <? b)%Z then r :: l else h :: insert_by_date r t
      | _, _ => h :: insert_by_date r t
      end
  end.

Definition sort_values_Date (l : list Row) : list Row :=
  fold_left (fun acc r => insert_by_date r acc) l [].

(** *** Tables on which the rounding of a mean shows *)

(** The float64 value of the literal 0.1. *)
Definition tenth : Q := double (1 # 10).

(** SITE_A has three SINR measurements of 0.1, SITE_B one of the next
    float above 0.1; the RSRP column holds 0.1 three times. *)
Definition KPI_close_sites : DataFrame :=
  mkDataFrame kpi_columns
    [ measurement 19729 "SITE_A" "SITE_A_SECTOR_A" (Some tenth) (Some tenth) None None;
      measurement 19730 "SITE_A" "SITE_A_SECTOR_A" (Some tenth) (Some tenth) None None;
      measurement 19731 "SITE_A" "SITE_A_SECTOR_A" (Some tenth) (Some tenth) None None;
      measurement 19731 "SITE_B" "SITE_B_SECTOR_A" (Some (next_up tenth)) None None None ].

Definition fs_close_sites (path : string) : option DataFrame :=
  if path =? KPI_CSV_PATH then Some KPI_close_sites else None.

(** One measurement of 0.1 as the baseline; anomalies of 0.1 three
    times and of 5 once. *)
Definition KPI_one_measurement : DataFrame :=
  mkDataFrame kpi_columns
    [ measurement 19730 "SITE_001" "SITE_001_SECTOR_A" (Some tenth) None None None ].

Definition df_ensemble_at_baseline : DataFrame :=
  mkDataFrame kpi_columns
    [ anomaly 19724 "SITE_001" "SITE_001_SECTOR_A" "SINR" tenth;
      anomaly 19725 "SITE_001" "SITE_001_SECTOR_A" "SINR" tenth;
      anomaly 19726 "SITE_001" "SITE_001_SECTOR_A" "SINR" tenth;
      anomaly 19727 "SITE_001" "SITE_001_SECTOR_A" "SINR" 5 ].

Definition fs_at_baseline (path : string) : option DataFrame :=
  if path =? "Data/KPI_data_cleaned.csv" then Some KPI_one_measurement
  else if path =? "Data/df_ensemble.csv" then Some df_ensemble_at_baseline
  else None.

End Sample.

(** ** Vocabulary of the statements *)

(** The exact average of a non-empty list of values, which pandas' means
    approximate in float64.  The operations do not compute it: it is the
    average that the statements compare the computed means with. *)
Definition Qsum (l : list Q) : Q := fold_right Qplus 0%Q l.

Definition Qmean (l : list Q) : Q := (Qsum l / inject_Z (Z.of_nat (List.length l)))%Q.

(** The row passes the site and sector filters that were given. *)
Definition entity_ok (site_id sector_id : option string) (r : Row) : Prop :=
  (forall s, truthy site_id = Some s -> Site_ID r = Some s)
  /\ (forall s, truthy sector_id = Some s -> Sector_ID r = Some s).

(** The row's date is on or after the parsed start bound, when one is
    given. *)
Definition from_ok (parse_datetime : string -> option Timestamp)
           (start_date : option string) (r : Row) : Prop :=
  forall s, truthy start_date = Some s ->
            exists d b, Date r = Some d
                        /\ to_datetime_coerce parse_datetime s = Some b /\ (b <= d)%Z.

Definition until_ok (parse_datetime : string -> option Timestamp)
           (end_date : option string) (r : Row) : Prop :=
  forall s, truthy end_date = Some s ->
            exists d b, Date r = Some d
                        /\ to_datetime_coerce parse_datetime s = Some b /\ (d <= b)%Z.

(** The co-occurrence section as the specification words it: another KPI
    of the semantic group of [kpi_name] ... *)
Definition same_group_other (kpi_name k : string) : Prop :=
  k <> kpi_name
  /\ exists g, In g kpi_groups /\ In kpi_name (snd g) /\ In k (snd g).

(** ... and the number of its anomaly rows, among the rows of the
    anomaly table that pass the site and sector filters alone, whose date
    is a date of one of the main rows. *)
Definition entity_passes (site_id sector_id : option string) (r : Row) : bool :=
  match truthy site_id with Some s => site_is s r | None => true end
  && match truthy sector_id with Some s => sector_is s r | None => true end.

Definition on_main_date (main : list Row) (r : Row) : bool :=
  existsb (fun m => ts_eqb (Date m) (Date r)) main.

Definition co_occurrence_count (site_id sector_id : option string)
           (table main : list Row) (k : string) : nat :=
  List.length (filter (fun r => entity_passes site_id sector_id r
                                && on_main_date main r && kpi_is k r) table).

(** The values of [kpi] in the rows of a site, in row order: what the
    site's windowed average is the mean of. *)
Definition site_kpi_values (kpi site : string) (l : list Row) : list Q :=
  flat_map (fun r => if site_is site r
                     then match cell kpi r with Some v => [v] | None => [] end
                     else []) l.

(** The values paired with a key, in order; the first entry of a key in
    an association list. *)
Definition values_of {V : Type} (k : string) (kvs : list (string * V)) : list V :=
  map snd (filter (fun p => fst p =? k) kvs).

Fixpoint lookup {V : Type} (k : string) (g : list (string * V)) : option V :=
  match g with
  | [] => None
  | (k', v) :: t => if k =? k' then Some v else lookup k t
  end.

(** ** The script's copy of kpi_anomalies (test.py) *)

Module Test.

(** test.py, lines 107-113: five groups, throughput apart from latency. *)
Definition kpi_groups : list (string * list string) :=
  [ ("signal", ["RSRP"; "SINR"]);
    ("throughput", ["DL_Throughput"; "UL_Throughput"]);
    ("latency", ["RTT"]);
    ("access", ["Active_Users"; "CPU_Utilization"; "Handover_Success_Rate"]);
    ("stability", ["Packet_Loss"; "Call_Drop_Rate"]) ].

Definition rel_kpi : list string :=
  [ "RSRP"; "SINR"; "DL_Throughput"; "RTT"; "UL_Throughput"; "CPU_Utilization";
    "Call_Drop_Rate"; "Active_Users"; "Handover_Success_Rate"; "Packet_Loss" ].

Definition find_group (kpi_name : string) : option (string * list string) :=
  find (fun g => existsb (String.eqb kpi_name) (snd g)) kpi_groups.

Section Script.

Variable fs : string -> option DataFrame.
Variable parse_datetime : string -> option Timestamp.
Variable Series_mean : list Q -> Q.
Variable fmt_fixed : nat -> Q -> string.
Variable fmt_float : Q -> string.
Variable fmt_day : Z -> string.

(** Lines 124-147: the related KPIs are all the KPIs of [rel_kpi] but the
    one asked for, whatever their group. *)
Definition co_occurrence (kpi_name : string) (site_id sector_id : option string)
           (df : list Row) : result (list (string * nat)) :=
  let related_kpis := filter (fun k => negb (k =? kpi_name)) rel_kpi in
  let main_dates := nodup ts_eq_dec (map Date df) in
  df_full <- read_csv fs "Data/df_ensemble.csv" ;;
  let df_full := entity_filter site_id sector_id (rows df_full) in
  let df_same_days := filter (fun r => existsb (ts_eqb (Date r)) main_dates) df_full in
  Ok (flat_map (fun rkpi =>
                  let count := List.length (filter (kpi_is rkpi) df_same_days) in
                  if (0 <? count)%nat then [(rkpi, count)] else [])
               related_kpis).

Definition kpi_anomalies_body (kpi_name : string)
           (site_id sector_id start_date end_date : option string) : result Report :=
  df0 <- read_csv fs "Data/df_ensemble.csv" ;;
  let df := anomaly_rows parse_datetime kpi_name site_id sector_id start_date end_date df0 in
  let df_peak_check := filter (kpi_is kpi_name) df in
  let daily_counts := count_by_date (dates_of df_peak_check) in
  let peak_anomaly_note := peak_day daily_counts in
  if is_empty df then
    Ok (AnomalyNoData kpi_name)
  else
    df_base0 <- read_csv fs "Data/KPI_data_cleaned.csv" ;;
    _ <- require_column df_base0 kpi_name ;;
    let df_base :=
      base_rows parse_datetime kpi_name site_id sector_id start_date end_date df_base0 in
    if is_empty df_base then
      Ok AnomalyNoBase
    else
      let kpi_avg := Series_mean (dropna_values (map (cell kpi_name) df_base)) in
      _ <- require_column df0 kpi_name ;;
      let anomaly_values := dropna_values (map (cell kpi_name) df) in
      let above_avg := filter (fun v => Qlt_bool kpi_avg v) anomaly_values in
      let below_avg := filter (fun v => Qle_bool v kpi_avg) anomaly_values in
      let anomaly_count := List.length anomaly_values in
      let avg_above := if is_empty above_avg then None else Some (Series_mean above_avg) in
      let avg_below := if is_empty below_avg then None else Some (Series_mean below_avg) in
      let found := find_group kpi_name in
      let group := match found with Some (g, _) => g | None => "unknown" end in
      let Kpis := option_map snd found in
      related_counts <- co_occurrence kpi_name site_id sector_id df ;;
      Kpis <- local "Kpis" Kpis ;;
      Ok (AnomalyReport kpi_name
            (mkAnomalySummary anomaly_count kpi_avg avg_above avg_below group Kpis
                              peak_anomaly_note related_counts)).

Definition render_related (rc : list (string * nat)) : string :=
  match rc with
  | [] => ""
  | _ :: _ =>
      "On the same days, anomalies also occurred in:" ++ nl
        ++ String.concat "" (map (fun kv => "- `" ++ fst kv ++ "`: " ++ str_nat (snd kv)
                                              ++ " times" ++ nl) rc)
  end.

Definition render_anomalies (kpi_name : string) (s : AnomalySummary) : string :=
  "**Anomaly Summary for KPI: `" ++ kpi_name ++ "`**" ++ nl ++ nl
    ++ "**Date Range Analyzed**: Based on filtered inputs or inferred from peak anomaly activity."
    ++ nl ++ nl
    ++ "**Key Statistics**:" ++ nl
    ++ "- Total anomalies detected: **" ++ str_nat (anomaly_count s) ++ "**" ++ nl
    ++ "- Baseline average of `" ++ kpi_name ++ "`: **" ++ fmt_fixed 2 (kpi_avg s)
    ++ "**" ++ nl
    ++ "- Avg anomaly value **above** baseline: **" ++ fmt_placeholder fmt_float (avg_above s)
    ++ "**" ++ nl
    ++ "- Avg anomaly value **below** baseline: **" ++ fmt_placeholder fmt_float (avg_below s)
    ++ "**" ++ nl ++ nl
    ++ "**KPI Group Classification**:" ++ nl
    ++ "- Group: **" ++ capitalize (group s) ++ "**" ++ nl
    ++ "- Related KPIs: " ++ String.concat ", " (Kpis s) ++ nl ++ nl
    ++ "**Peak Anomaly Info**:" ++ nl
    ++ render_peak_note fmt_day kpi_name (peak_anomaly_note s)
    ++ "**Co-occurring Anomalies**:" ++ nl
    ++ render_related (related_counts s) ++ nl
    ++ "**LLM Usage Instructions**:" ++ nl
    ++ "- Use this summary to respond to questions about `" ++ kpi_name
    ++ "` trends, anomaly patterns, and relationships." ++ nl
    ++ "- If a user asks about **why** anomalies occurred, do **not** generate speculative causes."
    ++ nl
    ++ "- Instead, guide the user toward requesting a root cause analysis." ++ nl.

Definition render (r : Report) : string :=
  match r with
  | AnomalyReport kpi_name s => render_anomalies kpi_name s
  | _ => render fmt_fixed fmt_float fmt_day r
  end.

Definition kpi_anomalies (kpi_name : string) (site_id sector_id : option string)
           (start_date end_date : passed (option string)) : result string :=
  let start_date := or_default (Some "2024-01-01") start_date in
  let end_date := or_default (Some "2024-02-29") end_date in
  try_except
    (r <- kpi_anomalies_body kpi_name site_id sector_id start_date end_date ;;
     Ok (render r))
    (fun e => "Error analyzing KPI anomalies: " ++ exn_str e).

End Script.

End Test.

(** ** The server's reply (MCP_server.py) *)

Module MCP_server.

(** A message of the agent's result: its [type] and its [content]. *)
Record Message : Type := mkMessage {
  type : string;
  content : string
}.

(** Lines 28-29: the first message of type "ai" from the end. *)
Definition last_ai (messages : list Message) : option Message :=
  find (fun msg => type msg =? "ai") (rev messages).

Section Invoke.

(** [agent_executor.invoke]: the result's ["messages"] entry, [None]
    when the result has no such key. *)
Variable agent_executor : string -> list Message -> result (option (list Message)).

(** Lines 22-31; an exception of the agent is not caught here. *)
Definition invoke_agent (input : string) (chat_history : list Message) : result string :=
  result <- agent_executor input chat_history ;;
  let messages := match result with Some ms => ms | None => [] end in
  Ok match last_ai messages with
     | Some msg => content msg
     | None => "❌ No response generated."
     end.

End Invoke.

End MCP_server.

(** ** The chat front end (app.py) *)

Module App.

Inductive Msg : Type :=
| HumanMessage (content : string)
| AIMessage (content : string).

Section Chat.

(** [requests.post(API_URL, json=payload).json()["output"]] for the input
    and the history sent: the server's output, or the exception met. *)
Variable post : string -> list Msg -> result string.

(** Lines 12-33, on the global [chat_history]: the reply and the history
    after the call. *)
Definition chat (chat_history : list Msg) (user_input : string) : string * list Msg :=
  let result := match post user_input chat_history with
                | Ok output => output
                | Raise e => "Error: " ++ exn_str e
                end in
  (result, (chat_history ++ [HumanMessage user_input; AIMessage result])%list).

(** Lines 56-59: the handler of the send button, on the global history
    and the chatbot's transcript; it gives back the emptied text box. *)
Definition respond (chat_history : list Msg) (message : string)
           (history : list (string * string))
  : string * list (string * string) * list Msg :=
  let '(reply, chat_history) := chat chat_history message in
  ("", (history ++ [(message, reply)])%list, chat_history).

(** The send button pressed for each message in turn. *)
Fixpoint respond_all (chat_history : list Msg) (history : list (string * string))
         (inputs : list string) : list (string * string) * list Msg :=
  match inputs with
  | [] => (history, chat_history)
  | message :: rest =>
      let '(_, history, chat_history) := respond chat_history message history in
      respond_all chat_history history rest
  end.

End Chat.

(** The messages of a transcript, in order. *)
Definition transcript_messages (history : list (string * string)) : list Msg :=
  flat_map (fun p => [HumanMessage (fst p); AIMessage (snd p)]) history.

End App.

(** ** Further vocabulary *)

(** The number of rows dated [d]. *)
Definition rows_on (d : Z) (l : list Row) : nat :=
  List.length (filter (fun r => ts_eqb (Date r) (Some d)) l).

(** The count stored for a date in a list of per-date counts, 0 when the
    date is not listed. *)
Fixpoint count_at (d : Z) (g : list (Z * nat)) : nat :=
  match g with
  | [] => 0%nat
  | (d', n) :: t => if (d =? d')%Z then n else count_at d t
  end.

(** The non-null values of a column. *)
Definition column_values (kpi : string) (l : list Row) : list Q :=
  dropna_values (map (cell kpi) l).

(** Ascending order of site identifiers, as [groupby] sorts them. *)
Definition site_le (a b : string) : Prop := a = b \/ String_as_OT.lt a b.

(** * Properties *)

(** ** The error monad *)

Lemma bind_Ok_inv {A B : Type} (m : result A) (k : A -> result B) (b : B) :
  bind m k = Ok b -> exists a, m = Ok a /\ k a = Ok b.
Proof.
  destruct m as [a | e]; simpl; intros H.
  - exists a; split; [reflexivity | exact H].
  - discriminate H.
Qed.

Lemma rendered_try_except (render : Report -> string) (body : result Report)
      (handler : exn -> string) :
  exists s, try_except (r <- body ;; Ok (render r)) handler = Ok s
            /\ match body with
               | Ok r => s = render r
               | Raise e => s = handler e
               end.
Proof.
  destruct body as [r | e]; simpl; eexists; split; reflexivity.
Qed.

Lemma is_empty_false {A : Type} (l : list A) : l <> [] -> is_empty l = false.
Proof. destruct l; [congruence | reflexivity]. Qed.

Lemma is_empty_true {A : Type} (l : list A) : is_empty l = true <-> l = [].
Proof. destruct l; simpl; split; congruence. Qed.

Lemma is_empty_false_iff {A : Type} (l : list A) : is_empty l = false <-> l <> [].
Proof. destruct l; simpl; split; congruence. Qed.

Ltac inv_bind H :=
  let a := fresh "a" in
  let E := fresh "E" in
  apply bind_Ok_inv in H; destruct H as [a [E H]].

(** ** Comparisons on rationals *)

Lemma Qlt_bool_iff (a b : Q) : Qlt_bool a b = true <-> (a < b)%Q.
Proof.
  unfold Qlt_bool. rewrite negb_true_iff.
  split; intros H.
  - apply Qnot_le_lt. intros Hle. apply Qle_bool_iff in Hle. congruence.
  - destruct (Qle_bool b a) eqn:E; [ | reflexivity ].
    apply Qle_bool_iff in E. exfalso. exact (Qlt_not_le _ _ H E).
Qed.

Lemma Qlt_bool_false_iff (a b : Q) : Qlt_bool a b = false <-> (b <= a)%Q.
Proof.
  unfold Qlt_bool. rewrite negb_false_iff. apply Qle_bool_iff.
Qed.

Section OperationsTotal.

Variable fs : string -> option DataFrame.
Variable parse_datetime : string -> option Timestamp.
Variable Series_mean : list Q -> Q.
Variable groupby_mean : list Q -> Q.
Variable sort_values_Date : list Row -> list Row.
Variable grangercausalitytests : list (Q * Q) -> nat -> result (list (nat * Q)).
Variable fmt_fixed : nat -> Q -> string.
Variable fmt_float : Q -> string.
Variable fmt_day : Z -> string.

Local Abbreviation text := (render fmt_fixed fmt_float fmt_day).

(** C1: each of the five public operations returns a string for every
    argument combination and every content of the files, and never
    raises: the string is the rendered report of the body, or, when the
    body raises [e], the operation's error text for [e]. *)
Theorem public_operations_return_text :
  (forall kpi_name extreme_type start_date end_date,
      exists s,
        get_site_kpi_extreme fs parse_datetime groupby_mean fmt_fixed fmt_float fmt_day
                             kpi_name extreme_type start_date end_date = Ok s
        /\ match get_site_kpi_extreme_body fs parse_datetime groupby_mean
                   kpi_name extreme_type start_date end_date with
           | Ok r => s = text r
           | Raise e => s = "Error processing KPI data: " ++ exn_str e
           end)
  /\ (forall site_id kpi_name extreme_type start_date end_date,
         exists s,
           get_peak_kpi_day_for_site fs parse_datetime fmt_fixed fmt_float fmt_day
                                     site_id kpi_name extreme_type start_date end_date = Ok s
           /\ match get_peak_kpi_day_for_site_body fs parse_datetime
                      site_id kpi_name extreme_type start_date end_date with
              | Ok r => s = text r
              | Raise e => s = "Error processing request: " ++ exn_str e
              end)
  /\ (forall kpi_x kpi_y site_id start_date end_date,
         exists s,
           compare_kpi_impact fs parse_datetime sort_values_Date grangercausalitytests
                              fmt_fixed fmt_float fmt_day
                              kpi_x kpi_y site_id start_date end_date = Ok s
           /\ match compare_kpi_impact_body fs parse_datetime sort_values_Date grangercausalitytests
                      kpi_x kpi_y site_id start_date end_date with
              | Ok r => s = text r
              | Raise e => s = "Error evaluating directional KPI impact: " ++ exn_str e
              end)
  /\ (forall dummy_input,
         exists s,
           describe_kpi_dataset fs Series_mean fmt_fixed fmt_float fmt_day dummy_input = Ok s
           /\ match describe_kpi_dataset_body fs Series_mean dummy_input with
              | Ok r => s = text r
              | Raise e => s = "Failed to describe KPI dataset: " ++ exn_str e
              end)
  /\ (forall kpi_name site_id sector_id start_date end_date,
         exists s,
           kpi_anomalies fs parse_datetime Series_mean fmt_fixed fmt_float fmt_day
                         kpi_name site_id sector_id start_date end_date = Ok s
           /\ match kpi_anomalies_body fs parse_datetime Series_mean kpi_name site_id sector_id
                      (or_default (Some "2024-01-01") start_date)
                      (or_default (Some "2024-02-29") end_date) with
              | Ok r => s = text r
              | Raise e => s = "Error analyzing KPI anomalies: " ++ exn_str e
              end).
Proof.
  repeat split; intros; apply rendered_try_except.
Qed.

End OperationsTotal.

(** ** Row filters *)

Lemma site_is_true (s : string) (r : Row) : site_is s r = true <-> Site_ID r = Some s.
Proof.
  unfold site_is. destruct (Site_ID r) as [s' | ].
  - rewrite String.eqb_eq. split; congruence.
  - split; discriminate.
Qed.

Lemma sector_is_true (s : string) (r : Row) : sector_is s r = true <-> Sector_ID r = Some s.
Proof.
  unfold sector_is. destruct (Sector_ID r) as [s' | ].
  - rewrite String.eqb_eq. split; congruence.
  - split; discriminate.
Qed.

Lemma kpi_is_true (k : string) (r : Row) : kpi_is k r = true <-> KPI r = Some k.
Proof.
  unfold kpi_is. destruct (KPI r) as [s' | ].
  - rewrite String.eqb_eq. split; congruence.
  - split; discriminate.
Qed.

Lemma ts_ge_true (d b : Timestamp) :
  ts_ge d b = true <-> exists x y, d = Some x /\ b = Some y /\ (y <= x)%Z.
Proof.
  unfold ts_ge. destruct d as [x | ], b as [y | ].
  - rewrite Z.leb_le. split.
    + intros H. exists x, y. auto.
    + intros (x' & y' & Hx & Hy & H). congruence.
  - split; [discriminate | intros (x' & y' & _ & Hy & _); discriminate].
  - split; [discriminate | intros (x' & y' & Hx & _); discriminate].
  - split; [discriminate | intros (x' & y' & Hx & _); discriminate].
Qed.

Lemma ts_le_true (d b : Timestamp) :
  ts_le d b = true <-> exists x y, d = Some x /\ b = Some y /\ (x <= y)%Z.
Proof.
  unfold ts_le. destruct d as [x | ], b as [y | ].
  - rewrite Z.leb_le. split.
    + intros H. exists x, y. auto.
    + intros (x' & y' & Hx & Hy & H). congruence.
  - split; [discriminate | intros (x' & y' & _ & Hy & _); discriminate].
  - split; [discriminate | intros (x' & y' & Hx & _); discriminate].
  - split; [discriminate | intros (x' & y' & Hx & _); discriminate].
Qed.

Lemma In_entity_filter (site_id sector_id : option string) (l : list Row) (r : Row) :
  In r (entity_filter site_id sector_id l) <-> In r l /\ entity_ok site_id sector_id r.
Proof.
  unfold entity_filter, entity_ok.
  destruct (truthy site_id) as [s | ], (truthy sector_id) as [t | ];
    repeat rewrite filter_In; repeat rewrite site_is_true; repeat rewrite sector_is_true.
  - split.
    + intros [[H1 H2] H3]. repeat split; auto; intros ? E; congruence.
    + intros (H1 & H2 & H3). auto.
  - split.
    + intros [H1 H2]. repeat split; auto; intros ? E; congruence.
    + intros (H1 & H2 & H3). auto.
  - split.
    + intros [H1 H2]. repeat split; auto; intros ? E; congruence.
    + intros (H1 & H2 & H3). auto.
  - split.
    + intros H1. repeat split; auto; intros ? E; congruence.
    + intros (H1 & _). exact H1.
Qed.

Section DateFilter.

Variable parse_datetime : string -> option Timestamp.
Variable Series_mean : list Q -> Q.

Lemma In_date_filter (start_date end_date : option string) (l : list Row) (r : Row) :
  In r (date_filter parse_datetime start_date end_date l)
  <-> In r l /\ from_ok parse_datetime start_date r /\ until_ok parse_datetime end_date r.
Proof.
  unfold date_filter, from_ok, until_ok.
  destruct (truthy start_date) as [s | ], (truthy end_date) as [t | ];
    repeat rewrite filter_In; repeat rewrite ts_ge_true; repeat rewrite ts_le_true.
  - split.
    + intros [[H1 H2] H3]. repeat split; auto; intros ? E; inversion E; subst; assumption.
    + intros (H1 & H2 & H3). auto.
  - split.
    + intros [H1 H2]. repeat split; auto; intros ? E; inversion E; subst; assumption.
    + intros (H1 & H2 & H3). auto.
  - split.
    + intros [H1 H2]. repeat split; auto; intros ? E; inversion E; subst; assumption.
    + intros (H1 & H2 & H3). auto.
  - split.
    + intros H1. repeat split; auto; intros ? E; discriminate.
    + intros (H1 & _). exact H1.
Qed.

Lemma In_anomaly_rows kpi_name site_id sector_id start_date end_date df r :
  In r (anomaly_rows parse_datetime kpi_name site_id sector_id start_date end_date df)
  <-> In r (rows df) /\ KPI r = Some kpi_name /\ entity_ok site_id sector_id r
      /\ from_ok parse_datetime start_date r /\ until_ok parse_datetime end_date r.
Proof.
  unfold anomaly_rows.
  rewrite In_date_filter, In_entity_filter, filter_In, kpi_is_true. tauto.
Qed.

Lemma In_base_rows kpi_name site_id sector_id start_date end_date df r :
  In r (base_rows parse_datetime kpi_name site_id sector_id start_date end_date df)
  <-> In r (rows df) /\ notna (cell kpi_name r) = true /\ entity_ok site_id sector_id r
      /\ from_ok parse_datetime start_date r /\ until_ok parse_datetime end_date r.
Proof.
  unfold base_rows.
  rewrite In_date_filter, In_entity_filter, filter_In. tauto.
Qed.

Lemma falsy_bound (bound : option string) :
  bound = None \/ bound = Some "" -> truthy bound = None.
Proof. intros [-> | ->]; reflexivity. Qed.

(** C10: the default window of [kpi_anomalies] is used for an argument the
    caller leaves out; an explicit [None] or empty string is passed on as
    it is and switches that bound off: the anomaly rows and the baseline
    rows are then exactly the rows that pass the KPI, entity and other
    bound's tests, whatever their date is on that side. *)
Theorem explicit_null_bound_disables_date_filter :
  forall (bound : option string),
    bound = None \/ bound = Some "" ->
    forall kpi_name site_id sector_id other df r,
      (In r (anomaly_rows parse_datetime kpi_name site_id sector_id bound other df)
       <-> In r (rows df) /\ KPI r = Some kpi_name /\ entity_ok site_id sector_id r
           /\ until_ok parse_datetime other r)
      /\ (In r (base_rows parse_datetime kpi_name site_id sector_id bound other df)
          <-> In r (rows df) /\ notna (cell kpi_name r) = true
              /\ entity_ok site_id sector_id r /\ until_ok parse_datetime other r)
      /\ (In r (anomaly_rows parse_datetime kpi_name site_id sector_id other bound df)
          <-> In r (rows df) /\ KPI r = Some kpi_name /\ entity_ok site_id sector_id r
              /\ from_ok parse_datetime other r)
      /\ (In r (base_rows parse_datetime kpi_name site_id sector_id other bound df)
          <-> In r (rows df) /\ notna (cell kpi_name r) = true
              /\ entity_ok site_id sector_id r /\ from_ok parse_datetime other r)
      /\ (forall fs fmt_fixed fmt_float fmt_day p,
             kpi_anomalies fs parse_datetime Series_mean fmt_fixed fmt_float fmt_day
                           kpi_name site_id sector_id (Passed bound) p
             = try_except
                 (rep <- kpi_anomalies_body fs parse_datetime Series_mean kpi_name site_id sector_id
                                            bound (or_default (Some "2024-02-29") p) ;;
                  Ok (render fmt_fixed fmt_float fmt_day rep))
                 (fun e => "Error analyzing KPI anomalies: " ++ exn_str e))
      /\ (forall fs fmt_fixed fmt_float fmt_day p,
             kpi_anomalies fs parse_datetime Series_mean fmt_fixed fmt_float fmt_day
                           kpi_name site_id sector_id p (Passed bound)
             = try_except
                 (rep <- kpi_anomalies_body fs parse_datetime Series_mean kpi_name site_id sector_id
                                            (or_default (Some "2024-01-01") p) bound ;;
                  Ok (render fmt_fixed fmt_float fmt_day rep))
                 (fun e => "Error analyzing KPI anomalies: " ++ exn_str e))
      /\ (forall fs fmt_fixed fmt_float fmt_day,
             kpi_anomalies fs parse_datetime Series_mean fmt_fixed fmt_float fmt_day
                           kpi_name site_id sector_id Omitted Omitted
             = kpi_anomalies fs parse_datetime Series_mean fmt_fixed fmt_float fmt_day
                             kpi_name site_id sector_id
                             (Passed (Some "2024-01-01")) (Passed (Some "2024-02-29"))).
Proof.
  intros bound Hb kpi_name site_id sector_id other df r.
  pose proof (falsy_bound bound Hb) as Hf.
  assert (Hfrom : from_ok parse_datetime bound r).
  { intros s E. rewrite Hf in E. discriminate. }
  assert (Huntil : until_ok parse_datetime bound r).
  { intros s E. rewrite Hf in E. discriminate. }
  rewrite !In_anomaly_rows, !In_base_rows.
  split; [tauto | ].
  split; [tauto | ].
  split; [tauto | ].
  split; [tauto | ].
  split; [intros; reflexivity | ].
  split; intros; reflexivity.
Qed.

End DateFilter.

(** ** Means *)

Lemma Qlen_cons {A : Type} (x : A) (l : list A) : (Qlen (x :: l) == Qlen l + 1)%Q.
Proof.
  unfold Qlen. cbn [List.length]. rewrite Nat2Z.inj_succ. unfold Z.succ.
  rewrite inject_Z_plus. reflexivity.
Qed.

Lemma Qlen_nonneg {A : Type} (l : list A) : (0 <= Qlen l)%Q.
Proof.
  unfold Qlen. change 0%Q with (inject_Z 0). rewrite <- Zle_Qle. lia.
Qed.

Lemma Qlen_pos {A : Type} (l : list A) : l <> [] -> (0 < Qlen l)%Q.
Proof.
  destruct l as [ | x t]; [congruence | intros _].
  rewrite Qlen_cons. pose proof (Qlen_nonneg t) as H.
  set (n := Qlen t) in *. clearbody n. lra.
Qed.

Lemma Qsum_ge (b : Q) (l : list Q) :
  (forall x, In x l -> (b <= x)%Q) -> (Qlen l * b <= Qsum l)%Q.
Proof.
  induction l as [ | x t IH]; intros H.
  - change (0 * b <= 0)%Q. lra.
  - rewrite Qlen_cons. change (Qsum (x :: t)) with (x + Qsum t)%Q.
    assert (Hx : (b <= x)%Q) by (apply H; left; reflexivity).
    assert (Ht : (Qlen t * b <= Qsum t)%Q) by (apply IH; intros y Hy; apply H; right; exact Hy).
    set (n := Qlen t) in *. set (sm := Qsum t) in *. clearbody n sm. lra.
Qed.

Lemma Qsum_le (b : Q) (l : list Q) :
  (forall x, In x l -> (x <= b)%Q) -> (Qsum l <= Qlen l * b)%Q.
Proof.
  induction l as [ | x t IH]; intros H.
  - change (0 <= 0 * b)%Q. lra.
  - rewrite Qlen_cons. change (Qsum (x :: t)) with (x + Qsum t)%Q.
    assert (Hx : (x <= b)%Q) by (apply H; left; reflexivity).
    assert (Ht : (Qsum t <= Qlen t * b)%Q) by (apply IH; intros y Hy; apply H; right; exact Hy).
    set (n := Qlen t) in *. set (sm := Qsum t) in *. clearbody n sm. lra.
Qed.

Lemma Qsum_gt (b : Q) (l : list Q) :
  l <> [] -> (forall x, In x l -> (b < x)%Q) -> (Qlen l * b < Qsum l)%Q.
Proof.
  destruct l as [ | x t]; [congruence | intros _ H].
  rewrite Qlen_cons. change (Qsum (x :: t)) with (x + Qsum t)%Q.
  assert (Hx : (b < x)%Q) by (apply H; left; reflexivity).
  assert (Ht : (Qlen t * b <= Qsum t)%Q).
  { apply Qsum_ge. intros y Hy. apply Qlt_le_weak, H. right; exact Hy. }
  set (n := Qlen t) in *. set (sm := Qsum t) in *. clearbody n sm. lra.
Qed.

(** The mean of values that all exceed [b] exceeds [b]. *)
Lemma Qmean_gt (b : Q) (l : list Q) :
  l <> [] -> (forall x, In x l -> (b < x)%Q) -> (b < Qmean l)%Q.
Proof.
  intros Hne H. unfold Qmean. fold (Qlen l).
  apply Qlt_shift_div_l; [apply Qlen_pos; exact Hne | ].
  rewrite Qmult_comm. apply Qsum_gt; assumption.
Qed.

(** The mean of values that are all at most [b] is at most [b]. *)
Lemma Qmean_le (b : Q) (l : list Q) :
  l <> [] -> (forall x, In x l -> (x <= b)%Q) -> (Qmean l <= b)%Q.
Proof.
  intros Hne H. unfold Qmean. fold (Qlen l).
  apply Qle_shift_div_r; [apply Qlen_pos; exact Hne | ].
  rewrite Qmult_comm. apply Qsum_le; assumption.
Qed.

(** ** kpi_anomalies *)

Section Anomalies.

Variable fs : string -> option DataFrame.
Variable parse_datetime : string -> option Timestamp.
Variable Series_mean : list Q -> Q.

(** When the two files are readable, hold the KPI's column, and the
    filters leave anomaly rows and baseline rows, the body runs the
    co-occurrence step and then composes the report. *)
Lemma kpi_anomalies_body_reached kpi_name site_id sector_id start_date end_date df0 dfb :
  fs "Data/df_ensemble.csv" = Some df0 ->
  anomaly_rows parse_datetime kpi_name site_id sector_id start_date end_date df0 <> [] ->
  fs "Data/KPI_data_cleaned.csv" = Some dfb ->
  has_column dfb kpi_name = true ->
  base_rows parse_datetime kpi_name site_id sector_id start_date end_date dfb <> [] ->
  has_column df0 kpi_name = true ->
  kpi_anomalies_body fs parse_datetime Series_mean kpi_name site_id sector_id start_date end_date
  = let df := anomaly_rows parse_datetime kpi_name site_id sector_id start_date end_date df0 in
    let df_base :=
      base_rows parse_datetime kpi_name site_id sector_id start_date end_date dfb in
    let kpi_avg := Series_mean (dropna_values (map (cell kpi_name) df_base)) in
    let anomaly_values := dropna_values (map (cell kpi_name) df) in
    let above_avg := filter (fun v => Qlt_bool kpi_avg v) anomaly_values in
    let below_avg := filter (fun v => Qle_bool v kpi_avg) anomaly_values in
    related_counts <- co_occurrence fs kpi_name site_id sector_id
                                    (option_map snd (find_group kpi_name)) df ;;
    Kpis <- local "Kpis" (option_map snd (find_group kpi_name)) ;;
    Ok (AnomalyReport kpi_name
          (mkAnomalySummary
             (List.length anomaly_values) kpi_avg
             (if is_empty above_avg then None else Some (Series_mean above_avg))
             (if is_empty below_avg then None else Some (Series_mean below_avg))
             match find_group kpi_name with Some (g, _) => g | None => "unknown" end
             Kpis
             (peak_day (count_by_date (dates_of (filter (kpi_is kpi_name) df))))
             related_counts)).
Proof.
  intros E0 Hdf Eb Hcb Hbase Hc0.
  unfold kpi_anomalies_body, read_csv, require_column.
  rewrite E0. cbn [bind].
  rewrite (is_empty_false _ Hdf).
  rewrite Eb. cbn [bind]. rewrite Hcb. cbn [bind].
  rewrite (is_empty_false _ Hbase).
  rewrite Hc0. cbn [bind].
  reflexivity.
Qed.

(** A summary is only ever returned on that path. *)
Lemma kpi_anomalies_body_report_inv kpi_name site_id sector_id start_date end_date k s :
  kpi_anomalies_body fs parse_datetime Series_mean kpi_name site_id sector_id start_date end_date
  = Ok (AnomalyReport k s) ->
  exists df0 dfb,
    fs "Data/df_ensemble.csv" = Some df0
    /\ anomaly_rows parse_datetime kpi_name site_id sector_id start_date end_date df0 <> []
    /\ fs "Data/KPI_data_cleaned.csv" = Some dfb
    /\ has_column dfb kpi_name = true
    /\ base_rows parse_datetime kpi_name site_id sector_id start_date end_date dfb <> []
    /\ has_column df0 kpi_name = true.
Proof.
  intros H.
  unfold kpi_anomalies_body, read_csv, require_column in H.
  destruct (fs "Data/df_ensemble.csv") as [df0 | ] eqn:E0; cbn [bind] in H; [ | discriminate].
  destruct (is_empty (anomaly_rows parse_datetime kpi_name site_id sector_id
                                   start_date end_date df0)) eqn:Edf; [discriminate | ].
  destruct (fs "Data/KPI_data_cleaned.csv") as [dfb | ] eqn:Eb; cbn [bind] in H; [ | discriminate].
  destruct (has_column dfb kpi_name) eqn:Hcb; cbn [bind] in H; [ | discriminate].
  destruct (is_empty (base_rows parse_datetime kpi_name site_id sector_id
                                start_date end_date dfb)) eqn:Ebase; [discriminate | ].
  destruct (has_column df0 kpi_name) eqn:Hc0; cbn [bind] in H; [ | discriminate].
  exists df0, dfb.
  split; [reflexivity | ].
  split; [apply is_empty_false_iff; exact Edf | ].
  split; [reflexivity | ].
  split; [exact Hcb | ].
  split; [apply is_empty_false_iff; exact Ebase | exact Hc0].
Qed.

(** C7, as amended: in a summary whose above and at-or-below partitions
    are both non-empty, every value of the above partition is strictly
    greater than the baseline, every value of the other is at most the
    baseline, and the reported means are pandas' means of the two
    partitions.  The above mean is strictly greater than the baseline,
    and the baseline at least the below mean, whenever the computed mean
    does not pass all of its values (as the exact average never does,
    and in particular whenever the computed mean is the exact average);
    the rounding of a float64 mean can make it pass them. *)
Theorem partition_means_ordered_up_to_rounding :
  forall kpi_name site_id sector_id start_date end_date k s above below,
    kpi_anomalies_body fs parse_datetime Series_mean kpi_name site_id sector_id
                       start_date end_date
    = Ok (AnomalyReport k s) ->
    avg_above s = Some above ->
    avg_below s = Some below ->
    exists df0,
      fs "Data/df_ensemble.csv" = Some df0
      /\ let vals := column_values kpi_name
                       (anomaly_rows parse_datetime kpi_name site_id sector_id
                                     start_date end_date df0) in
         let above_avg := filter (fun v => Qlt_bool (kpi_avg s) v) vals in
         let below_avg := filter (fun v => Qle_bool v (kpi_avg s)) vals in
         above_avg <> [] /\ below_avg <> []
         /\ above = Series_mean above_avg
         /\ below = Series_mean below_avg
         /\ (forall v, In v above_avg -> (kpi_avg s < v)%Q)
         /\ (forall v, In v below_avg -> (v <= kpi_avg s)%Q)
         /\ ((exists v, In v above_avg /\ (v <= above)%Q) -> (kpi_avg s < above)%Q)
         /\ ((exists v, In v below_avg /\ (below <= v)%Q) -> (below <= kpi_avg s)%Q)
         /\ ((above == Qmean above_avg)%Q -> (kpi_avg s < above)%Q)
         /\ ((below == Qmean below_avg)%Q -> (below <= kpi_avg s)%Q).
Proof.
  intros kpi_name site_id sector_id start_date end_date k s above below H Ha Hb.
  destruct (kpi_anomalies_body_report_inv _ _ _ _ _ _ _ H)
    as (df0 & dfb & E0 & Hdf & Eb & Hcb & Hbase & Hc0).
  rewrite (kpi_anomalies_body_reached _ _ _ _ _ _ _ E0 Hdf Eb Hcb Hbase Hc0) in H.
  cbv zeta in H.
  inv_bind H. inv_bind H.
  injection H as _ Hs. subst s. cbn [avg_above avg_below kpi_avg] in *.
  exists df0. split; [exact E0 | ].
  cbv zeta. unfold column_values.
  set (b := Series_mean _) in *.
  set (above_avg := filter (fun v => Qlt_bool b v) _) in *.
  set (below_avg := filter (fun v => Qle_bool v b) _) in *.
  destruct (is_empty above_avg) eqn:Ea; [discriminate | ].
  destruct (is_empty below_avg) eqn:Ee; [discriminate | ].
  injection Ha as <-. injection Hb as <-.
  apply is_empty_false_iff in Ea. apply is_empty_false_iff in Ee.
  assert (Habove : forall v, In v above_avg -> (b < v)%Q).
  { intros v Hv. apply filter_In in Hv. apply Qlt_bool_iff. tauto. }
  assert (Hbelow : forall v, In v below_avg -> (v <= b)%Q).
  { intros v Hv. apply filter_In in Hv. apply Qle_bool_iff. tauto. }
  split; [exact Ea | ]. split; [exact Ee | ].
  split; [reflexivity | ]. split; [reflexivity | ].
  split; [exact Habove | ]. split; [exact Hbelow | ].
  split; [ | split; [ | split]].
  - intros (v & Hv & Hle). apply Qlt_le_trans with v; [apply Habove; exact Hv | exact Hle].
  - intros (v & Hv & Hle). apply Qle_trans with v; [exact Hle | apply Hbelow; exact Hv].
  - intros ->. apply Qmean_gt; assumption.
  - intros ->. apply Qmean_le; assumption.
Qed.

End Anomalies.

(** ** The KPI catalog *)

Lemma find_group_In (kpi_name g : string) (ks : list string) :
  find_group kpi_name = Some (g, ks) -> In (g, ks) kpi_groups /\ In kpi_name ks.
Proof.
  unfold find_group. intros H. apply find_some in H. destruct H as [Hin Hex].
  split; [exact Hin | ].
  apply existsb_exists in Hex. destruct Hex as (x & Hx & Heq).
  apply String.eqb_eq in Heq. subst x. exact Hx.
Qed.

(** Case analysis on membership in a list given by its elements. *)
Ltac cases_In H :=
  cbn [In snd kpi_groups] in H;
  repeat match type of H with
         | _ \/ _ => destruct H as [H | H]
         end;
  try contradiction.

(** The groups partition the catalog: no KPI is listed in two groups. *)
Lemma kpi_groups_disjoint (g1 g2 : string * list string) (x : string) :
  In g1 kpi_groups -> In g2 kpi_groups -> In x (snd g1) -> In x (snd g2) -> g1 = g2.
Proof.
  intros H1 H2 Hx1 Hx2.
  cases_In H1; subst g1; cases_In Hx1; subst x;
    cases_In H2; subst g2; try reflexivity;
    cases_In Hx2; discriminate Hx2.
Qed.

Lemma kpi_groups_NoDup (g : string * list string) : In g kpi_groups -> NoDup (snd g).
Proof.
  intros H.
  cases_In H; subst g; cbn [snd];
    repeat (constructor; [intros C; cases_In C; discriminate C | ]);
    constructor.
Qed.

(** Being another KPI of the group that the lookup finds is being another
    KPI of the same semantic group. *)
Lemma same_group_other_found (kpi_name g k : string) (ks : list string) :
  find_group kpi_name = Some (g, ks) ->
  (In k ks /\ k <> kpi_name) <-> same_group_other kpi_name k.
Proof.
  intros Hf. apply find_group_In in Hf. destruct Hf as [Hg Hk].
  unfold same_group_other. split.
  - intros [Hin Hne]. split; [exact Hne | ].
    exists (g, ks). auto.
  - intros [Hne (g' & Hg' & Hk' & Hin')].
    assert (E : g' = (g, ks))
      by exact (kpi_groups_disjoint g' (g, ks) kpi_name Hg' Hg Hk' Hk).
    subst g'. auto.
Qed.

(** ** Co-occurrence *)

Lemma ts_eqb_eq (a b : Timestamp) : ts_eqb a b = true <-> a = b.
Proof.
  destruct a as [x | ], b as [y | ]; simpl.
  - rewrite Z.eqb_eq. split; congruence.
  - split; discriminate.
  - split; discriminate.
  - split; reflexivity.
Qed.

Lemma filter_filter_and {A : Type} (f g : A -> bool) (l : list A) :
  filter f (filter g l) = filter (fun x => g x && f x) l.
Proof.
  induction l as [ | x t IH]; [reflexivity | ].
  cbn [filter]. destruct (g x); cbn [filter andb]; [ | exact IH].
  destruct (f x); rewrite IH; reflexivity.
Qed.

Lemma entity_filter_passes (site_id sector_id : option string) (l : list Row) :
  entity_filter site_id sector_id l = filter (entity_passes site_id sector_id) l.
Proof.
  unfold entity_filter, entity_passes.
  destruct (truthy site_id) as [s | ], (truthy sector_id) as [t | ].
  - apply filter_filter_and.
  - apply filter_ext. intros r. rewrite andb_true_r. reflexivity.
  - reflexivity.
  - symmetry. apply forallb_filter_id, forallb_forall. intros; reflexivity.
Qed.

(** Membership in the set of main dates is having the date of a main row. *)
Lemma isin_main_dates (df : list Row) (r : Row) :
  existsb (ts_eqb (Date r)) (nodup ts_eq_dec (map Date df)) = on_main_date df r.
Proof.
  unfold on_main_date. apply eq_true_iff_eq.
  rewrite !existsb_exists. split.
  - intros (d & Hd & E). apply nodup_In in Hd. apply in_map_iff in Hd.
    destruct Hd as (m & Hm & Hin). subst d.
    exists m. split; [exact Hin | ].
    apply ts_eqb_eq. apply ts_eqb_eq in E. congruence.
  - intros (m & Hin & E). exists (Date m). split.
    + apply nodup_In. apply in_map. exact Hin.
    + apply ts_eqb_eq. apply ts_eqb_eq in E. congruence.
Qed.

Lemma same_days_count (site_id sector_id : option string) (table df : list Row) (k : string) :
  List.length
    (filter (kpi_is k)
            (filter (fun r => existsb (ts_eqb (Date r)) (nodup ts_eq_dec (map Date df)))
                    (entity_filter site_id sector_id table)))
  = co_occurrence_count site_id sector_id table df k.
Proof.
  unfold co_occurrence_count.
  rewrite entity_filter_passes, !filter_filter_and.
  f_equal. apply filter_ext. intros r. rewrite isin_main_dates, ?andb_assoc. reflexivity.
Qed.

(** The counts kept by the loop over the related KPIs. *)
Lemma In_kept_counts (count : string -> nat) (related : list string) (k : string) (v : nat) :
  In (k, v) (flat_map (fun rkpi => if (0 <? count rkpi)%nat then [(rkpi, count rkpi)] else [])
                      related)
  <-> In k related /\ v = count k /\ (1 <= v)%nat.
Proof.
  rewrite in_flat_map. split.
  - intros (rk & Hin & H).
    destruct (0 <? count rk)%nat eqn:E; [ | contradiction].
    destruct H as [H | []]. injection H as -> <-.
    apply Nat.ltb_lt in E. repeat split; [exact Hin | lia].
  - intros (Hin & -> & Hv). exists k. split; [exact Hin | ].
    assert (E : (0 <? count k)%nat = true) by (apply Nat.ltb_lt; lia).
    rewrite E. left; reflexivity.
Qed.

Lemma kept_counts_keys (count : string -> nat) (related : list string) :
  map fst (flat_map (fun rkpi => if (0 <? count rkpi)%nat then [(rkpi, count rkpi)] else [])
                    related)
  = filter (fun rkpi => (0 <? count rkpi)%nat) related.
Proof.
  induction related as [ | k t IH]; [reflexivity | ].
  cbn [flat_map filter]. rewrite map_app, IH.
  destruct (0 <? count k)%nat; reflexivity.
Qed.

Section CoOccurrence.

Variable fs : string -> option DataFrame.
Variable parse_datetime : string -> option Timestamp.
Variable Series_mean : list Q -> Q.

Lemma co_occurrence_found kpi_name site_id sector_id ks df df0 :
  fs "Data/df_ensemble.csv" = Some df0 ->
  co_occurrence fs kpi_name site_id sector_id (Some ks) df
  = Ok (flat_map (fun rkpi =>
                    if (0 <? co_occurrence_count site_id sector_id (rows df0) df rkpi)%nat
                    then [(rkpi, co_occurrence_count site_id sector_id (rows df0) df rkpi)]
                    else [])
                 (filter (fun k => negb (k =? kpi_name)) ks)).
Proof.
  intros E0. unfold co_occurrence, local, read_csv. cbn [bind]. rewrite E0. cbn [bind].
  f_equal. apply flat_map_ext. intros k. rewrite same_days_count. reflexivity.
Qed.

(** C3: when [kpi_anomalies] reaches its report for a KPI of the catalog,
    the co-occurrence section lists, once each, exactly the other KPIs of
    the same semantic group that have at least one anomaly row, in the
    anomaly table filtered by site and sector only, on a date of the
    filtered main-KPI anomaly rows, each with that number of rows. *)
Theorem co_occurrence_section_counts_same_group_kpis :
  forall kpi_name site_id sector_id start_date end_date df0 dfb g ks,
    fs "Data/df_ensemble.csv" = Some df0 ->
    anomaly_rows parse_datetime kpi_name site_id sector_id start_date end_date df0 <> [] ->
    fs "Data/KPI_data_cleaned.csv" = Some dfb ->
    has_column dfb kpi_name = true ->
    base_rows parse_datetime kpi_name site_id sector_id start_date end_date dfb <> [] ->
    has_column df0 kpi_name = true ->
    find_group kpi_name = Some (g, ks) ->
    exists s,
      kpi_anomalies_body fs parse_datetime Series_mean
            kpi_name site_id sector_id start_date end_date
      = Ok (AnomalyReport kpi_name s)
      /\ NoDup (map fst (related_counts s))
      /\ forall k v,
          In (k, v) (related_counts s)
          <-> same_group_other kpi_name k
              /\ v = co_occurrence_count
                       site_id sector_id (rows df0)
                       (anomaly_rows parse_datetime kpi_name site_id sector_id
                                     start_date end_date df0) k
              /\ (1 <= v)%nat.
Proof.
  intros kpi_name site_id sector_id start_date end_date df0 dfb g ks
         E0 Hdf Eb Hcb Hbase Hc0 Hg.
  rewrite (kpi_anomalies_body_reached fs parse_datetime Series_mean
        _ _ _ _ _ _ _ E0 Hdf Eb Hcb Hbase Hc0).
  cbv zeta. rewrite Hg. cbn [option_map snd].
  rewrite (co_occurrence_found _ _ _ _ _ _ E0). cbn [bind local].
  eexists. split; [reflexivity | ]. cbn [related_counts].
  split.
  - rewrite kept_counts_keys. apply NoDup_filter, NoDup_filter.
    apply find_group_In in Hg. destruct Hg as [Hg _].
    apply (kpi_groups_NoDup _ Hg).
  - intros k v.
    rewrite (In_kept_counts
               (co_occurrence_count site_id sector_id (rows df0)
                  (anomaly_rows parse_datetime kpi_name site_id sector_id
                                start_date end_date df0))).
    rewrite filter_In, negb_true_iff, String.eqb_neq.
    rewrite (same_group_other_found _ _ k _ Hg). tauto.
Qed.

End CoOccurrence.

(** ** Failure of a step of kpi_anomalies *)

Section StepFailure.

Variable fs : string -> option DataFrame.
Variable parse_datetime : string -> option Timestamp.
Variable Series_mean : list Q -> Q.
Variable fmt_fixed : nat -> Q -> string.
Variable fmt_float : Q -> string.
Variable fmt_day : Z -> string.

(** C2, as the code has it: an exception raised inside the co-occurrence
    step, once the earlier steps have all succeeded, is caught by the one
    handler at the top only: the body raises it, no summary is composed,
    and the call returns the single error text for it. *)
Theorem co_occurrence_failure_becomes_error_text :
  forall kpi_name site_id sector_id start_date end_date df0 dfb e,
    fs "Data/df_ensemble.csv" = Some df0 ->
    anomaly_rows parse_datetime kpi_name site_id sector_id start_date end_date df0 <> [] ->
    fs "Data/KPI_data_cleaned.csv" = Some dfb ->
    has_column dfb kpi_name = true ->
    base_rows parse_datetime kpi_name site_id sector_id start_date end_date dfb <> [] ->
    has_column df0 kpi_name = true ->
    co_occurrence fs kpi_name site_id sector_id (option_map snd (find_group kpi_name))
                  (anomaly_rows parse_datetime kpi_name site_id sector_id
                                start_date end_date df0)
    = Raise e ->
    kpi_anomalies_body fs parse_datetime Series_mean kpi_name site_id sector_id start_date end_date
    = Raise e
    /\ kpi_anomalies fs parse_datetime Series_mean fmt_fixed fmt_float fmt_day
                     kpi_name site_id sector_id (Passed start_date) (Passed end_date)
       = Ok ("Error analyzing KPI anomalies: " ++ exn_str e).
Proof.
  intros kpi_name site_id sector_id start_date end_date df0 dfb e
         E0 Hdf Eb Hcb Hbase Hc0 Hco.
  assert (Hbody : kpi_anomalies_body fs parse_datetime Series_mean kpi_name site_id sector_id
                                     start_date end_date = Raise e).
  { rewrite (kpi_anomalies_body_reached fs parse_datetime Series_mean _ _ _ _ _ _ _
                                        E0 Hdf Eb Hcb Hbase Hc0).
    cbv zeta. rewrite Hco. reflexivity. }
  split; [exact Hbody | ].
  unfold kpi_anomalies. cbn [or_default]. rewrite Hbody. reflexivity.
Qed.

End StepFailure.

(** ** get_peak_kpi_day_for_site *)

Lemma notna_true {A : Type} (o : option A) : notna o = true <-> o <> None.
Proof. destruct o; simpl; split; congruence. Qed.

Lemma In_dropna_subset1 (kpi_name : string) (l : list Row) (r : Row) :
  In r (dropna_subset [kpi_name] l)
  <-> In r l /\ Date r <> NaT /\ Site_ID r <> None /\ cell kpi_name r <> None.
Proof.
  unfold dropna_subset. rewrite filter_In. cbn [forallb].
  rewrite !andb_true_iff, !notna_true. unfold NaT. tauto.
Qed.

Section PeakDay.

Variable fs : string -> option DataFrame.
Variable parse_datetime : string -> option Timestamp.

Lemma site_frame_loaded site_id kpi_name df :
  fs KPI_CSV_PATH = Some df ->
  has_column df kpi_name = true ->
  site_frame fs site_id kpi_name
  = Ok (filter (site_is site_id) (dropna_subset [kpi_name] (rows df))).
Proof.
  intros E Hc. unfold site_frame, read_csv, require_column.
  rewrite E. cbn [bind]. rewrite Hc. reflexivity.
Qed.

(** The last branch of the body never gives one of the two "no data"
    reports. *)
Lemma peak_branch_not_no_data site_id kpi_name extreme_type s e (site_df : list Row) r :
  (if lower extreme_type =? "lowest"
   then ' (peak_row, value) <- series_idxmin (row_values kpi_name site_df) ;;
        Ok (PeakDay (Date peak_row) site_id "lowest" kpi_name value s e)
   else ' (peak_row, value) <- series_idxmax (row_values kpi_name site_df) ;;
        Ok (PeakDay (Date peak_row) site_id "highest" kpi_name value s e)) = Ok r ->
  exists d label v, r = PeakDay d site_id label kpi_name v s e.
Proof.
  destruct (lower extreme_type =? "lowest"); intros H; inv_bind H;
    destruct a as [peak_row value]; injection H as <-; eauto.
Qed.

(** C8, as the code has it: for a readable table that has the KPI's
    column, the NotFound report is returned exactly when the site has no
    row with both a parsed date and a value of the KPI (rows lacking one
    are dropped before the site is looked up); the EmptyResult report
    exactly when the site has such rows and the window holds none of
    them; and an omitted end date is the latest date of those rows, an
    omitted start date the end date minus 30 days. *)
Theorem peak_not_found_and_empty_window :
  forall site_id kpi_name extreme_type start_date end_date df,
    fs KPI_CSV_PATH = Some df ->
    has_column df kpi_name = true ->
    let site_df := filter (site_is site_id) (dropna_subset [kpi_name] (rows df)) in
    let window := default_window parse_datetime 30 site_df start_date end_date in
    let body := get_peak_kpi_day_for_site_body fs parse_datetime site_id kpi_name
                                               extreme_type start_date end_date in
    (forall r, In r site_df
               <-> In r (rows df) /\ Site_ID r = Some site_id
                   /\ Date r <> NaT /\ cell kpi_name r <> None)
    /\ (body = Ok (PeakSiteNotFound site_id) <-> site_df = [])
    /\ ((exists s e, body = Ok (PeakNoData site_id s e))
        <-> site_df <> [] /\ filter (in_window (fst window) (snd window)) site_df = [])
    /\ (forall s e, body = Ok (PeakNoData site_id s e) -> (s, e) = window)
    /\ (forall d label v s e,
           body = Ok (PeakDay d site_id label kpi_name v s e) -> (s, e) = window)
    /\ (truthy end_date = None -> snd window = ts_max (map Date site_df))
    /\ (truthy start_date = None -> fst window = sub_days (snd window) 30).
Proof.
  intros site_id kpi_name extreme_type start_date end_date df E Hc site_df window body.
  assert (Hbody :
            body
            = if is_empty site_df then Ok (PeakSiteNotFound site_id)
              else if is_empty (filter (in_window (fst window) (snd window)) site_df)
                   then Ok (PeakNoData site_id (fst window) (snd window))
                   else
                     if lower extreme_type =? "lowest"
                     then ' (peak_row, value) <-
                            series_idxmin
                              (row_values kpi_name
                                 (filter (in_window (fst window) (snd window)) site_df)) ;;
                          Ok (PeakDay (Date peak_row) site_id "lowest" kpi_name value
                                      (fst window) (snd window))
                     else ' (peak_row, value) <-
                            series_idxmax
                              (row_values kpi_name
                                 (filter (in_window (fst window) (snd window)) site_df)) ;;
                          Ok (PeakDay (Date peak_row) site_id "highest" kpi_name value
                                      (fst window) (snd window))).
  { unfold body, get_peak_kpi_day_for_site_body.
    rewrite (site_frame_loaded _ _ _ E Hc). cbn [bind]. fold site_df.
    destruct (is_empty site_df); [reflexivity | ].
    fold window. destruct window as [s e]. reflexivity. }
  split.
  { intros r. unfold site_df.
    rewrite filter_In, site_is_true, In_dropna_subset1.
    split.
    - intros [(H1 & H2 & _ & H4) H5]. auto.
    - intros (H1 & H2 & H3 & H4). repeat split; auto. congruence. }
  split.
  { rewrite Hbody. split.
    - intros H. destruct (is_empty site_df) eqn:Es; [apply is_empty_true; exact Es | ].
      destruct (is_empty (filter _ site_df)); [discriminate H | ].
      apply peak_branch_not_no_data in H. destruct H as (d & l & v & H). discriminate H.
    - intros H. rewrite H. reflexivity. }
  split.
  { rewrite Hbody. split.
    - intros (s & e & H).
      destruct (is_empty site_df) eqn:Es; [discriminate H | ].
      split; [apply is_empty_false_iff; exact Es | ].
      destruct (is_empty (filter _ site_df)) eqn:Ew; [apply is_empty_true; exact Ew | ].
      apply peak_branch_not_no_data in H. destruct H as (d & l & v & H). discriminate H.
    - intros [Hs Hw]. rewrite (is_empty_false _ Hs), Hw. cbn [is_empty]. eauto. }
  split.
  { intros s e H. rewrite Hbody in H.
    destruct (is_empty site_df); [discriminate H | ].
    destruct (is_empty (filter _ site_df)).
    - injection H as <- <-. symmetry. apply surjective_pairing.
    - apply peak_branch_not_no_data in H. destruct H as (d & l & v & H). discriminate H. }
  split.
  { intros d label v s e H. rewrite Hbody in H.
    destruct (is_empty site_df); [discriminate H | ].
    destruct (is_empty (filter _ site_df)); [discriminate H | ].
    apply peak_branch_not_no_data in H. destruct H as (d' & l' & v' & H).
    injection H as _ _ _ -> ->. symmetry. apply surjective_pairing. }
  split.
  - intros H. unfold window, default_window. rewrite H. reflexivity.
  - intros H. unfold window, default_window. rewrite H. reflexivity.
Qed.

End PeakDay.

(** ** Extremes of a labelled series *)

Lemma fold_max_spec {K : Type} (t : list (K * Q)) (h : K * Q) :
  let r := fold_left (fun best kv => if Qlt_bool (snd best) (snd kv) then kv else best) t h in
  In r (h :: t) /\ forall x, In x (h :: t) -> (snd x <= snd r)%Q.
Proof.
  revert h. induction t as [ | a t IH]; intros h; cbn [fold_left].
  - split; [left; reflexivity | ].
    intros x [<- | []]. apply Qle_refl.
  - specialize (IH (if Qlt_bool (snd h) (snd a) then a else h)).
    cbv zeta in IH. destruct IH as [Hin Hmax].
    destruct (Qlt_bool (snd h) (snd a)) eqn:E.
    + apply Qlt_bool_iff in E. split.
      * destruct Hin as [<- | Hin]; [right; left; reflexivity | right; right; exact Hin].
      * intros x [<- | [<- | Hx]].
        -- apply Qle_trans with (snd a); [apply Qlt_le_weak; exact E | ].
           apply Hmax. left; reflexivity.
        -- apply Hmax. left; reflexivity.
        -- apply Hmax. right; exact Hx.
    + apply Qlt_bool_false_iff in E. split.
      * destruct Hin as [<- | Hin]; [left; reflexivity | right; right; exact Hin].
      * intros x [<- | [<- | Hx]].
        -- apply Hmax. left; reflexivity.
        -- apply Qle_trans with (snd h); [exact E | ]. apply Hmax. left; reflexivity.
        -- apply Hmax. right; exact Hx.
Qed.

Lemma fold_min_spec {K : Type} (t : list (K * Q)) (h : K * Q) :
  let r := fold_left (fun best kv => if Qlt_bool (snd kv) (snd best) then kv else best) t h in
  In r (h :: t) /\ forall x, In x (h :: t) -> (snd r <= snd x)%Q.
Proof.
  revert h. induction t as [ | a t IH]; intros h; cbn [fold_left].
  - split; [left; reflexivity | ].
    intros x [<- | []]. apply Qle_refl.
  - specialize (IH (if Qlt_bool (snd a) (snd h) then a else h)).
    cbv zeta in IH. destruct IH as [Hin Hmin].
    destruct (Qlt_bool (snd a) (snd h)) eqn:E.
    + apply Qlt_bool_iff in E. split.
      * destruct Hin as [<- | Hin]; [right; left; reflexivity | right; right; exact Hin].
      * intros x [<- | [<- | Hx]].
        -- apply Qle_trans with (snd a); [ | apply Qlt_le_weak; exact E].
           apply Hmin. left; reflexivity.
        -- apply Hmin. left; reflexivity.
        -- apply Hmin. right; exact Hx.
    + apply Qlt_bool_false_iff in E. split.
      * destruct Hin as [<- | Hin]; [left; reflexivity | right; right; exact Hin].
      * intros x [<- | [<- | Hx]].
        -- apply Hmin. left; reflexivity.
        -- apply Qle_trans with (snd h); [ | exact E]. apply Hmin. left; reflexivity.
        -- apply Hmin. right; exact Hx.
Qed.

Lemma idxmax_spec {K : Type} (l : list (K * Q)) (kv : K * Q) :
  idxmax l = Some kv -> In kv l /\ forall x, In x l -> (snd x <= snd kv)%Q.
Proof.
  destruct l as [ | h t]; [discriminate | ].
  unfold idxmax. intros H. injection H as <-. apply fold_max_spec.
Qed.

Lemma idxmin_spec {K : Type} (l : list (K * Q)) (kv : K * Q) :
  idxmin l = Some kv -> In kv l /\ forall x, In x l -> (snd kv <= snd x)%Q.
Proof.
  destruct l as [ | h t]; [discriminate | ].
  unfold idxmin. intros H. injection H as <-. apply fold_min_spec.
Qed.

Lemma series_idxmax_nonempty {K : Type} (l : list (K * Q)) :
  l <> [] -> exists kv, series_idxmax l = Ok kv /\ idxmax l = Some kv.
Proof.
  destruct l as [ | h t]; [congruence | intros _].
  unfold series_idxmax. cbn [idxmax]. eauto.
Qed.

Lemma series_idxmin_nonempty {K : Type} (l : list (K * Q)) :
  l <> [] -> exists kv, series_idxmin l = Ok kv /\ idxmin l = Some kv.
Proof.
  destruct l as [ | h t]; [congruence | intros _].
  unfold series_idxmin. cbn [idxmin]. eauto.
Qed.

(** ** Groups have distinct keys *)

Lemma compare_Lt_lt (a b : string) : String.compare a b = Lt -> String_as_OT.lt a b.
Proof. intros H. apply String_as_OT.cmp_lt. exact H. Qed.

Lemma compare_Gt_lt (a b : string) : String.compare a b = Gt -> String_as_OT.lt b a.
Proof.
  intros H. apply String_as_OT.cmp_lt. unfold String_as_OT.cmp.
  rewrite String.compare_antisym, H. reflexivity.
Qed.

Lemma insert_group_keys {V : Type} (k : string) (v : V) (g : list (string * list V)) (x : string) :
  In x (map fst (insert_group k v g)) -> x = k \/ In x (map fst g).
Proof.
  induction g as [ | [k' vs] g' IH]; cbn [insert_group map fst In].
  - intros [<- | []]. left; reflexivity.
  - destruct (String.compare k k') eqn:E; cbn [map fst In].
    + tauto.
    + intros [<- | H]; tauto.
    + intros [<- | H]; [tauto | ]. destruct (IH H); tauto.
Qed.

Lemma insert_group_sorted {V : Type} (k : string) (v : V) (g : list (string * list V)) :
  StronglySorted String_as_OT.lt (map fst g) ->
  StronglySorted String_as_OT.lt (map fst (insert_group k v g)).
Proof.
  induction g as [ | [k' vs] g' IH]; cbn [insert_group map fst]; intros Hs.
  - repeat constructor.
  - inversion Hs as [ | ? ? Hs' Hall]; subst.
    destruct (String.compare k k') eqn:E; cbn [map fst].
    + exact Hs.
    + constructor; [exact Hs | ].
      apply compare_Lt_lt in E. constructor; [exact E | ].
      rewrite Forall_forall in Hall |- *. intros y Hy.
      eapply String_as_OT.lt_trans; [exact E | apply Hall; exact Hy].
    + constructor; [apply IH; exact Hs' | ].
      apply compare_Gt_lt in E.
      rewrite Forall_forall in Hall |- *. intros y Hy.
      apply insert_group_keys in Hy. destruct Hy as [-> | Hy]; [exact E | apply Hall; exact Hy].
Qed.

Lemma groupby_sorted {V : Type} (kvs : list (string * V)) :
  StronglySorted String_as_OT.lt (map fst (groupby kvs)).
Proof.
  unfold groupby.
  assert (H : forall g, StronglySorted String_as_OT.lt (map fst g) ->
                        StronglySorted String_as_OT.lt
                          (map fst (fold_left (fun g kv => insert_group (fst kv) (snd kv) g)
                                              kvs g))).
  { induction kvs as [ | kv t IH]; intros g Hg; cbn [fold_left]; [exact Hg | ].
    apply IH, insert_group_sorted, Hg. }
  apply H. constructor.
Qed.

Lemma sorted_keys_NoDup (l : list string) : StronglySorted String_as_OT.lt l -> NoDup l.
Proof.
  induction 1 as [ | a l Hs IH Hall]; constructor; [ | exact IH].
  intros Hin. rewrite Forall_forall in Hall.
  apply (String_as_OT.lt_not_eq a a (Hall a Hin)). reflexivity.
Qed.

Lemma insert_group_nonempty {V : Type} (k : string) (v : V) (g : list (string * list V)) :
  insert_group k v g <> [].
Proof.
  destruct g as [ | [k' vs] g']; cbn [insert_group]; [discriminate | ].
  destruct (String.compare k k'); discriminate.
Qed.

Lemma groupby_nonempty {V : Type} (kvs : list (string * V)) : kvs <> [] -> groupby kvs <> [].
Proof.
  unfold groupby.
  destruct kvs as [ | kv t]; [congruence | intros _].
  cbn [fold_left].
  assert (H : forall g, g <> [] ->
                        fold_left (fun g kv => insert_group (fst kv) (snd kv) g) t g <> []).
  { induction t as [ | kv' t IH]; intros g Hg; cbn [fold_left]; [exact Hg | ].
    apply IH, insert_group_nonempty. }
  apply H, insert_group_nonempty.
Qed.

(** ** What the groups hold *)

Lemma lookup_None_below {V : Type} (k : string) (g : list (string * V)) :
  Forall (String_as_OT.lt k) (map fst g) -> lookup k g = None.
Proof.
  induction g as [ | [k' v] t IH]; cbn [map fst lookup]; intros H; [reflexivity | ].
  inversion H as [ | ? ? Hlt Ht]; subst.
  assert (E : (k =? k') = false).
  { apply String.eqb_neq. intros ->. exact (String_as_OT.lt_not_eq _ _ Hlt eq_refl). }
  rewrite E. apply IH, Ht.
Qed.

Lemma lookup_insert_group {V : Type} (k k0 : string) (v0 : V) (g : list (string * list V)) :
  StronglySorted String_as_OT.lt (map fst g) ->
  lookup k (insert_group k0 v0 g)
  = if k =? k0
    then Some (match lookup k0 g with Some old => (old ++ [v0])%list | None => [v0] end)
    else lookup k g.
Proof.
  induction g as [ | [k' vs] g' IH]; cbn [insert_group map fst]; intros Hs.
  - cbn [lookup]. reflexivity.
  - inversion Hs as [ | ? ? Hs' Hall]; subst.
    destruct (String.compare k0 k') eqn:E.
    + apply String.compare_eq_iff in E. subst k'.
      cbn [lookup]. rewrite (String.eqb_refl k0).
      destruct (k =? k0); reflexivity.
    + apply compare_Lt_lt in E.
      assert (Hnone : lookup k0 ((k', vs) :: g') = None).
      { apply lookup_None_below. cbn [map fst]. constructor; [exact E | ].
        rewrite Forall_forall in Hall |- *. intros y Hy.
        eapply String_as_OT.lt_trans; [exact E | apply Hall; exact Hy]. }
      rewrite Hnone. cbn [lookup]. reflexivity.
    + apply compare_Gt_lt in E.
      assert (Hne : (k0 =? k') = false).
      { apply String.eqb_neq. intros ->. exact (String_as_OT.lt_not_eq _ _ E eq_refl). }
      cbn [lookup]. rewrite (IH Hs'), Hne.
      destruct (k =? k') eqn:Ek; [ | reflexivity].
      apply String.eqb_eq in Ek. subst k'.
      rewrite String.eqb_sym, Hne. reflexivity.
Qed.

Lemma groupby_snoc {V : Type} (kvs : list (string * V)) (kv : string * V) :
  groupby (kvs ++ [kv]) = insert_group (fst kv) (snd kv) (groupby kvs).
Proof. unfold groupby. rewrite fold_left_app. reflexivity. Qed.

Lemma values_of_snoc {V : Type} (k : string) (kvs : list (string * V)) (kv : string * V) :
  values_of k (kvs ++ [kv])
  = (values_of k kvs ++ (if fst kv =? k then [snd kv] else []))%list.
Proof.
  unfold values_of. rewrite filter_app, map_app. cbn [filter].
  destruct (fst kv =? k); reflexivity.
Qed.

(** A group holds the values of its key, in row order, and there is a
    group for each key that occurs. *)
Lemma lookup_groupby {V : Type} (k : string) (kvs : list (string * V)) :
  lookup k (groupby kvs)
  = match values_of k kvs with
    | [] => None
    | _ :: _ => Some (values_of k kvs)
    end.
Proof.
  induction kvs as [ | kv kvs IH] using rev_ind; [reflexivity | ].
  rewrite groupby_snoc, values_of_snoc, (lookup_insert_group _ _ _ _ (groupby_sorted kvs)).
  rewrite (String.eqb_sym k (fst kv)).
  destruct (fst kv =? k) eqn:E.
  - apply String.eqb_eq in E. subst k. rewrite IH.
    destruct (values_of (fst kv) kvs) as [ | x t]; reflexivity.
  - rewrite app_nil_r. exact IH.
Qed.

Lemma In_lookup {V : Type} (k : string) (v : V) (g : list (string * V)) :
  NoDup (map fst g) -> In (k, v) g <-> lookup k g = Some v.
Proof.
  induction g as [ | [k' v'] t IH]; cbn [map fst In lookup]; intros Hnd.
  - split; [contradiction | discriminate].
  - inversion Hnd as [ | ? ? Hnotin Hnd']; subst.
    destruct (k =? k') eqn:E.
    + apply String.eqb_eq in E. subst k'. split.
      * intros [H | H]; [congruence | ].
        exfalso. apply Hnotin. apply in_map_iff. exists (k, v). auto.
      * intros H. left. congruence.
    + apply String.eqb_neq in E. rewrite <- (IH Hnd'). split.
      * intros [H | H]; [congruence | exact H].
      * intros H. right; exact H.
Qed.

Lemma values_of_site_values (kpi site : string) (l : list Row) :
  values_of site (site_values kpi l) = site_kpi_values kpi site l.
Proof.
  unfold values_of, site_values, site_kpi_values.
  induction l as [ | r t IH]; [reflexivity | ].
  cbn [flat_map]. rewrite filter_app, map_app, IH. f_equal.
  unfold site_is. destruct (Site_ID r) as [s | ]; [ | reflexivity].
  destruct (cell kpi r) as [v | ]; cbn [filter fst map snd].
  - destruct (s =? site); reflexivity.
  - destruct (s =? site); reflexivity.
Qed.

(** The per-site averages: one entry for each site that has values, the
    mean of the site's values. *)
Lemma mean_by_site_spec (mean : list Q -> Q) (kpi site : string) (m : Q) (l : list Row) :
  In (site, m) (mean_by_site mean kpi l)
  <-> site_kpi_values kpi site l <> [] /\ m = mean (site_kpi_values kpi site l).
Proof.
  unfold mean_by_site. rewrite in_map_iff. split.
  - intros ([k vs] & Heq & Hin). cbn [fst snd] in Heq. injection Heq as -> <-.
    apply (In_lookup _ _ _ (sorted_keys_NoDup _ (groupby_sorted _))) in Hin.
    rewrite lookup_groupby, values_of_site_values in Hin.
    destruct (site_kpi_values kpi site l) as [ | x t]; [discriminate | ].
    injection Hin as <-. split; [discriminate | reflexivity].
  - intros [Hne ->]. exists (site, site_kpi_values kpi site l). split; [reflexivity | ].
    apply (In_lookup _ _ _ (sorted_keys_NoDup _ (groupby_sorted _))).
    rewrite lookup_groupby, values_of_site_values.
    destruct (site_kpi_values kpi site l) as [ | x t]; [congruence | reflexivity].
Qed.

(** ** get_site_kpi_extreme *)

Lemma site_values_nonempty (kpi : string) (l : list Row) :
  l <> [] ->
  (forall r, In r l -> Site_ID r <> None /\ cell kpi r <> None) ->
  site_values kpi l <> [].
Proof.
  destruct l as [ | r t]; [congruence | intros _ H].
  destruct (H r (or_introl eq_refl)) as [Hs Hc].
  unfold site_values. cbn [flat_map].
  destruct (Site_ID r); [ | congruence]. destruct (cell kpi r); [ | congruence].
  discriminate.
Qed.

Lemma lower_highest : (lower "highest" =? "lowest") = false.
Proof. vm_compute. reflexivity. Qed.

Lemma lower_lowest : (lower "lowest" =? "lowest") = true.
Proof. vm_compute. reflexivity. Qed.

Section SiteExtreme.

Variable fs : string -> option DataFrame.
Variable parse_datetime : string -> option Timestamp.
Variable groupby_mean : list Q -> Q.

Lemma extreme_frame_rows kpi_name start_date end_date sd ed filtered :
  extreme_frame fs parse_datetime kpi_name start_date end_date = Ok (sd, ed, filtered) ->
  forall r, In r filtered -> Site_ID r <> None /\ cell kpi_name r <> None.
Proof.
  unfold extreme_frame. intros H.
  inv_bind H. inv_bind H.
  destruct (default_window parse_datetime 7 (dropna_subset [kpi_name] (rows a))
                           start_date end_date) as [s e].
  injection H as _ _ <-.
  intros r Hr. apply filter_In in Hr. destruct Hr as [Hr _].
  apply In_dropna_subset1 in Hr. tauto.
Qed.

(** C6, as amended: on the same KPI and window, with rows in the window,
    the "highest" and the "lowest" call each report a site with pandas'
    mean of its values, and they report the same site only when the
    windowed means of all the sites, as pandas computes them, are equal:
    as soon as two sites' computed means differ, the two reported sites
    differ. *)
Theorem highest_and_lowest_site_differ_unless_computed_means_tie :
  forall kpi_name start_date end_date sd ed filtered,
    extreme_frame fs parse_datetime kpi_name start_date end_date = Ok (sd, ed, filtered) ->
    filtered <> [] ->
    let average := fun site => groupby_mean (site_kpi_values kpi_name site filtered) in
    let present := fun site => site_kpi_values kpi_name site filtered <> [] in
    exists site_hi site_lo,
      get_site_kpi_extreme_body fs parse_datetime groupby_mean
            kpi_name "highest" start_date end_date
      = Ok (ExtremeSite sd ed site_hi "highest" kpi_name (average site_hi))
      /\ get_site_kpi_extreme_body fs parse_datetime groupby_mean
            kpi_name "lowest" start_date end_date
         = Ok (ExtremeSite sd ed site_lo "lowest" kpi_name (average site_lo))
      /\ present site_hi /\ present site_lo
      /\ (site_hi = site_lo ->
          forall s1 s2, present s1 -> present s2 -> (average s1 == average s2)%Q)
      /\ ((exists s1 s2, present s1 /\ present s2 /\ ~ (average s1 == average s2)%Q) ->
          site_hi <> site_lo).
Proof.
  intros kpi_name start_date end_date sd ed filtered Hframe Hne average present.
  set (avg_kpi := mean_by_site groupby_mean kpi_name filtered).
  assert (Havg : avg_kpi <> []).
  { unfold avg_kpi, mean_by_site. intros C. apply map_eq_nil in C. revert C.
    apply groupby_nonempty, site_values_nonempty; [exact Hne | ].
    exact (extreme_frame_rows _ _ _ _ _ _ Hframe). }
  destruct (series_idxmax_nonempty avg_kpi Havg) as ([site_hi value_hi] & Shi & Ihi).
  destruct (series_idxmin_nonempty avg_kpi Havg) as ([site_lo value_lo] & Slo & Ilo).
  apply idxmax_spec in Ihi. destruct Ihi as [Hin_hi Hmax].
  apply idxmin_spec in Ilo. destruct Ilo as [Hin_lo Hmin].
  destruct (proj1 (mean_by_site_spec _ _ _ _ _) Hin_hi) as [Hp_hi Ev_hi].
  destruct (proj1 (mean_by_site_spec _ _ _ _ _) Hin_lo) as [Hp_lo Ev_lo].
  fold (average site_hi) in Ev_hi. fold (average site_lo) in Ev_lo.
  assert (Hsame : site_hi = site_lo ->
                  forall s1 s2, present s1 -> present s2 -> (average s1 == average s2)%Q).
  { intros Heq s1 s2 H1 H2.
    assert (E : (average site_hi == average site_lo)%Q) by (rewrite Heq; reflexivity).
    assert (I1 : In (s1, average s1) avg_kpi)
      by (apply mean_by_site_spec; split; [exact H1 | reflexivity]).
    assert (I2 : In (s2, average s2) avg_kpi)
      by (apply mean_by_site_spec; split; [exact H2 | reflexivity]).
    pose proof (Hmax _ I1) as M1. pose proof (Hmin _ I1) as m1.
    pose proof (Hmax _ I2) as M2. pose proof (Hmin _ I2) as m2.
    cbn [snd] in M1, m1, M2, m2. rewrite Ev_hi in M1, M2. rewrite Ev_lo in m1, m2.
    set (a1 := average s1) in *. set (a2 := average s2) in *.
    set (hi := average site_hi) in *. set (lo := average site_lo) in *.
    clearbody a1 a2 hi lo. lra. }
  exists site_hi, site_lo.
  split.
  { unfold get_site_kpi_extreme_body. rewrite Hframe. cbn [bind].
    rewrite (is_empty_false _ Hne), lower_highest.
    fold avg_kpi. rewrite Shi. cbn [bind]. rewrite Ev_hi. reflexivity. }
  split.
  { unfold get_site_kpi_extreme_body. rewrite Hframe. cbn [bind].
    rewrite (is_empty_false _ Hne), lower_lowest.
    fold avg_kpi. rewrite Slo. cbn [bind]. rewrite Ev_lo. reflexivity. }
  split; [exact Hp_hi | ].
  split; [exact Hp_lo | ].
  split; [exact Hsame | ].
  intros (s1 & s2 & H1 & H2 & Hdiff) Heq.
  apply Hdiff. exact (Hsame Heq s1 s2 H1 H2).
Qed.

End SiteExtreme.

(** ** compare_kpi_impact *)

Lemma Qlen_le {A B : Type} (l : list A) (m : list B) :
  (List.length l <= List.length m)%nat -> (Qlen l <= Qlen m)%Q.
Proof. intros H. unfold Qlen. rewrite <- Zle_Qle. lia. Qed.

Lemma rising_both_le (xy : list (Q * Q)) :
  (List.length (rising_both xy) <= List.length (rising_x xy))%nat.
Proof. unfold rising_both. apply filter_length_le. Qed.

(** The ratio is a fraction of a part over its whole. *)
Lemma directional_ratio_bounds (xy : list (Q * Q)) :
  (0 <= directional_ratio (directional_effect xy) <= 1)%Q.
Proof.
  unfold directional_effect.
  destruct (List.length (rising_x xy) =? 0)%nat eqn:E; cbn [directional_ratio].
  - split; [apply Qle_refl | discriminate].
  - apply Nat.eqb_neq in E.
    assert (Hpos : (0 < Qlen (rising_x xy))%Q).
    { apply Qlen_pos. intros C. rewrite C in E. apply E. reflexivity. }
    split.
    + apply Qle_shift_div_l; [exact Hpos | ].
      rewrite Qmult_0_l. apply Qlen_nonneg.
    + apply Qle_shift_div_r; [exact Hpos | ].
      rewrite Qmult_1_l. apply Qlen_le, rising_both_le.
Qed.

Lemma no_rising_x (xy : list (Q * Q)) :
  rising_x xy = [] -> directional_effect xy = mkDirectional NoPositiveChanges 0.
Proof. intros H. unfold directional_effect. rewrite H. reflexivity. Qed.

Lemma py_min_two (p1 p2 : Q) :
  exists best, py_min [p1; p2] = Ok best /\ (best = p1 \/ best = p2) /\ (best == Qmin p1 p2)%Q.
Proof.
  cbn [py_min fold_left].
  destruct (Qlt_bool p2 p1) eqn:E; eexists; split; try reflexivity.
  - apply Qlt_bool_iff in E. split; [right; reflexivity | ].
    symmetry. apply Q.min_r. apply Qlt_le_weak. exact E.
  - apply Qlt_bool_false_iff in E. split; [left; reflexivity | ].
    symmetry. apply Q.min_l. exact E.
Qed.

Lemma granger_verdict_helps (p : Q) : granger_verdict p = HelpsPredict <-> (p < 5 # 100)%Q.
Proof.
  unfold granger_verdict. rewrite <- Qlt_bool_iff.
  destruct (Qlt_bool p (5 # 100)); split; congruence.
Qed.

Lemma granger_verdict_none (p : Q) : granger_verdict p = NoEvidence <-> (5 # 100 <= p)%Q.
Proof.
  unfold granger_verdict. rewrite <- Qlt_bool_false_iff.
  destruct (Qlt_bool p (5 # 100)); split; congruence.
Qed.

Lemma response_first_pairs (kpi_x kpi_y : string) (l : list Row) :
  response_first
    (flat_map (fun r => match cell kpi_x r, cell kpi_y r with
                        | Some x, Some y => [(x, y)]
                        | _, _ => []
                        end) l)
  = flat_map (fun r => match cell kpi_y r, cell kpi_x r with
                       | Some y, Some x => [(y, x)]
                       | _, _ => []
                       end) l.
Proof.
  unfold response_first.
  induction l as [ | r t IH]; [reflexivity | ].
  cbn [flat_map]. rewrite map_app, IH.
  destruct (cell kpi_x r), (cell kpi_y r); reflexivity.
Qed.

Section Impact.

Variable fs : string -> option DataFrame.
Variable parse_datetime : string -> option Timestamp.
Variable sort_values_Date : list Row -> list Row.
Variable grangercausalitytests : list (Q * Q) -> nat -> result (list (nat * Q)).

Lemma compare_kpi_impact_body_reached kpi_x kpi_y site_id start_date end_date df xy :
  impact_frame fs parse_datetime kpi_x kpi_y site_id start_date end_date = Ok df ->
  df <> [] ->
  kpi_pairs kpi_x kpi_y (sort_values_Date df) = Ok xy ->
  compare_kpi_impact_body fs parse_datetime sort_values_Date grangercausalitytests
                          kpi_x kpi_y site_id start_date end_date
  = (result <- grangercausalitytests (response_first xy) 2 ;;
     best_p_value <- py_min (map snd result) ;;
     Ok (Impact kpi_x kpi_y site_id (directional_effect xy) best_p_value
                (granger_verdict best_p_value))).
Proof.
  intros Hf Hne Hp. unfold compare_kpi_impact_body.
  rewrite Hf. cbn [bind]. rewrite (is_empty_false _ Hne), Hp. reflexivity.
Qed.

(** C4: the Granger test is given the aligned rows with the response
    [kpi_y] first and the predictor [kpi_x] second, and [maxlag = 2]; with
    its results for the lags 1 and 2, the reported p-value is the smaller
    of the two ssr F-test p-values, and the report says that [kpi_x]
    helps predict [kpi_y] exactly when that p-value is below 0.05, and
    that there is no statistical evidence otherwise. *)
Theorem granger_section_reports_min_p_value :
  forall kpi_x kpi_y site_id start_date end_date df xy result,
    impact_frame fs parse_datetime kpi_x kpi_y site_id start_date end_date = Ok df ->
    df <> [] ->
    kpi_pairs kpi_x kpi_y (sort_values_Date df) = Ok xy ->
    grangercausalitytests (response_first xy) 2 = Ok result ->
    map fst result = [1%nat; 2%nat] ->
    response_first xy
    = flat_map (fun r => match cell kpi_y r, cell kpi_x r with
                         | Some y, Some x => [(y, x)]
                         | _, _ => []
                         end) (sort_values_Date df)
    /\ exists p1 p2 best,
        result = [(1%nat, p1); (2%nat, p2)]
        /\ compare_kpi_impact_body fs parse_datetime sort_values_Date grangercausalitytests
                                   kpi_x kpi_y site_id start_date end_date
           = Ok (Impact kpi_x kpi_y site_id (directional_effect xy) best
                        (granger_verdict best))
        /\ (best = p1 \/ best = p2)
        /\ (best == Qmin p1 p2)%Q
        /\ (granger_verdict best = HelpsPredict <-> (best < 5 # 100)%Q)
        /\ (granger_verdict best = NoEvidence <-> ~ (best < 5 # 100)%Q).
Proof.
  intros kpi_x kpi_y site_id start_date end_date df xy result Hf Hne Hp Hg Hlags.
  split.
  { unfold kpi_pairs in Hp. destruct (kpi_x =? kpi_y); [discriminate | ].
    injection Hp as <-. apply response_first_pairs. }
  destruct result as [ | [l1 p1] [ | [l2 p2] [ | ? ?]]]; try discriminate Hlags.
  injection Hlags as -> ->.
  destruct (py_min_two p1 p2) as (best & Hmin & Hor & Heq).
  exists p1, p2, best.
  split; [reflexivity | ].
  split.
  { rewrite (compare_kpi_impact_body_reached _ _ _ _ _ _ _ Hf Hne Hp).
    rewrite Hg. cbn [bind map snd]. rewrite Hmin. reflexivity. }
  split; [exact Hor | ].
  split; [exact Heq | ].
  split; [apply granger_verdict_helps | ].
  rewrite granger_verdict_none. split.
  - intros H C. exact (Qlt_not_le _ _ C H).
  - intros H. apply Qnot_lt_le. exact H.
Qed.

Variable fmt_fixed : nat -> Q -> string.
Variable fmt_float : Q -> string.
Variable fmt_day : Z -> string.

(** C5, as the code has it: whenever the directional step is reached, the
    ratio lies in [0, 1]; when no row has a positive ΔX the ratio is
    exactly 0 and the comment is the no-positive-changes message, with no
    division made; and that comment is in the report whenever the
    Granger test that follows returns.  When the test raises, the report
    is the error text of that exception. *)
Theorem directional_ratio_in_unit_interval :
  forall kpi_x kpi_y site_id start_date end_date df xy,
    impact_frame fs parse_datetime kpi_x kpi_y site_id start_date end_date = Ok df ->
    df <> [] ->
    kpi_pairs kpi_x kpi_y (sort_values_Date df) = Ok xy ->
    (0 <= directional_ratio (directional_effect xy) <= 1)%Q
    /\ (rising_x xy = [] ->
        directional_ratio (directional_effect xy) = 0%Q
        /\ directional_comment (directional_effect xy) = NoPositiveChanges)
    /\ (forall result best,
           grangercausalitytests (response_first xy) 2 = Ok result ->
           py_min (map snd result) = Ok best ->
           compare_kpi_impact_body fs parse_datetime sort_values_Date grangercausalitytests
                                   kpi_x kpi_y site_id start_date end_date
           = Ok (Impact kpi_x kpi_y site_id (directional_effect xy) best
                        (granger_verdict best)))
    /\ (forall e,
           grangercausalitytests (response_first xy) 2 = Raise e ->
           compare_kpi_impact fs parse_datetime sort_values_Date grangercausalitytests
                              fmt_fixed fmt_float fmt_day
                              kpi_x kpi_y site_id start_date end_date
           = Ok ("Error evaluating directional KPI impact: " ++ exn_str e)).
Proof.
  intros kpi_x kpi_y site_id start_date end_date df xy Hf Hne Hp.
  split; [apply directional_ratio_bounds | ].
  split.
  { intros H. rewrite (no_rising_x _ H). split; reflexivity. }
  split.
  - intros result best Hg Hmin.
    rewrite (compare_kpi_impact_body_reached _ _ _ _ _ _ _ Hf Hne Hp).
    rewrite Hg. cbn [bind]. rewrite Hmin. reflexivity.
  - intros e Hg. unfold compare_kpi_impact.
    rewrite (compare_kpi_impact_body_reached _ _ _ _ _ _ _ Hf Hne Hp).
    rewrite Hg. reflexivity.
Qed.

(** C9 at [compare_kpi_impact]: a start date that is given and cannot be
    parsed is not coerced to a null there; the parse raises and the call
    returns the error text.  The same holds of an end date, when the
    start date is falsy. *)
Theorem compare_kpi_impact_unparsable_date_is_error :
  forall kpi_x kpi_y site_id bad other df,
    fs KPI_CSV_PATH = Some df ->
    has_column df kpi_x = true ->
    has_column df kpi_y = true ->
    bad <> "" ->
    parse_datetime bad = None ->
    truthy other = None ->
    let e := ValueError ("Unknown datetime string format, unable to parse: " ++ bad) in
    compare_kpi_impact_body fs parse_datetime sort_values_Date grangercausalitytests
                            kpi_x kpi_y site_id (Some bad) other = Raise e
    /\ compare_kpi_impact fs parse_datetime sort_values_Date
          grangercausalitytests fmt_fixed fmt_float fmt_day
                          kpi_x kpi_y site_id (Some bad) other
       = Ok ("Error evaluating directional KPI impact: " ++ exn_str e)
    /\ compare_kpi_impact fs parse_datetime sort_values_Date
          grangercausalitytests fmt_fixed fmt_float fmt_day
                          kpi_x kpi_y site_id other (Some bad)
       = Ok ("Error evaluating directional KPI impact: " ++ exn_str e).
Proof.
  intros kpi_x kpi_y site_id bad other df E Hx Hy Hbad Hparse Hother e.
  assert (Ht : truthy (Some bad) = Some bad).
  { cbn [truthy]. apply String.eqb_neq in Hbad. rewrite Hbad. reflexivity. }
  assert (Hstart : impact_frame fs parse_datetime kpi_x kpi_y site_id (Some bad) other
                   = Raise e).
  { unfold impact_frame, read_csv, require_column.
    rewrite E. cbn [bind]. rewrite Hx. cbn [bind]. rewrite Hy. cbn [bind].
    rewrite Ht. unfold to_datetime. rewrite Hparse. reflexivity. }
  assert (Hend : impact_frame fs parse_datetime kpi_x kpi_y site_id other (Some bad)
                 = Raise e).
  { unfold impact_frame, read_csv, require_column.
    rewrite E. cbn [bind]. rewrite Hx. cbn [bind]. rewrite Hy. cbn [bind].
    rewrite Hother. cbn [bind]. rewrite Ht. unfold to_datetime. rewrite Hparse.
    reflexivity. }
  split; [ | split].
  - unfold compare_kpi_impact_body. rewrite Hstart. reflexivity.
  - unfold compare_kpi_impact, compare_kpi_impact_body. rewrite Hstart. reflexivity.
  - unfold compare_kpi_impact, compare_kpi_impact_body. rewrite Hend. reflexivity.
Qed.

End Impact.

(** ** Unparsable dates in the operations that coerce *)

Lemma in_window_NaT_start (e : Timestamp) (l : list Row) : filter (in_window NaT e) l = [].
Proof.
  induction l as [ | r t IH]; [reflexivity | ].
  cbn [filter]. unfold in_window at 1, ts_ge, NaT.
  destruct (Date r); cbn [andb]; exact IH.
Qed.

Lemma ts_ge_NaT_filter (l : list Row) : filter (fun r => ts_ge (Date r) NaT) l = [].
Proof.
  induction l as [ | r t IH]; [reflexivity | ].
  cbn [filter]. unfold ts_ge at 1, NaT. destruct (Date r); exact IH.
Qed.

Section CoercedDates.

Variable fs : string -> option DataFrame.
Variable parse_datetime : string -> option Timestamp.
Variable Series_mean : list Q -> Q.
Variable groupby_mean : list Q -> Q.

(** In [get_site_kpi_extreme] an unparsable start date becomes NaT, the
    window is empty and the "no data" report is returned. *)
Lemma extreme_unparsable_start_is_no_data kpi_name extreme_type bad end_date df :
  fs KPI_CSV_PATH = Some df ->
  has_column df kpi_name = true ->
  bad <> "" ->
  parse_datetime bad = None ->
  exists e,
    get_site_kpi_extreme_body fs parse_datetime groupby_mean
          kpi_name extreme_type (Some bad) end_date
    = Ok (ExtremeNoData kpi_name NaT e).
Proof.
  intros E Hc Hbad Hparse.
  unfold get_site_kpi_extreme_body, extreme_frame, read_csv, require_column, default_window.
  rewrite E. cbn [bind]. rewrite Hc. cbn [bind truthy].
  apply String.eqb_neq in Hbad. rewrite Hbad.
  assert (Hnat : to_datetime_coerce parse_datetime bad = NaT)
    by (unfold to_datetime_coerce; rewrite Hparse; reflexivity).
  rewrite Hnat. cbn [bind].
  rewrite in_window_NaT_start. cbn [is_empty]. eexists. reflexivity.
Qed.

(** In [kpi_anomalies] too: no anomaly row passes a NaT bound. *)
Lemma anomalies_unparsable_start_is_no_data kpi_name site_id sector_id bad end_date df0 :
  fs "Data/df_ensemble.csv" = Some df0 ->
  bad <> "" ->
  parse_datetime bad = None ->
  kpi_anomalies_body fs parse_datetime Series_mean kpi_name site_id sector_id (Some bad) end_date
  = Ok (AnomalyNoData kpi_name).
Proof.
  intros E0 Hbad Hparse.
  assert (Hrows : anomaly_rows parse_datetime kpi_name site_id sector_id (Some bad) end_date df0
                  = []).
  { unfold anomaly_rows, date_filter. cbn [truthy].
    apply String.eqb_neq in Hbad. rewrite Hbad.
    assert (Hnat : to_datetime_coerce parse_datetime bad = NaT)
      by (unfold to_datetime_coerce; rewrite Hparse; reflexivity).
    rewrite Hnat, ts_ge_NaT_filter.
    destruct (truthy end_date); reflexivity. }
  unfold kpi_anomalies_body, read_csv. rewrite E0. cbn [bind]. rewrite Hrows. reflexivity.
Qed.

End CoercedDates.

(** * The properties on the sample tables *)

(** With both bounds explicitly [None], the December anomaly row of the
    sample is among the anomaly rows of SINR; with the default window it
    is not. *)
Lemma explicit_null_bound_sample :
  (@None string = None \/ @None string = Some "")
  /\ In (Sample.anomaly 19700 "SITE_001" "SITE_001_SECTOR_A" "SINR" 1)
        (anomaly_rows Sample.iso_parse "SINR" None None None (Some "2024-02-29")
                      Sample.df_ensemble)
  /\ ~ In (Sample.anomaly 19700 "SITE_001" "SITE_001_SECTOR_A" "SINR" 1)
          (anomaly_rows Sample.iso_parse "SINR" None None (Some "2024-01-01")
                        (Some "2024-02-29") Sample.df_ensemble).
Proof.
  split; [left; reflexivity | ].
  split.
  - destruct (explicit_null_bound_disables_date_filter
                Sample.iso_parse Sample.Series_mean None (or_introl eq_refl)
                "SINR" None None (Some "2024-02-29") Sample.df_ensemble
                (Sample.anomaly 19700 "SITE_001" "SITE_001_SECTOR_A" "SINR" 1)) as [T _].
    apply (proj2 T).
    split; [left; reflexivity | ].
    split; [reflexivity | ].
    split; [split; intros s E; discriminate E | ].
    intros s E. injection E as <-.
    exists 19700%Z, 19782%Z.
    split; [reflexivity | ]. split; [vm_compute; reflexivity | lia].
  - vm_compute. intros H.
    repeat (destruct H as [H | H]; [discriminate H | ]). exact H.
Defined.

Lemma partition_means_sample :
  exists s above below,
    kpi_anomalies_body Sample.fs Sample.iso_parse Sample.Series_mean "SINR" None None
                       (Some "2024-01-01") (Some "2024-02-29")
    = Ok (AnomalyReport "SINR" s)
    /\ avg_above s = Some above
    /\ avg_below s = Some below
    /\ (kpi_avg s < above)%Q /\ (below <= kpi_avg s)%Q.
Proof.
  eexists. eexists. eexists.
  split; [vm_compute; reflexivity | ].
  split; [reflexivity | ].
  split; [reflexivity | ].
  destruct (partition_means_ordered_up_to_rounding
              Sample.fs Sample.iso_parse Sample.Series_mean "SINR" None None
              (Some "2024-01-01") (Some "2024-02-29") _ _ _ _
              ltac:(vm_compute; reflexivity) eq_refl eq_refl)
    as (df0 & E0 & H).
  injection E0 as <-. cbv zeta in H.
  destruct H as (_ & _ & _ & _ & _ & _ & Ha & Hb & _).
  split; [apply Ha | apply Hb].
  - exists 25%Q. split; [vm_compute; tauto | vm_compute; discriminate].
  - exists 2%Q. split; [vm_compute; tauto | vm_compute; discriminate].
Defined.

(** A baseline of 0.1 and anomalies of 0.1 (three times) and 5: both
    partitions have values, and the mean of the three values at the
    baseline is, in float64, the next float above 0.1, which is above
    the baseline. *)
Lemma below_mean_above_baseline_by_rounding :
  exists s above below,
    kpi_anomalies_body Sample.fs_at_baseline Sample.iso_parse Sample.Series_mean
                       "SINR" None None (Some "2024-01-01") (Some "2024-02-29")
    = Ok (AnomalyReport "SINR" s)
    /\ avg_above s = Some above
    /\ avg_below s = Some below
    /\ kpi_avg s = Sample.tenth
    /\ below = Sample.next_up Sample.tenth
    /\ ~ (below <= kpi_avg s)%Q.
Proof.
  eexists. eexists. eexists.
  split; [vm_compute; reflexivity | ].
  split; [reflexivity | ].
  split; [reflexivity | ].
  split; [vm_compute; reflexivity | ].
  split; [vm_compute; reflexivity | ].
  vm_compute. intros C. apply C. reflexivity.
Qed.

Lemma co_occurrence_section_sample :
  Sample.fs "Data/df_ensemble.csv" = Some Sample.df_ensemble
  /\ anomaly_rows Sample.iso_parse "SINR" None None (Some "2024-01-01") (Some "2024-02-29")
                  Sample.df_ensemble <> []
  /\ Sample.fs "Data/KPI_data_cleaned.csv" = Some Sample.KPI_data_cleaned
  /\ has_column Sample.KPI_data_cleaned "SINR" = true
  /\ base_rows Sample.iso_parse "SINR" None None (Some "2024-01-01") (Some "2024-02-29")
               Sample.KPI_data_cleaned <> []
  /\ has_column Sample.df_ensemble "SINR" = true
  /\ find_group "SINR" = Some ("signal", ["RSRP"; "SINR"])
  /\ exists s,
      kpi_anomalies_body Sample.fs Sample.iso_parse Sample.Series_mean "SINR" None None
                         (Some "2024-01-01") (Some "2024-02-29")
      = Ok (AnomalyReport "SINR" s)
      /\ In ("RSRP", 3%nat) (related_counts s)
      /\ forall v, ~ In ("DL_Throughput", v) (related_counts s).
Proof.
  assert (H2 : anomaly_rows Sample.iso_parse "SINR" None None
                            (Some "2024-01-01") (Some "2024-02-29") Sample.df_ensemble <> [])
    by (vm_compute; discriminate).
  assert (H5 : base_rows Sample.iso_parse "SINR" None None
                         (Some "2024-01-01") (Some "2024-02-29") Sample.KPI_data_cleaned <> [])
    by (vm_compute; discriminate).
  split; [reflexivity | ].
  split; [exact H2 | ].
  split; [reflexivity | ].
  split; [reflexivity | ].
  split; [exact H5 | ].
  split; [reflexivity | ].
  split; [reflexivity | ].
  destruct (co_occurrence_section_counts_same_group_kpis
              Sample.fs Sample.iso_parse Sample.Series_mean "SINR" None None
              (Some "2024-01-01") (Some "2024-02-29")
              Sample.df_ensemble Sample.KPI_data_cleaned "signal" ["RSRP"; "SINR"]
              eq_refl H2 eq_refl eq_refl H5 eq_refl eq_refl)
    as (s & Hbody & _ & Hiff).
  exists s. split; [exact Hbody | ]. split.
  - apply Hiff. split.
    + split; [discriminate | ].
      exists ("signal", ["RSRP"; "SINR"]). cbn. tauto.
    + split; [vm_compute; reflexivity | lia].
  - intros v Hin. apply Hiff in Hin. destruct Hin as [[_ (g & Hg & Hs & Hd)] _].
    cases_In Hg; subst g; cases_In Hs; try discriminate Hs; cases_In Hd; discriminate Hd.
Defined.

(** A KPI that both tables hold but no group lists: the co-occurrence
    step fails on the unbound [Kpis], and the call returns only the
    error text, none of the statistics computed before. *)
Lemma co_occurrence_failure_loses_report :
  anomaly_rows Sample.iso_parse "Latency" None None (Some "2024-01-01") (Some "2024-02-29")
               Sample.df_ensemble <> []
  /\ base_rows Sample.iso_parse "Latency" None None (Some "2024-01-01") (Some "2024-02-29")
               Sample.KPI_data_cleaned <> []
  /\ co_occurrence Sample.fs "Latency" None None (option_map snd (find_group "Latency"))
                   (anomaly_rows Sample.iso_parse "Latency" None None
                                 (Some "2024-01-01") (Some "2024-02-29") Sample.df_ensemble)
     = Raise (UnboundLocalError "Kpis")
  /\ ~ (exists s,
           kpi_anomalies_body Sample.fs Sample.iso_parse Sample.Series_mean "Latency" None None
                              (Some "2024-01-01") (Some "2024-02-29")
           = Ok (AnomalyReport "Latency" s))
  /\ kpi_anomalies Sample.fs Sample.iso_parse Sample.Series_mean
        Sample.decimal_fixed Sample.decimal_float
                   Sample.iso_day "Latency" None None Omitted Omitted
     = Ok "Error analyzing KPI anomalies: cannot access local variable 'Kpis' where it is not associated with a value".
Proof.
  split; [vm_compute; discriminate | ].
  split; [vm_compute; discriminate | ].
  split; [vm_compute; reflexivity | ].
  split; [ | vm_compute; reflexivity].
  intros [s H]. vm_compute in H. discriminate H.
Qed.

Lemma co_occurrence_failure_sample :
  Sample.fs "Data/df_ensemble.csv" = Some Sample.df_ensemble
  /\ anomaly_rows Sample.iso_parse "Latency" None None (Some "2024-01-01") (Some "2024-02-29")
                  Sample.df_ensemble <> []
  /\ Sample.fs "Data/KPI_data_cleaned.csv" = Some Sample.KPI_data_cleaned
  /\ has_column Sample.KPI_data_cleaned "Latency" = true
  /\ base_rows Sample.iso_parse "Latency" None None (Some "2024-01-01") (Some "2024-02-29")
               Sample.KPI_data_cleaned <> []
  /\ has_column Sample.df_ensemble "Latency" = true
  /\ co_occurrence Sample.fs "Latency" None None (option_map snd (find_group "Latency"))
                   (anomaly_rows Sample.iso_parse "Latency" None None
                                 (Some "2024-01-01") (Some "2024-02-29") Sample.df_ensemble)
     = Raise (UnboundLocalError "Kpis")
  /\ kpi_anomalies_body Sample.fs Sample.iso_parse Sample.Series_mean "Latency" None None
                        (Some "2024-01-01") (Some "2024-02-29")
     = Raise (UnboundLocalError "Kpis")
  /\ kpi_anomalies Sample.fs Sample.iso_parse Sample.Series_mean
        Sample.decimal_fixed Sample.decimal_float
                   Sample.iso_day "Latency" None None
                   (Passed (Some "2024-01-01")) (Passed (Some "2024-02-29"))
     = Ok ("Error analyzing KPI anomalies: " ++ exn_str (UnboundLocalError "Kpis")).
Proof.
  assert (H2 : anomaly_rows Sample.iso_parse "Latency" None None
                            (Some "2024-01-01") (Some "2024-02-29") Sample.df_ensemble <> [])
    by (vm_compute; discriminate).
  assert (H5 : base_rows Sample.iso_parse "Latency" None None
                         (Some "2024-01-01") (Some "2024-02-29") Sample.KPI_data_cleaned <> [])
    by (vm_compute; discriminate).
  assert (H7 : co_occurrence Sample.fs "Latency" None None
                             (option_map snd (find_group "Latency"))
                             (anomaly_rows Sample.iso_parse "Latency" None None
                                           (Some "2024-01-01") (Some "2024-02-29")
                                           Sample.df_ensemble)
               = Raise (UnboundLocalError "Kpis"))
    by (vm_compute; reflexivity).
  split; [reflexivity | ].
  split; [exact H2 | ].
  split; [reflexivity | ].
  split; [reflexivity | ].
  split; [exact H5 | ].
  split; [reflexivity | ].
  split; [exact H7 | ].
  exact (co_occurrence_failure_becomes_error_text
           Sample.fs Sample.iso_parse Sample.Series_mean
                 Sample.decimal_fixed Sample.decimal_float Sample.iso_day
           "Latency" None None (Some "2024-01-01") (Some "2024-02-29")
           Sample.df_ensemble Sample.KPI_data_cleaned (UnboundLocalError "Kpis")
           eq_refl H2 eq_refl eq_refl H5 eq_refl H7).
Defined.

(** SITE_003 has a row in the source table, without a DL_Throughput
    value: the peak-day query answers "no data found for site". *)
Lemma peak_not_found_although_site_has_rows :
  get_peak_kpi_day_for_site_body Sample.fs Sample.iso_parse
                                 "SITE_003" "DL_Throughput" "highest" None None
  = Ok (PeakSiteNotFound "SITE_003")
  /\ filter (site_is "SITE_003") (rows Sample.KPI_data_cleaned) <> []
  /\ ~ (get_peak_kpi_day_for_site_body Sample.fs Sample.iso_parse
                                       "SITE_003" "DL_Throughput" "highest" None None
        = Ok (PeakSiteNotFound "SITE_003")
        <-> filter (site_is "SITE_003") (rows Sample.KPI_data_cleaned) = []).
Proof.
  assert (H1 : get_peak_kpi_day_for_site_body Sample.fs Sample.iso_parse
                 "SITE_003" "DL_Throughput" "highest" None None
               = Ok (PeakSiteNotFound "SITE_003")) by (vm_compute; reflexivity).
  assert (H2 : filter (site_is "SITE_003") (rows Sample.KPI_data_cleaned) <> [])
    by (vm_compute; discriminate).
  split; [exact H1 | ]. split; [exact H2 | ].
  intros [H _]. exact (H2 (H H1)).
Qed.

Lemma peak_not_found_sample :
  Sample.fs KPI_CSV_PATH = Some Sample.KPI_data_cleaned
  /\ has_column Sample.KPI_data_cleaned "DL_Throughput" = true
  /\ (get_peak_kpi_day_for_site_body Sample.fs Sample.iso_parse
                                     "SITE_003" "DL_Throughput" "highest" None None
      = Ok (PeakSiteNotFound "SITE_003")
      <-> filter (site_is "SITE_003")
                 (dropna_subset ["DL_Throughput"] (rows Sample.KPI_data_cleaned)) = []).
Proof.
  split; [reflexivity | ]. split; [reflexivity | ].
  pose proof (peak_not_found_and_empty_window
                Sample.fs Sample.iso_parse "SITE_003" "DL_Throughput" "highest" None None
                Sample.KPI_data_cleaned eq_refl eq_refl) as T.
  cbv zeta in T. destruct T as (_ & T & _). exact T.
Defined.

Lemma highest_and_lowest_site_sample :
  exists sd ed filtered,
    extreme_frame Sample.fs Sample.iso_parse "SINR" None None = Ok (sd, ed, filtered)
    /\ filtered <> []
    /\ exists site_hi site_lo value_hi value_lo,
        get_site_kpi_extreme_body Sample.fs Sample.iso_parse Sample.groupby_mean
              "SINR" "highest" None None
        = Ok (ExtremeSite sd ed site_hi "highest" "SINR" value_hi)
        /\ get_site_kpi_extreme_body Sample.fs Sample.iso_parse Sample.groupby_mean
              "SINR" "lowest" None None
           = Ok (ExtremeSite sd ed site_lo "lowest" "SINR" value_lo)
        /\ site_hi <> site_lo.
Proof.
  eexists. eexists. eexists.
  split; [vm_compute; reflexivity | ].
  split; [discriminate | ].
  match goal with
  | |- exists site_hi site_lo value_hi value_lo,
        _ = Ok (ExtremeSite ?sd ?ed _ _ _ _) /\ _ =>
      destruct (highest_and_lowest_site_differ_unless_computed_means_tie
                  Sample.fs Sample.iso_parse Sample.groupby_mean "SINR" None None sd ed _
                  ltac:(vm_compute; reflexivity) ltac:(discriminate))
        as (site_hi & site_lo & Hhi & Hlo & _ & _ & _ & Hdiff)
  end.
  exists site_hi, site_lo. eexists. eexists.
  split; [exact Hhi | ]. split; [exact Hlo | ].
  apply Hdiff.
  exists "SITE_001", "SITE_002".
  split; [vm_compute; discriminate | ]. split; [vm_compute; discriminate | ].
  intros C. vm_compute in C. discriminate C.
Defined.

(** SITE_A has three measurements of 0.1 and SITE_B one of the next
    float above 0.1: the exact averages of the two sites differ, their
    float64 means are both the next float above 0.1, and the "highest"
    and the "lowest" call both report SITE_A. *)
Lemma close_sites_reported_by_both_calls :
  exists sd ed filtered v,
    extreme_frame Sample.fs_close_sites Sample.iso_parse "SINR" None None
    = Ok (sd, ed, filtered)
    /\ site_kpi_values "SINR" "SITE_A" filtered <> []
    /\ site_kpi_values "SINR" "SITE_B" filtered <> []
    /\ ~ (Qmean (site_kpi_values "SINR" "SITE_A" filtered)
          == Qmean (site_kpi_values "SINR" "SITE_B" filtered))%Q
    /\ get_site_kpi_extreme_body Sample.fs_close_sites Sample.iso_parse Sample.groupby_mean
                                 "SINR" "highest" None None
       = Ok (ExtremeSite sd ed "SITE_A" "highest" "SINR" v)
    /\ get_site_kpi_extreme_body Sample.fs_close_sites Sample.iso_parse Sample.groupby_mean
                                 "SINR" "lowest" None None
       = Ok (ExtremeSite sd ed "SITE_A" "lowest" "SINR" v).
Proof.
  eexists. eexists. eexists. eexists.
  split; [vm_compute; reflexivity | ].
  split; [vm_compute; discriminate | ].
  split; [vm_compute; discriminate | ].
  split; [intros C; vm_compute in C; discriminate C | ].
  split; vm_compute; reflexivity.
Qed.

(** On the same table the RSRP column holds 0.1 three times: its float64
    mean is the next float above 0.1, above the column's maximum. *)
Example describe_mean_above_max_by_rounding :
  exists dmin dmax ns nsec stats st m mx,
    describe_kpi_dataset_body Sample.fs_close_sites Sample.Series_mean None
    = Ok (DatasetSummary dmin dmax ns nsec stats)
    /\ In st stats /\ stat_kpi st = "RSRP"
    /\ stat_mean st = Some m /\ stat_max st = Some mx
    /\ mx = Sample.tenth /\ m = Sample.next_up Sample.tenth /\ (mx < m)%Q.
Proof.
  eexists. eexists. eexists. eexists. eexists. eexists. eexists. eexists.
  split; [vm_compute; reflexivity | ].
  split; [right; left; reflexivity | ].
  split; [reflexivity | ].
  split; [reflexivity | ].
  split; [reflexivity | ].
  split; [vm_compute; reflexivity | ].
  split; [vm_compute; reflexivity | ].
  vm_compute. reflexivity.
Qed.

Lemma granger_section_sample :
  exists df xy result,
    impact_frame Sample.fs Sample.iso_parse "SINR" "DL_Throughput" (Some "SITE_001") None None
    = Ok df
    /\ df <> []
    /\ kpi_pairs "SINR" "DL_Throughput" (Sample.sort_values_Date df) = Ok xy
    /\ Sample.granger (response_first xy) 2 = Ok result
    /\ map fst result = [1%nat; 2%nat]
    /\ exists best,
        compare_kpi_impact_body Sample.fs Sample.iso_parse Sample.sort_values_Date Sample.granger
                                "SINR" "DL_Throughput" (Some "SITE_001") None None
        = Ok (Impact "SINR" "DL_Throughput" (Some "SITE_001") (directional_effect xy) best
                     (granger_verdict best))
        /\ (best == 3 # 100)%Q
        /\ granger_verdict best = HelpsPredict.
Proof.
  eexists. eexists. eexists.
  split; [vm_compute; reflexivity | ].
  split; [discriminate | ].
  split; [vm_compute; reflexivity | ].
  split; [vm_compute; reflexivity | ].
  split; [reflexivity | ].
  match goal with
  | |- exists best, _ = Ok (Impact _ _ _ (directional_effect ?xy) _ _) /\ _ =>
      destruct (granger_section_reports_min_p_value
                  Sample.fs Sample.iso_parse Sample.sort_values_Date Sample.granger
                  "SINR" "DL_Throughput" (Some "SITE_001") None None _ xy _
                  ltac:(vm_compute; reflexivity) ltac:(discriminate)
                  ltac:(vm_compute; reflexivity) ltac:(vm_compute; reflexivity)
                  ltac:(reflexivity))
        as (_ & p1 & p2 & best & Hres & Hbody & _ & Heq & Hhelps & _)
  end.
  injection Hres as <- <-.
  assert (Hbest : (best == 3 # 100)%Q).
  { rewrite Heq. apply Q.min_r. unfold Qle; simpl; lia. }
  exists best. split; [exact Hbody | ]. split; [exact Hbest | ].
  apply Hhelps. rewrite Hbest. unfold Qlt; simpl; lia.
Defined.

(** SITE_002 has two rows, SINR falling from one to the next: no row has
    a positive ΔX, the Granger test refuses the series, and the report is
    its error text, without the no-positive-changes message. *)
Lemma no_positive_changes_message_lost :
  exists df xy text,
    impact_frame Sample.fs Sample.iso_parse "SINR" "DL_Throughput" (Some "SITE_002") None None
    = Ok df
    /\ kpi_pairs "SINR" "DL_Throughput" (Sample.sort_values_Date df) = Ok xy
    /\ valid_deltas xy <> []
    /\ rising_x xy = []
    /\ compare_kpi_impact Sample.fs Sample.iso_parse Sample.sort_values_Date Sample.granger
                          Sample.decimal_fixed Sample.decimal_float Sample.iso_day
                          "SINR" "DL_Throughput" (Some "SITE_002") None None
       = Ok text
    /\ text = "Error evaluating directional KPI impact: Insufficient observations. Maximum allowable lag is 0"
    /\ index 0 "No positive changes" text = None.
Proof.
  eexists. eexists. eexists.
  split; [vm_compute; reflexivity | ].
  split; [vm_compute; reflexivity | ].
  split; [vm_compute; discriminate | ].
  split; [vm_compute; reflexivity | ].
  split; [vm_compute; reflexivity | ].
  split; [reflexivity | vm_compute; reflexivity].
Qed.

Lemma directional_ratio_sample :
  exists df xy,
    impact_frame Sample.fs Sample.iso_parse "SINR" "DL_Throughput" (Some "SITE_002") None None
    = Ok df
    /\ df <> []
    /\ kpi_pairs "SINR" "DL_Throughput" (Sample.sort_values_Date df) = Ok xy
    /\ (0 <= directional_ratio (directional_effect xy) <= 1)%Q
    /\ directional_ratio (directional_effect xy) = 0%Q
    /\ directional_comment (directional_effect xy) = NoPositiveChanges
    /\ compare_kpi_impact Sample.fs Sample.iso_parse Sample.sort_values_Date Sample.granger
                          Sample.decimal_fixed Sample.decimal_float Sample.iso_day
                          "SINR" "DL_Throughput" (Some "SITE_002") None None
       = Ok ("Error evaluating directional KPI impact: "
               ++ exn_str (ValueError "Insufficient observations. Maximum allowable lag is 0")).
Proof.
  eexists. eexists.
  split; [vm_compute; reflexivity | ].
  split; [discriminate | ].
  split; [vm_compute; reflexivity | ].
  match goal with
  | |- (0 <= directional_ratio (directional_effect ?xy) <= 1)%Q /\ _ =>
      destruct (directional_ratio_in_unit_interval
                  Sample.fs Sample.iso_parse Sample.sort_values_Date Sample.granger
                  Sample.decimal_fixed Sample.decimal_float Sample.iso_day
                  "SINR" "DL_Throughput" (Some "SITE_002") None None _ xy
                  ltac:(vm_compute; reflexivity) ltac:(discriminate)
                  ltac:(vm_compute; reflexivity))
        as (Hb & Hno & _ & Herr)
  end.
  split; [exact Hb | ].
  split; [apply Hno; vm_compute; reflexivity | ].
  split; [apply Hno; vm_compute; reflexivity | ].
  apply Herr. vm_compute. reflexivity.
Defined.

Lemma unparsable_date_sample :
  Sample.fs KPI_CSV_PATH = Some Sample.KPI_data_cleaned
  /\ has_column Sample.KPI_data_cleaned "SINR" = true
  /\ has_column Sample.KPI_data_cleaned "DL_Throughput" = true
  /\ "junk" <> ""
  /\ Sample.iso_parse "junk" = None
  /\ truthy None = None
  /\ compare_kpi_impact Sample.fs Sample.iso_parse Sample.sort_values_Date Sample.granger
                        Sample.decimal_fixed Sample.decimal_float Sample.iso_day
                        "SINR" "DL_Throughput" None (Some "junk") None
     = Ok ("Error evaluating directional KPI impact: "
             ++ exn_str (ValueError "Unknown datetime string format, unable to parse: junk")).
Proof.
  assert (Hne : "junk" <> "") by discriminate.
  split; [reflexivity | ].
  split; [reflexivity | ].
  split; [reflexivity | ].
  split; [exact Hne | ].
  split; [reflexivity | ].
  split; [reflexivity | ].
  destruct (compare_kpi_impact_unparsable_date_is_error
              Sample.fs Sample.iso_parse Sample.sort_values_Date Sample.granger
              Sample.decimal_fixed Sample.decimal_float Sample.iso_day
              "SINR" "DL_Throughput" None "junk" None Sample.KPI_data_cleaned
              eq_refl eq_refl eq_refl Hne eq_refl eq_refl) as (_ & H & _).
  exact H.
Defined.

(** ** The reports of the operations on the sample tables *)

Example lowest_sinr_site_text :
  get_site_kpi_extreme Sample.fs Sample.iso_parse Sample.groupby_mean
                       Sample.decimal_fixed Sample.decimal_float Sample.iso_day
                       "SINR" "Lowest" (Some "2024-01-01") (Some "2024-01-09")
  = Ok "Between **2024-01-01** and **2024-01-09**, site `SITE_002` had the lowest average **SINR** of **7.00**.".
Proof. vm_compute. reflexivity. Qed.

Example unparsable_start_extreme_text :
  get_site_kpi_extreme Sample.fs Sample.iso_parse Sample.groupby_mean
                       Sample.decimal_fixed Sample.decimal_float Sample.iso_day
                       "SINR" "highest" (Some "junk") None
  = Ok "No data available for `SINR` between NaT and 2024-01-09.".
Proof. vm_compute. reflexivity. Qed.

Example unknown_column_extreme_text :
  get_site_kpi_extreme Sample.fs Sample.iso_parse Sample.groupby_mean
                       Sample.decimal_fixed Sample.decimal_float Sample.iso_day
                       "Jitter" "highest" None None
  = Ok "Error processing KPI data: 'Jitter'".
Proof. vm_compute. reflexivity. Qed.

Example peak_day_text :
  get_peak_kpi_day_for_site Sample.fs Sample.iso_parse
                            Sample.decimal_fixed Sample.decimal_float Sample.iso_day
                            "SITE_001" "DL_Throughput" "highest" None None
  = Ok " On **2024-01-08**, site `SITE_001` had the highest **DL_Throughput** of **63.00** between 2023-12-10 and 2024-01-09.".
Proof. vm_compute. reflexivity. Qed.

Example peak_day_empty_window_text :
  get_peak_kpi_day_for_site Sample.fs Sample.iso_parse
                            Sample.decimal_fixed Sample.decimal_float Sample.iso_day
                            "SITE_002" "SINR" "lowest" (Some "2024-01-01") (Some "2024-01-05")
  = Ok "No data found for `SITE_002` between 2024-01-01 and 2024-01-05.".
Proof. vm_compute. reflexivity. Qed.

Example no_anomaly_data_text :
  kpi_anomalies Sample.fs Sample.iso_parse Sample.Series_mean
                Sample.decimal_fixed Sample.decimal_float Sample.iso_day
                "Call_Drop_Rate" None None Omitted Omitted
  = Ok "No anomaly data found for `Call_Drop_Rate` with given filters.".
Proof. vm_compute. reflexivity. Qed.

Example anomaly_summary_fields :
  kpi_anomalies_body Sample.fs Sample.iso_parse Sample.Series_mean "SINR" (Some "SITE_001") None
                     (Some "2024-01-01") (Some "2024-02-29")
  = Ok (AnomalyReport "SINR"
          (mkAnomalySummary 2 (Sample.double (112 # 9)) (Some (25 # 1)) (Some (2 # 1)) "signal"
                            ["RSRP"; "SINR"] (Some (19724%Z, 1%nat)) [("RSRP", 1%nat)])).
Proof. vm_compute. reflexivity. Qed.

(** * Further properties of the operations *)

(** ** Latest date of a column *)

Lemma fold_ts_max_Some (l : list Timestamp) (a : Z) :
  exists m,
    fold_left (fun acc t =>
                 match acc, t with
                 | Some a, Some b => Some (Z.max a b)
                 | None, Some b => Some b
                 | _, None => acc
                 end) l (Some a) = Some m
    /\ (m = a \/ In (Some m) l)
    /\ (a <= m)%Z
    /\ forall x, In (Some x) l -> (x <= m)%Z.
Proof.
  revert a. induction l as [ | t l IH]; intros a; cbn [fold_left].
  - exists a. split; [reflexivity | ]. split; [left; reflexivity | ].
    split; [lia | intros x []].
  - destruct t as [b | ].
    + destruct (IH (Z.max a b)) as (m & Hm & Hin & Hle & Hall).
      exists m. split; [exact Hm | ]. split.
      * destruct Hin as [-> | Hin]; [ | right; right; exact Hin].
        destruct (Z.max_spec a b) as [[_ ->] | [_ ->]];
          [right; left; reflexivity | left; reflexivity].
      * split; [lia | ]. intros x [Hx | Hx]; [injection Hx as ->; lia | apply Hall, Hx].
    + destruct (IH a) as (m & Hm & Hin & Hle & Hall).
      exists m. split; [exact Hm | ]. split.
      * destruct Hin as [-> | Hin]; [left; reflexivity | right; right; exact Hin].
      * split; [exact Hle | ]. intros x [Hx | Hx]; [discriminate Hx | apply Hall, Hx].
Qed.

(** The latest date of a column that has a date is one of its dates and
    no date of the column is later. *)
Lemma ts_max_Some (l : list Timestamp) (d : Z) :
  In (Some d) l ->
  exists m, ts_max l = Some m /\ In (Some m) l /\ forall x, In (Some x) l -> (x <= m)%Z.
Proof.
  unfold ts_max. induction l as [ | t l IH]; intros Hin; [contradiction | ].
  cbn [fold_left]. destruct t as [b | ].
  - destruct (fold_ts_max_Some l b) as (m & Hm & Hor & Hle & Hall).
    exists m. split; [exact Hm | ]. split.
    + destruct Hor as [-> | Hor]; [left; reflexivity | right; exact Hor].
    + intros x [Hx | Hx]; [injection Hx as ->; exact Hle | apply Hall, Hx].
  - destruct Hin as [Hin | Hin]; [discriminate Hin | ].
    destruct (IH Hin) as (m & Hm & Hin' & Hall).
    exists m. split; [exact Hm | ]. split; [right; exact Hin' | ].
    intros x [Hx | Hx]; [discriminate Hx | apply Hall, Hx].
Qed.

(** With both dates omitted, the row of the latest date is in the
    window. *)
Lemma default_window_keeps_latest parse_datetime (days : Z) (l : list Row)
      (start_date end_date : option string) :
  (0 <= days)%Z ->
  truthy start_date = None ->
  truthy end_date = None ->
  l <> [] ->
  (forall r, In r l -> Date r <> NaT) ->
  exists m,
    default_window parse_datetime days l start_date end_date = (Some (m - days)%Z, Some m)
    /\ ts_max (map Date l) = Some m
    /\ filter (in_window (Some (m - days)%Z) (Some m)) l <> [].
Proof.
  intros Hdays Hs He Hne Hdates.
  destruct l as [ | r0 t]; [congruence | ].
  destruct (Date r0) as [d0 | ] eqn:E0;
    [ | exfalso; apply (Hdates r0 (or_introl eq_refl)); exact E0].
  destruct (ts_max_Some (map Date (r0 :: t)) d0) as (m & Hm & Hin & Hall).
  { cbn [map]. left. exact E0. }
  exists m. unfold default_window. rewrite Hs, He, Hm. cbn [sub_days].
  split; [reflexivity | ]. split; [reflexivity | ].
  apply in_map_iff in Hin. destruct Hin as (r & Hr & Hin).
  intros C.
  assert (Hf : In r (filter (in_window (Some (m - days)%Z) (Some m)) (r0 :: t))).
  { apply filter_In. split; [exact Hin | ].
    unfold in_window, ts_ge, ts_le. rewrite Hr.
    apply andb_true_iff. split; apply Z.leb_le; lia. }
  rewrite C in Hf. exact Hf.
Qed.

(** ** Rows and their values *)

Lemma In_row_values (kpi : string) (l : list Row) (r : Row) (v : Q) :
  In (r, v) (row_values kpi l) <-> In r l /\ cell kpi r = Some v.
Proof.
  unfold row_values. rewrite in_flat_map. split.
  - intros (r' & Hin & H). destruct (cell kpi r') as [v' | ] eqn:E; [ | contradiction].
    destruct H as [H | []]. injection H as -> ->. auto.
  - intros [Hin E]. exists r. split; [exact Hin | ]. rewrite E. left; reflexivity.
Qed.

Lemma row_values_nonempty (kpi : string) (l : list Row) :
  l <> [] -> (forall r, In r l -> cell kpi r <> None) -> row_values kpi l <> [].
Proof.
  destruct l as [ | r t]; [congruence | intros _ H].
  unfold row_values. cbn [flat_map].
  destruct (cell kpi r) eqn:E; [discriminate | ].
  exfalso. exact (H r (or_introl eq_refl) E).
Qed.

Lemma series_idxmax_Ok {K : Type} (l : list (K * Q)) (kv : K * Q) :
  series_idxmax l = Ok kv -> idxmax l = Some kv.
Proof. unfold series_idxmax. destruct (idxmax l); intros H; [congruence | discriminate]. Qed.

Lemma series_idxmin_Ok {K : Type} (l : list (K * Q)) (kv : K * Q) :
  series_idxmin l = Ok kv -> idxmin l = Some kv.
Proof. unfold series_idxmin. destruct (idxmin l); intros H; [congruence | discriminate]. Qed.

Lemma in_window_true (s e : Timestamp) (r : Row) :
  in_window s e r = true
  <-> exists dz sz ez, Date r = Some dz /\ s = Some sz /\ e = Some ez /\ (sz <= dz <= ez)%Z.
Proof.
  unfold in_window. rewrite andb_true_iff, ts_ge_true, ts_le_true. split.
  - intros [(x & y & Hx & Hy & H1) (x' & y' & Hx' & Hy' & H2)].
    exists x, y, y'. rewrite Hx in Hx'. injection Hx' as <-. repeat split; auto.
  - intros (dz & sz & ez & Hd & Hs & He & H1 & H2).
    split; [exists dz, sz | exists dz, ez]; auto.
Qed.

Section PeakRow.

Variable fs : string -> option DataFrame.
Variable parse_datetime : string -> option Timestamp.

Lemma site_frame_inv site_id kpi_name site_df :
  site_frame fs site_id kpi_name = Ok site_df ->
  exists df,
    fs KPI_CSV_PATH = Some df
    /\ has_column df kpi_name = true
    /\ site_df = filter (site_is site_id) (dropna_subset [kpi_name] (rows df)).
Proof.
  unfold site_frame, read_csv, require_column. intros H.
  destruct (fs KPI_CSV_PATH) as [df | ]; cbn [bind] in H; [ | discriminate].
  destruct (has_column df kpi_name) eqn:Hc; cbn [bind] in H; [ | discriminate].
  injection H as <-. exists df. auto.
Qed.

(** The day reported by [get_peak_kpi_day_for_site] is the date of a row
    of the site that lies in the reported window, the value is that row's
    value, and no row of the site in the window has a higher value (a
    lower one, for "lowest"). *)
Theorem peak_day_row_is_extreme_in_window :
  forall site_id kpi_name extreme_type start_date end_date d label v s e,
    get_peak_kpi_day_for_site_body fs parse_datetime site_id kpi_name extreme_type
                                   start_date end_date
    = Ok (PeakDay d site_id label kpi_name v s e) ->
    exists df peak_row dz sz ez,
      fs KPI_CSV_PATH = Some df
      /\ In peak_row (rows df)
      /\ Site_ID peak_row = Some site_id
      /\ Date peak_row = d
      /\ cell kpi_name peak_row = Some v
      /\ d = Some dz /\ s = Some sz /\ e = Some ez /\ (sz <= dz <= ez)%Z
      /\ label = (if lower extreme_type =? "lowest" then "lowest" else "highest")
      /\ forall r x xd,
          In r (rows df) -> Site_ID r = Some site_id -> cell kpi_name r = Some x ->
          Date r = Some xd -> (sz <= xd <= ez)%Z ->
          if lower extreme_type =? "lowest" then (v <= x)%Q else (x <= v)%Q.
Proof.
  intros site_id kpi_name extreme_type start_date end_date d label v s e H.
  unfold get_peak_kpi_day_for_site_body in H.
  inv_bind H. rename a into site_df.
  destruct (site_frame_inv _ _ _ E) as (df & Efs & Hc & Hsite).
  destruct (is_empty site_df); [discriminate H | ].
  destruct (default_window parse_datetime 30 site_df start_date end_date) as [s0 e0].
  destruct (is_empty (filter (in_window s0 e0) site_df)); [discriminate H | ].
  assert (Hrows : forall r x, In (r, x) (row_values kpi_name (filter (in_window s0 e0) site_df))
                              <-> (In r (rows df) /\ Site_ID r = Some site_id
                                   /\ cell kpi_name r = Some x)
                                  /\ in_window s0 e0 r = true).
  { intros r x. rewrite In_row_values, filter_In, Hsite, filter_In, site_is_true,
      In_dropna_subset1. split.
    - intros [[[(H1 & _) H2] H3] H4]. auto.
    - intros [(H1 & H2 & H3) H4].
      apply in_window_true in H4 as Hw. destruct Hw as (dz & _ & _ & Hd & _).
      repeat split; auto; unfold NaT; congruence. }
  assert (Hinside : forall r x xd sz ez,
             s0 = Some sz -> e0 = Some ez ->
             In r (rows df) -> Site_ID r = Some site_id -> cell kpi_name r = Some x ->
             Date r = Some xd -> (sz <= xd <= ez)%Z ->
             In (r, x) (row_values kpi_name (filter (in_window s0 e0) site_df))).
  { intros r x xd sz ez -> -> H1 H2 H3 H4 H5. apply Hrows. split; [auto | ].
    apply in_window_true. exists xd, sz, ez. auto. }
  destruct (lower extreme_type =? "lowest").
  - inv_bind H. destruct a as [peak_row value]. injection H as <- <- <- <- <-.
    apply series_idxmin_Ok, idxmin_spec in E0. destruct E0 as [Hin Hmin].
    apply Hrows in Hin. destruct Hin as [(H1 & H2 & H3) H4].
    apply in_window_true in H4. destruct H4 as (dz & sz & ez & Hd & Hs & He & Hb).
    exists df, peak_row, dz, sz, ez.
    repeat (split; [assumption || reflexivity | ]).
    intros r x xd R1 R2 R3 R4 R5.
    exact (Hmin (r, x) (Hinside r x xd sz ez Hs He R1 R2 R3 R4 R5)).
  - inv_bind H. destruct a as [peak_row value]. injection H as <- <- <- <- <-.
    apply series_idxmax_Ok, idxmax_spec in E0. destruct E0 as [Hin Hmax].
    apply Hrows in Hin. destruct Hin as [(H1 & H2 & H3) H4].
    apply in_window_true in H4. destruct H4 as (dz & sz & ez & Hd & Hs & He & Hb).
    exists df, peak_row, dz, sz, ez.
    repeat (split; [assumption || reflexivity | ]).
    intros r x xd R1 R2 R3 R4 R5.
    exact (Hmax (r, x) (Hinside r x xd sz ez Hs He R1 R2 R3 R4 R5)).
Qed.

(** With both dates omitted, a site that has a row with a date and a
    value always gets a peak day: the window ends at the latest such row,
    which lies in it, and starts 30 days before. *)
Theorem peak_day_found_with_default_window :
  forall site_id kpi_name extreme_type start_date end_date df,
    fs KPI_CSV_PATH = Some df ->
    has_column df kpi_name = true ->
    truthy start_date = None ->
    truthy end_date = None ->
    filter (site_is site_id) (dropna_subset [kpi_name] (rows df)) <> [] ->
    exists d label v m,
      get_peak_kpi_day_for_site_body fs parse_datetime site_id kpi_name extreme_type
                                     start_date end_date
      = Ok (PeakDay d site_id label kpi_name v (Some (m - 30)%Z) (Some m))
      /\ ts_max (map Date (filter (site_is site_id) (dropna_subset [kpi_name] (rows df))))
         = Some m.
Proof.
  intros site_id kpi_name extreme_type start_date end_date df Efs Hc Hs He Hne.
  set (site_df := filter (site_is site_id) (dropna_subset [kpi_name] (rows df))) in *.
  assert (Hcomplete : forall r, In r site_df -> Date r <> NaT /\ cell kpi_name r <> None).
  { intros r Hr. unfold site_df in Hr. apply filter_In in Hr. destruct Hr as [Hr _].
    apply In_dropna_subset1 in Hr. tauto. }
  destruct (default_window_keeps_latest parse_datetime 30 site_df start_date end_date)
    as (m & Hw & Hm & Hin); try assumption; [lia | intros r Hr; apply Hcomplete, Hr | ].
  assert (Hvals : row_values kpi_name
                    (filter (in_window (Some (m - 30)%Z) (Some m)) site_df) <> []).
  { apply row_values_nonempty; [exact Hin | ].
    intros r Hr. apply filter_In in Hr. apply Hcomplete, Hr. }
  unfold get_peak_kpi_day_for_site_body.
  unfold site_frame, read_csv, require_column.
  rewrite Efs. cbn [bind]. rewrite Hc. cbn [bind]. fold site_df.
  rewrite (is_empty_false _ Hne), Hw, (is_empty_false _ Hin).
  destruct (lower extreme_type =? "lowest").
  - destruct (series_idxmin_nonempty _ Hvals) as ([peak_row value] & Hok & _).
    rewrite Hok. cbn [bind]. eauto 8.
  - destruct (series_idxmax_nonempty _ Hvals) as ([peak_row value] & Hok & _).
    rewrite Hok. cbn [bind]. eauto 8.
Qed.

End PeakRow.

(** ** The first extreme of a series *)

Lemma fold_max_first {K : Type} (t : list (K * Q)) (h : K * Q) :
  let r := fold_left (fun best kv => if Qlt_bool (snd best) (snd kv) then kv else best) t h in
  exists pre post, h :: t = (pre ++ r :: post)%list /\ forall x, In x pre -> (snd x < snd r)%Q.
Proof.
  revert h. induction t as [ | a t IH]; intros h; cbn [fold_left].
  - exists [], []. split; [reflexivity | intros x []].
  - pose proof (fold_max_spec t (if Qlt_bool (snd h) (snd a) then a else h)) as Hspec.
    specialize (IH (if Qlt_bool (snd h) (snd a) then a else h)).
    cbv zeta in IH, Hspec. destruct IH as (pre & post & Heq & Hpre).
    destruct Hspec as [_ Hmax].
    destruct (Qlt_bool (snd h) (snd a)) eqn:E.
    + apply Qlt_bool_iff in E.
      exists (h :: pre), post. split; [cbn [app]; rewrite <- Heq; reflexivity | ].
      intros x [<- | Hx]; [ | apply Hpre, Hx].
      eapply Qlt_le_trans; [exact E | apply Hmax; left; reflexivity].
    + apply Qlt_bool_false_iff in E.
      destruct pre as [ | p pre'].
      * cbn [app] in Heq. injection Heq as Hr Ht.
        exists [], (a :: t). split; [cbn [app]; rewrite <- Hr; reflexivity | intros x []].
      * cbn [app] in Heq. injection Heq as Hp Ht. subst p.
        exists (h :: a :: pre'), post.
        split; [cbn [app]; rewrite <- Ht; reflexivity | ].
        assert (Hh : (snd h < snd (fold_left
                                     (fun best kv =>
                                        if Qlt_bool (snd best) (snd kv) then kv else best)
                                     t h))%Q) by (apply Hpre; left; reflexivity).
        intros x [<- | [<- | Hx]].
        -- exact Hh.
        -- eapply Qle_lt_trans; [exact E | exact Hh].
        -- apply Hpre. right; exact Hx.
Qed.

Lemma fold_min_first {K : Type} (t : list (K * Q)) (h : K * Q) :
  let r := fold_left (fun best kv => if Qlt_bool (snd kv) (snd best) then kv else best) t h in
  exists pre post, h :: t = (pre ++ r :: post)%list /\ forall x, In x pre -> (snd r < snd x)%Q.
Proof.
  revert h. induction t as [ | a t IH]; intros h; cbn [fold_left].
  - exists [], []. split; [reflexivity | intros x []].
  - pose proof (fold_min_spec t (if Qlt_bool (snd a) (snd h) then a else h)) as Hspec.
    specialize (IH (if Qlt_bool (snd a) (snd h) then a else h)).
    cbv zeta in IH, Hspec. destruct IH as (pre & post & Heq & Hpre).
    destruct Hspec as [_ Hmin].
    destruct (Qlt_bool (snd a) (snd h)) eqn:E.
    + apply Qlt_bool_iff in E.
      exists (h :: pre), post. split; [cbn [app]; rewrite <- Heq; reflexivity | ].
      intros x [<- | Hx]; [ | apply Hpre, Hx].
      eapply Qle_lt_trans; [apply Hmin; left; reflexivity | exact E].
    + apply Qlt_bool_false_iff in E.
      destruct pre as [ | p pre'].
      * cbn [app] in Heq. injection Heq as Hr Ht.
        exists [], (a :: t). split; [cbn [app]; rewrite <- Hr; reflexivity | intros x []].
      * cbn [app] in Heq. injection Heq as Hp Ht. subst p.
        exists (h :: a :: pre'), post.
        split; [cbn [app]; rewrite <- Ht; reflexivity | ].
        assert (Hh : (snd (fold_left
                             (fun best kv =>
                                if Qlt_bool (snd kv) (snd best) then kv else best)
                             t h) < snd h)%Q) by (apply Hpre; left; reflexivity).
        intros x [<- | [<- | Hx]].
        -- exact Hh.
        -- eapply Qlt_le_trans; [exact Hh | exact E].
        -- apply Hpre. right; exact Hx.
Qed.

Lemma idxmax_first {K : Type} (l : list (K * Q)) (kv : K * Q) :
  idxmax l = Some kv ->
  exists pre post, l = (pre ++ kv :: post)%list /\ forall x, In x pre -> (snd x < snd kv)%Q.
Proof.
  destruct l as [ | h t]; [discriminate | ].
  unfold idxmax. intros H. injection H as <-. apply fold_max_first.
Qed.

Lemma idxmin_first {K : Type} (l : list (K * Q)) (kv : K * Q) :
  idxmin l = Some kv ->
  exists pre post, l = (pre ++ kv :: post)%list /\ forall x, In x pre -> (snd kv < snd x)%Q.
Proof.
  destruct l as [ | h t]; [discriminate | ].
  unfold idxmin. intros H. injection H as <-. apply fold_min_first.
Qed.

Lemma sorted_after {A : Type} (R : A -> A -> Prop) (l1 l2 : list A) (a : A) :
  StronglySorted R (l1 ++ a :: l2) -> Forall (R a) l2.
Proof.
  induction l1 as [ | x l1 IH]; cbn [app]; intros H; inversion H; subst; auto.
Qed.

(** In a series with ascending keys, an entry that ties with the first
    extreme has the same key or a later one. *)
Lemma first_extreme_least_key (l pre post : list (string * Q)) (k k' : string) (v v' : Q) :
  StronglySorted String_as_OT.lt (map fst l) ->
  l = (pre ++ (k, v) :: post)%list ->
  (forall x, In x pre -> ~ (snd x == v)%Q) ->
  In (k', v') l -> (v' == v)%Q -> site_le k k'.
Proof.
  intros Hs -> Hpre Hin Heq.
  rewrite map_app in Hs. cbn [map fst] in Hs. apply sorted_after in Hs.
  apply in_app_or in Hin. destruct Hin as [Hin | [Hin | Hin]].
  - exfalso. exact (Hpre _ Hin Heq).
  - injection Hin as -> _. left; reflexivity.
  - right. rewrite Forall_forall in Hs. apply Hs.
    apply in_map_iff. exists (k', v'). auto.
Qed.

Section SiteExtremeValue.

Variable fs : string -> option DataFrame.
Variable parse_datetime : string -> option Timestamp.
Variable groupby_mean : list Q -> Q.

Lemma extreme_body_inv kpi_name extreme_type start_date end_date s e site dir k v :
  get_site_kpi_extreme_body fs parse_datetime groupby_mean kpi_name extreme_type start_date end_date
  = Ok (ExtremeSite s e site dir k v) ->
  exists filtered,
    extreme_frame fs parse_datetime kpi_name start_date end_date = Ok (s, e, filtered)
    /\ k = kpi_name
    /\ dir = (if lower extreme_type =? "lowest" then "lowest" else "highest")
    /\ (if lower extreme_type =? "lowest"
        then idxmin (mean_by_site groupby_mean kpi_name filtered)
        else idxmax (mean_by_site groupby_mean kpi_name filtered)) = Some (site, v).
Proof.
  unfold get_site_kpi_extreme_body. intros H.
  inv_bind H. destruct a as [[s0 e0] filtered].
  destruct (is_empty filtered); [discriminate H | ].
  exists filtered.
  destruct (lower extreme_type =? "lowest"); inv_bind H; destruct a as [site0 v0];
    injection H as <- <- <- <- <- <-.
  - apply series_idxmin_Ok in E0. auto.
  - apply series_idxmax_Ok in E0. auto.
Qed.

(** The value reported by [get_site_kpi_extreme] is pandas' mean of the
    reported site's values in the window, and no site with values in
    the window has a higher computed mean (a lower one, for "lowest"). *)
Theorem extreme_site_value_bounds_all_averages :
  forall kpi_name extreme_type start_date end_date s e site dir k v,
    get_site_kpi_extreme_body fs parse_datetime groupby_mean
          kpi_name extreme_type start_date end_date
    = Ok (ExtremeSite s e site dir k v) ->
    exists filtered,
      extreme_frame fs parse_datetime kpi_name start_date end_date = Ok (s, e, filtered)
      /\ k = kpi_name
      /\ dir = (if lower extreme_type =? "lowest" then "lowest" else "highest")
      /\ site_kpi_values kpi_name site filtered <> []
      /\ v = groupby_mean (site_kpi_values kpi_name site filtered)
      /\ forall site',
          site_kpi_values kpi_name site' filtered <> [] ->
          if lower extreme_type =? "lowest"
          then (v <= groupby_mean (site_kpi_values kpi_name site' filtered))%Q
          else (groupby_mean (site_kpi_values kpi_name site' filtered) <= v)%Q.
Proof.
  intros kpi_name extreme_type start_date end_date s e site dir k v H.
  destruct (extreme_body_inv _ _ _ _ _ _ _ _ _ _ H) as (filtered & Hf & Hk & Hdir & Hidx).
  exists filtered. split; [exact Hf | ]. split; [exact Hk | ]. split; [exact Hdir | ].
  destruct (lower extreme_type =? "lowest").
  - apply idxmin_spec in Hidx. destruct Hidx as [Hin Hmin].
    apply mean_by_site_spec in Hin. destruct Hin as [Hp Hv].
    split; [exact Hp | ]. split; [exact Hv | ].
    intros site' Hp'.
    apply (Hmin (site', groupby_mean (site_kpi_values kpi_name site' filtered))).
    apply mean_by_site_spec. auto.
  - apply idxmax_spec in Hidx. destruct Hidx as [Hin Hmax].
    apply mean_by_site_spec in Hin. destruct Hin as [Hp Hv].
    split; [exact Hp | ]. split; [exact Hv | ].
    intros site' Hp'.
    apply (Hmax (site', groupby_mean (site_kpi_values kpi_name site' filtered))).
    apply mean_by_site_spec. auto.
Qed.

(** Ties are broken by the site identifier: among the sites whose
    computed windowed mean equals the reported value, the reported site
    is the first in ascending order of identifiers. *)
Theorem extreme_site_ties_go_to_least_site_id :
  forall kpi_name extreme_type start_date end_date s e site dir k v,
    get_site_kpi_extreme_body fs parse_datetime groupby_mean
          kpi_name extreme_type start_date end_date
    = Ok (ExtremeSite s e site dir k v) ->
    exists filtered,
      extreme_frame fs parse_datetime kpi_name start_date end_date = Ok (s, e, filtered)
      /\ forall site',
          site_kpi_values kpi_name site' filtered <> [] ->
          (groupby_mean (site_kpi_values kpi_name site' filtered) == v)%Q ->
          site_le site site'.
Proof.
  intros kpi_name extreme_type start_date end_date s e site dir k v H.
  destruct (extreme_body_inv _ _ _ _ _ _ _ _ _ _ H) as (filtered & Hf & _ & _ & Hidx).
  exists filtered. split; [exact Hf | ].
  intros site' Hp' Heq.
  assert (Hin' : In (site', groupby_mean (site_kpi_values kpi_name site' filtered))
                    (mean_by_site groupby_mean kpi_name filtered))
    by (apply mean_by_site_spec; auto).
  assert (Hsorted : StronglySorted String_as_OT.lt (map fst (mean_by_site groupby_mean
        kpi_name filtered))).
  { unfold mean_by_site. rewrite map_map. cbn [fst].
    change (fun x : string * list Q => fst x) with (@fst string (list Q)).
    apply groupby_sorted. }
  destruct (lower extreme_type =? "lowest").
  - apply idxmin_first in Hidx. destruct Hidx as (pre & post & Hl & Hpre).
    refine (first_extreme_least_key _ pre post site site' v _ Hsorted Hl _ Hin' Heq).
    intros x Hx C. specialize (Hpre x Hx). cbn [snd] in Hpre. rewrite C in Hpre.
    exact (Qlt_irrefl _ Hpre).
  - apply idxmax_first in Hidx. destruct Hidx as (pre & post & Hl & Hpre).
    refine (first_extreme_least_key _ pre post site site' v _ Hsorted Hl _ Hin' Heq).
    intros x Hx C. specialize (Hpre x Hx). cbn [snd] in Hpre. rewrite C in Hpre.
    exact (Qlt_irrefl _ Hpre).
Qed.

(** With both dates omitted, a table that has a row with a date, a site
    and a value of the KPI always gets a site reported, for the window of
    the 7 days up to the latest such row. *)
Theorem extreme_site_found_with_default_window :
  forall kpi_name extreme_type start_date end_date df,
    fs KPI_CSV_PATH = Some df ->
    has_column df kpi_name = true ->
    truthy start_date = None ->
    truthy end_date = None ->
    dropna_subset [kpi_name] (rows df) <> [] ->
    exists site dir v m,
      get_site_kpi_extreme_body fs parse_datetime groupby_mean
            kpi_name extreme_type start_date end_date
      = Ok (ExtremeSite (Some (m - 7)%Z) (Some m) site dir kpi_name v)
      /\ ts_max (map Date (dropna_subset [kpi_name] (rows df))) = Some m.
Proof.
  intros kpi_name extreme_type start_date end_date df Efs Hc Hs He Hne.
  set (l := dropna_subset [kpi_name] (rows df)) in *.
  assert (Hcomplete : forall r, In r l -> Date r <> NaT /\ Site_ID r <> None
                                          /\ cell kpi_name r <> None).
  { intros r Hr. apply In_dropna_subset1 in Hr. tauto. }
  destruct (default_window_keeps_latest parse_datetime 7 l start_date end_date)
    as (m & Hw & Hm & Hin); try assumption; [lia | intros r Hr; apply Hcomplete, Hr | ].
  assert (Havg : mean_by_site groupby_mean
        kpi_name (filter (in_window (Some (m - 7)%Z) (Some m)) l) <> []).
  { unfold mean_by_site. intros C. apply map_eq_nil in C. revert C.
    apply groupby_nonempty, site_values_nonempty; [exact Hin | ].
    intros r Hr. apply filter_In in Hr. destruct Hr as [Hr _].
    destruct (Hcomplete r Hr) as (_ & H1 & H2). auto. }
  unfold get_site_kpi_extreme_body, extreme_frame, read_csv, require_column.
  rewrite Efs. cbn [bind]. rewrite Hc. cbn [bind]. fold l. rewrite Hw. cbn [bind].
  rewrite (is_empty_false _ Hin).
  destruct (lower extreme_type =? "lowest").
  - destruct (series_idxmin_nonempty _ Havg) as ([site v] & Hok & _).
    rewrite Hok. cbn [bind]. eauto 8.
  - destruct (series_idxmax_nonempty _ Havg) as ([site v] & Hok & _).
    rewrite Hok. cbn [bind]. eauto 8.
Qed.

End SiteExtremeValue.

(** ** The directional section *)

Lemma Qlen_eq_iff {A B : Type} (l : list A) (m : list B) :
  (Qlen l == Qlen m)%Q <-> List.length l = List.length m.
Proof.
  unfold Qlen. rewrite inject_Z_injective. split; intros H; lia.
Qed.

Lemma Qlen_zero_iff {A : Type} (l : list A) : (Qlen l == 0)%Q <-> l = [].
Proof.
  change 0%Q with (@Qlen A []). rewrite Qlen_eq_iff.
  destruct l; cbn [List.length]; split; congruence.
Qed.

Lemma Qdiv_zero_iff (a b : Q) : (0 < b)%Q -> (a / b == 0)%Q <-> (a == 0)%Q.
Proof.
  intros Hb. assert (Hne : ~ (b == 0)%Q) by (intros C; rewrite C in Hb; exact (Qlt_irrefl _ Hb)).
  split; intros H.
  - rewrite <- (Qmult_div_r a b Hne), H. apply Qmult_0_r.
  - rewrite H. unfold Qdiv. apply Qmult_0_l.
Qed.

Lemma Qdiv_one_iff (a b : Q) : (0 < b)%Q -> (a / b == 1)%Q <-> (a == b)%Q.
Proof.
  intros Hb. assert (Hne : ~ (b == 0)%Q) by (intros C; rewrite C in Hb; exact (Qlt_irrefl _ Hb)).
  split; intros H.
  - rewrite <- (Qmult_div_r a b Hne), H. apply Qmult_1_r.
  - rewrite H. unfold Qdiv. apply Qmult_inv_r. exact Hne.
Qed.

(** The differences that are kept: one for each row and the row before
    it. *)
Lemma valid_deltas_step (a b : Q * Q) (t : list (Q * Q)) :
  valid_deltas (a :: b :: t)
  = ((fst b - fst a)%Q, (snd b - snd a)%Q) :: valid_deltas (b :: t).
Proof. reflexivity. Qed.

Lemma In_valid_deltas (xy : list (Q * Q)) (d : Q * Q) :
  In d (valid_deltas xy)
  <-> exists i a b,
      nth_error xy i = Some a /\ nth_error xy (S i) = Some b
      /\ d = ((fst b - fst a)%Q, (snd b - snd a)%Q).
Proof.
  induction xy as [ | a t IH].
  - split; [intros [] | intros (i & x & y & H & _)]. destruct i; discriminate H.
  - destruct t as [ | b t].
    + split; [intros [] | intros (i & x & y & _ & H & _)].
      destruct i; [discriminate H | destruct i; discriminate H].
    + rewrite valid_deltas_step. cbn [In]. rewrite IH. split.
      * intros [<- | (i & x & y & Hx & Hy & Hd)].
        -- exists 0%nat, a, b. auto.
        -- exists (S i), x, y. auto.
      * intros (i & x & y & Hx & Hy & Hd). destruct i as [ | i].
        -- left. cbn in Hx, Hy. injection Hx as <-. injection Hy as <-. auto.
        -- right. exists i, x, y. auto.
Qed.

Lemma filter_nil_iff {A : Type} (f : A -> bool) (l : list A) :
  filter f l = [] <-> forall x, In x l -> f x = false.
Proof.
  induction l as [ | h t IH]; cbn [filter].
  - split; [intros _ x [] | reflexivity].
  - destruct (f h) eqn:E.
    + split; [discriminate | intros H]. rewrite (H h (or_introl eq_refl)) in E. discriminate E.
    + rewrite IH. split.
      * intros H x [<- | Hx]; [exact E | exact (H x Hx)].
      * intros H x Hx. apply H. right; exact Hx.
Qed.

Lemma filter_length_bound {A : Type} (f : A -> bool) (l : list A) :
  (List.length (filter f l) <= List.length l)%nat.
Proof.
  induction l as [ | h t IH]; cbn [filter List.length]; [lia | ].
  destruct (f h); cbn [List.length]; lia.
Qed.

Lemma filter_length_all {A : Type} (f : A -> bool) (l : list A) :
  List.length (filter f l) = List.length l <-> forall x, In x l -> f x = true.
Proof.
  induction l as [ | h t IH]; cbn [filter].
  - split; [intros _ x [] | reflexivity].
  - pose proof (filter_length_bound f t) as Hb.
    destruct (f h) eqn:E; cbn [List.length].
    + split.
      * intros H x [<- | Hx]; [exact E | ]. apply IH; [lia | exact Hx].
      * intros H. f_equal. apply IH. intros x Hx. apply H. right; exact Hx.
    + split; [intros H; lia | intros H].
      rewrite (H h (or_introl eq_refl)) in E. discriminate E.
Qed.

Lemma rising_iff (a b : Q) : (0 < b - a)%Q <-> (a < b)%Q.
Proof. unfold Qminus. symmetry. apply Qlt_minus_iff. Qed.

Section ImpactFrame.

Variable fs : string -> option DataFrame.
Variable parse_datetime : string -> option Timestamp.
Variable sort_values_Date : list Row -> list Row.
Variable grangercausalitytests : list (Q * Q) -> nat -> result (list (nat * Q)).

(** [compare_kpi_impact] works on the rows that have a date, a site and
    both KPI values and pass the site and date filters that are given,
    the bounds being inclusive; it answers "No data available" exactly
    when there is no such row, before any statistic is computed. *)
Theorem impact_no_data_exactly_when_no_row_passes :
  forall kpi_x kpi_y site_id start_date end_date frame,
    impact_frame fs parse_datetime kpi_x kpi_y site_id start_date end_date = Ok frame ->
    (exists df,
        fs KPI_CSV_PATH = Some df
        /\ forall r,
            In r frame
            <-> In r (rows df)
                /\ Date r <> NaT /\ Site_ID r <> None
                /\ cell kpi_x r <> None /\ cell kpi_y r <> None
                /\ (forall s, truthy site_id = Some s -> Site_ID r = Some s)
                /\ (forall s, truthy start_date = Some s ->
                              exists d b, parse_datetime s = Some (Some b)
                                          /\ Date r = Some d /\ (b <= d)%Z)
                /\ (forall s, truthy end_date = Some s ->
                              exists d b, parse_datetime s = Some (Some b)
                                          /\ Date r = Some d /\ (d <= b)%Z))
    /\ (compare_kpi_impact_body fs parse_datetime sort_values_Date grangercausalitytests
                                kpi_x kpi_y site_id start_date end_date
        = Ok (ImpactNoData kpi_x kpi_y)
        <-> frame = []).
Proof.
  intros kpi_x kpi_y site_id start_date end_date frame H.
  split.
  - unfold impact_frame, read_csv, require_column in H.
    destruct (fs KPI_CSV_PATH) as [df | ]; cbn [bind] in H; [ | discriminate].
    destruct (has_column df kpi_x); cbn [bind] in H; [ | discriminate].
    destruct (has_column df kpi_y); cbn [bind] in H; [ | discriminate].
    exists df. split; [reflexivity | ].
    intros r.
    set (l0 := dropna_subset [kpi_x; kpi_y] (rows df)) in H.
    assert (H0 : In r l0 <-> In r (rows df) /\ Date r <> NaT /\ Site_ID r <> None
                             /\ cell kpi_x r <> None /\ cell kpi_y r <> None).
    { unfold l0, dropna_subset. rewrite filter_In. cbn [forallb].
      rewrite !andb_true_iff, !notna_true. unfold NaT. tauto. }
    set (l1 := match truthy site_id with Some s => filter (site_is s) l0 | None => l0 end) in H.
    assert (H1 : In r l1 <-> In r l0 /\ (forall s, truthy site_id = Some s -> Site_ID r = Some s)).
    { unfold l1. destruct (truthy site_id) as [s | ].
      - rewrite filter_In, site_is_true. split.
        + intros [A B]. split; [exact A | intros s' Es; congruence].
        + intros [A B]. auto.
      - split; [intros A; split; [exact A | intros s' Es; discriminate] | tauto]. }
    inv_bind H. rename a into l2.
    assert (H2 : In r l2 <-> In r l1
                             /\ (forall s, truthy start_date = Some s ->
                                           exists d b, parse_datetime s = Some (Some b)
                                                       /\ Date r = Some d /\ (b <= d)%Z)).
    { destruct (truthy start_date) as [s | ].
      - inv_bind E. injection E as <-. unfold to_datetime in E0.
        destruct (parse_datetime s) as [t | ] eqn:Ep; [ | discriminate].
        injection E0 as ->. rewrite filter_In, ts_ge_true. split.
        + intros [A (x & y & Hx & Hy & Hle)]. split; [exact A | ].
          intros s' Es. injection Es as <-. exists x, y. rewrite Ep, Hy. auto.
        + intros [A B]. split; [exact A | ].
          destruct (B s eq_refl) as (d & b & Hp & Hd & Hle).
          exists d, b. rewrite Ep in Hp. injection Hp as ->. auto.
      - injection E as <-. split; [intros A; split; [exact A | intros s' Es; discriminate] | tauto]. }
    assert (H3 : In r frame <-> In r l2
                                /\ (forall s, truthy end_date = Some s ->
                                              exists d b, parse_datetime s = Some (Some b)
                                                          /\ Date r = Some d /\ (d <= b)%Z)).
    { destruct (truthy end_date) as [s | ].
      - inv_bind H. injection H as <-. unfold to_datetime in E0.
        destruct (parse_datetime s) as [t | ] eqn:Ep; [ | discriminate].
        injection E0 as ->. rewrite filter_In, ts_le_true. split.
        + intros [A (x & y & Hx & Hy & Hle)]. split; [exact A | ].
          intros s' Es. injection Es as <-. exists x, y. rewrite Ep, Hy. auto.
        + intros [A B]. split; [exact A | ].
          destruct (B s eq_refl) as (d & b & Hp & Hd & Hle).
          exists d, b. rewrite Ep in Hp. injection Hp as ->. auto.
      - injection H as <-. split; [intros A; split; [exact A | intros s' Es; discriminate] | tauto]. }
    rewrite H3, H2, H1, H0. tauto.
  - unfold compare_kpi_impact_body. rewrite H. cbn [bind].
    destruct frame as [ | r0 t]; cbn [is_empty].
    + split; reflexivity.
    + split; [ | discriminate]. intros C.
      inv_bind C. inv_bind C. inv_bind C. discriminate C.
Qed.

(** The directional section of a report of [compare_kpi_impact] reads
    the rows of the date-sorted frame in pairs, each row with the row
    before it, whatever the two rows' sites and dates.  The message is
    the no-positive-changes one exactly when [kpi_x] rises on no such
    step; otherwise [kpi_x] rises on some step, and the probability
    shown is 0 exactly when [kpi_y] rises on none of the steps on which
    [kpi_x] rises, and 1 exactly when it rises on all of them. *)
Theorem directional_section_reads_consecutive_rows :
  forall kpi_x kpi_y site_id start_date end_date kx ky site eff best verdict,
    compare_kpi_impact_body fs parse_datetime sort_values_Date grangercausalitytests
                            kpi_x kpi_y site_id start_date end_date
    = Ok (Impact kx ky site eff best verdict) ->
    exists frame xy,
      impact_frame fs parse_datetime kpi_x kpi_y site_id start_date end_date = Ok frame
      /\ kpi_pairs kpi_x kpi_y (sort_values_Date frame) = Ok xy
      /\ let step := fun a b : Q * Q =>
                       exists i, nth_error xy i = Some a /\ nth_error xy (S i) = Some b in
         (directional_comment eff = NoPositiveChanges
          <-> forall a b, step a b -> (fst b <= fst a)%Q)
         /\ forall p likely,
             directional_comment eff = ConditionalProb p likely ->
             (exists a b, step a b /\ (fst a < fst b)%Q)
             /\ ((p == 0)%Q
                 <-> forall a b, step a b -> (fst a < fst b)%Q -> (snd b <= snd a)%Q)
             /\ ((p == 1)%Q
                 <-> forall a b, step a b -> (fst a < fst b)%Q -> (snd a < snd b)%Q).
Proof.
  intros kpi_x kpi_y site_id start_date end_date kx ky site eff best verdict H.
  unfold compare_kpi_impact_body in H.
  apply bind_Ok_inv in H. destruct H as (frame & Hframe & H).
  destruct (is_empty frame); [discriminate H | ].
  apply bind_Ok_inv in H. destruct H as (xy & Hxy & H).
  apply bind_Ok_inv in H. destruct H as (result & _ & H).
  apply bind_Ok_inv in H. destruct H as (best' & _ & H).
  injection H as _ _ _ <- _ _.
  exists frame, xy. split; [exact Hframe | ]. split; [exact Hxy | ].
  intros step.
  assert (Hx : forall d, In d (rising_x xy)
                         <-> exists a b, step a b /\ (fst a < fst b)%Q
                                         /\ d = ((fst b - fst a)%Q, (snd b - snd a)%Q)).
  { intros d. unfold rising_x. rewrite filter_In, In_valid_deltas, Qlt_bool_iff. split.
    - intros [(i & a & b & Ha & Hb & ->) Hr]. cbn [fst] in Hr. apply -> rising_iff in Hr.
      exists a, b. split; [exists i; auto | auto].
    - intros (a & b & (i & Ha & Hb) & Hr & ->). split; [exists i, a, b; auto | ].
      cbn [fst]. apply <- rising_iff. exact Hr. }
  assert (Hnone : rising_x xy = [] <-> forall a b, step a b -> (fst b <= fst a)%Q).
  { split.
    - intros E a b Hs. apply Qnot_lt_le. intros Hr.
      assert (Hin : In ((fst b - fst a)%Q, (snd b - snd a)%Q) (rising_x xy))
        by (apply Hx; exists a, b; auto).
      rewrite E in Hin. exact Hin.
    - intros Hall. destruct (rising_x xy) as [ | d t] eqn:E; [reflexivity | exfalso].
      destruct (proj1 (Hx d) (or_introl eq_refl)) as (a & b & Hs & Hr & _).
      exact (Qlt_not_le _ _ Hr (Hall a b Hs)). }
  unfold directional_effect.
  destruct (List.length (rising_x xy) =? 0)%nat eqn:E; cbn [directional_comment].
  - apply Nat.eqb_eq, length_zero_iff_nil in E. split.
    + split; [intros _; apply Hnone; exact E | reflexivity].
    + intros p likely C. discriminate C.
  - apply Nat.eqb_neq in E.
    assert (Hne : rising_x xy <> []) by (intros C; rewrite C in E; apply E; reflexivity).
    split.
    + split; [discriminate | intros C; apply Hnone in C; contradiction].
    + intros p likely C. injection C as <- _.
      split.
      { destruct (rising_x xy) as [ | d t] eqn:Ex; [congruence | ].
        destruct (proj1 (Hx d) (or_introl eq_refl)) as (a & b & Hs & Hr & _).
        exists a, b. auto. }
      split.
      * rewrite (Qdiv_zero_iff _ _ (Qlen_pos _ Hne)), Qlen_zero_iff.
        unfold rising_both. rewrite filter_nil_iff. split.
        -- intros Hall a b Hs Hr. apply Qnot_lt_le. intros Hy.
           assert (Hin : In ((fst b - fst a)%Q, (snd b - snd a)%Q) (rising_x xy))
             by (apply Hx; exists a, b; auto).
           apply Hall in Hin. cbn [snd] in Hin. apply Qlt_bool_false_iff in Hin.
           apply <- rising_iff in Hy. exact (Qlt_not_le _ _ Hy Hin).
        -- intros Hall d Hd. apply Hx in Hd. destruct Hd as (a & b & Hs & Hr & ->).
           cbn [snd]. apply Qlt_bool_false_iff.
           apply Qnot_lt_le. intros Hy. apply -> rising_iff in Hy.
           exact (Qlt_not_le _ _ Hy (Hall a b Hs Hr)).
      * rewrite (Qdiv_one_iff _ _ (Qlen_pos _ Hne)), Qlen_eq_iff.
        unfold rising_both. rewrite filter_length_all. split.
        -- intros Hall a b Hs Hr.
           assert (Hin : In ((fst b - fst a)%Q, (snd b - snd a)%Q) (rising_x xy))
             by (apply Hx; exists a, b; auto).
           apply Hall in Hin. cbn [snd] in Hin. apply Qlt_bool_iff in Hin.
           apply -> rising_iff. exact Hin.
        -- intros Hall d Hd. apply Hx in Hd. destruct Hd as (a & b & Hs & Hr & ->).
           cbn [snd]. apply Qlt_bool_iff. apply <- rising_iff. exact (Hall a b Hs Hr).
Qed.

End ImpactFrame.

(** ** Column statistics *)

Lemma fold_ts_min_Some (l : list Timestamp) (a : Z) :
  exists m,
    fold_left (fun acc t =>
                 match acc, t with
                 | Some a, Some b => Some (Z.min a b)
                 | None, Some b => Some b
                 | _, None => acc
                 end) l (Some a) = Some m
    /\ (m = a \/ In (Some m) l)
    /\ (m <= a)%Z
    /\ forall x, In (Some x) l -> (m <= x)%Z.
Proof.
  revert a. induction l as [ | t l IH]; intros a; cbn [fold_left].
  - exists a. split; [reflexivity | ]. split; [left; reflexivity | ].
    split; [lia | intros x []].
  - destruct t as [b | ].
    + destruct (IH (Z.min a b)) as (m & Hm & Hin & Hle & Hall).
      exists m. split; [exact Hm | ]. split.
      * destruct Hin as [-> | Hin]; [ | right; right; exact Hin].
        destruct (Z.min_spec a b) as [[_ ->] | [_ ->]];
          [left; reflexivity | right; left; reflexivity].
      * split; [lia | ]. intros x [Hx | Hx]; [injection Hx as ->; lia | apply Hall, Hx].
    + destruct (IH a) as (m & Hm & Hin & Hle & Hall).
      exists m. split; [exact Hm | ]. split.
      * destruct Hin as [-> | Hin]; [left; reflexivity | right; right; exact Hin].
      * split; [exact Hle | ]. intros x [Hx | Hx]; [discriminate Hx | apply Hall, Hx].
Qed.

Lemma ts_min_Some (l : list Timestamp) (d : Z) :
  In (Some d) l ->
  exists m, ts_min l = Some m /\ In (Some m) l /\ forall x, In (Some x) l -> (m <= x)%Z.
Proof.
  unfold ts_min. induction l as [ | t l IH]; intros Hin; [contradiction | ].
  cbn [fold_left]. destruct t as [b | ].
  - destruct (fold_ts_min_Some l b) as (m & Hm & Hor & Hle & Hall).
    exists m. split; [exact Hm | ]. split.
    + destruct Hor as [-> | Hor]; [left; reflexivity | right; exact Hor].
    + intros x [Hx | Hx]; [injection Hx as ->; exact Hle | apply Hall, Hx].
  - destruct Hin as [Hin | Hin]; [discriminate Hin | ].
    destruct (IH Hin) as (m & Hm & Hin' & Hall).
    exists m. split; [exact Hm | ]. split; [right; exact Hin' | ].
    intros x [Hx | Hx]; [discriminate Hx | apply Hall, Hx].
Qed.

Lemma ts_extremes_NaT (l : list Timestamp) :
  (forall t, In t l -> t = NaT) -> ts_min l = NaT /\ ts_max l = NaT.
Proof.
  unfold ts_min, ts_max, NaT.
  induction l as [ | t l IH]; intros H; [split; reflexivity | ].
  rewrite (H t (or_introl eq_refl)). cbn [fold_left].
  apply IH. intros x Hx. apply H. right; exact Hx.
Qed.

Lemma fold_Qmin_spec (t : list Q) (h : Q) :
  let r := fold_left (fun m x => if Qlt_bool x m then x else m) t h in
  In r (h :: t) /\ forall x, In x (h :: t) -> (r <= x)%Q.
Proof.
  revert h. induction t as [ | a t IH]; intros h; cbn [fold_left].
  - split; [left; reflexivity | intros x [<- | []]; apply Qle_refl].
  - specialize (IH (if Qlt_bool a h then a else h)). cbv zeta in IH.
    destruct IH as [Hin Hmin].
    destruct (Qlt_bool a h) eqn:E.
    + apply Qlt_bool_iff in E. split.
      * destruct Hin as [<- | Hin]; [right; left; reflexivity | right; right; exact Hin].
      * intros x [<- | [<- | Hx]].
        -- apply Qle_trans with a; [apply Hmin; left; reflexivity | apply Qlt_le_weak, E].
        -- apply Hmin. left; reflexivity.
        -- apply Hmin. right; exact Hx.
    + apply Qlt_bool_false_iff in E. split.
      * destruct Hin as [<- | Hin]; [left; reflexivity | right; right; exact Hin].
      * intros x [<- | [<- | Hx]].
        -- apply Hmin. left; reflexivity.
        -- apply Qle_trans with h; [apply Hmin; left; reflexivity | exact E].
        -- apply Hmin. right; exact Hx.
Qed.

Lemma fold_Qmax_spec (t : list Q) (h : Q) :
  let r := fold_left (fun m x => if Qlt_bool m x then x else m) t h in
  In r (h :: t) /\ forall x, In x (h :: t) -> (x <= r)%Q.
Proof.
  revert h. induction t as [ | a t IH]; intros h; cbn [fold_left].
  - split; [left; reflexivity | intros x [<- | []]; apply Qle_refl].
  - specialize (IH (if Qlt_bool h a then a else h)). cbv zeta in IH.
    destruct IH as [Hin Hmax].
    destruct (Qlt_bool h a) eqn:E.
    + apply Qlt_bool_iff in E. split.
      * destruct Hin as [<- | Hin]; [right; left; reflexivity | right; right; exact Hin].
      * intros x [<- | [<- | Hx]].
        -- apply Qle_trans with a; [apply Qlt_le_weak, E | apply Hmax; left; reflexivity].
        -- apply Hmax. left; reflexivity.
        -- apply Hmax. right; exact Hx.
    + apply Qlt_bool_false_iff in E. split.
      * destruct Hin as [<- | Hin]; [left; reflexivity | right; right; exact Hin].
      * intros x [<- | [<- | Hx]].
        -- apply Hmax. left; reflexivity.
        -- apply Qle_trans with h; [exact E | apply Hmax; left; reflexivity].
        -- apply Hmax. right; exact Hx.
Qed.

Lemma Qmean_ge (b : Q) (l : list Q) :
  l <> [] -> (forall x, In x l -> (b <= x)%Q) -> (b <= Qmean l)%Q.
Proof.
  intros Hne H. unfold Qmean. fold (Qlen l).
  apply Qle_shift_div_l; [apply Qlen_pos; exact Hne | ].
  rewrite Qmult_comm. apply Qsum_ge; assumption.
Qed.

(** Every cell of a column is either counted as missing or kept as a
    value. *)
Lemma missing_plus_values (col : list (option Q)) :
  (List.length (filter (fun o => negb (notna o)) col) + List.length (dropna_values col))%nat
  = List.length col.
Proof.
  induction col as [ | [q | ] t IH]; cbn [filter notna negb dropna_values List.length];
    [reflexivity | | ]; lia.
Qed.

Lemma nodup_length_le {A : Type} (dec : forall x y : A, {x = y} + {x <> y}) (l : list A) :
  (List.length (nodup dec l) <= List.length l)%nat.
Proof.
  induction l as [ | x t IH]; cbn [nodup List.length]; [lia | ].
  destruct (in_dec dec x t); cbn [List.length]; lia.
Qed.

Lemma In_somes {A : Type} (l : list (option A)) (a : A) :
  In a (flat_map (fun o => match o with Some s => [s] | None => [] end) l) <-> In (Some a) l.
Proof.
  rewrite in_flat_map. split.
  - intros ([s | ] & Hin & H); [ | contradiction].
    destruct H as [-> | []]. exact Hin.
  - intros H. exists (Some a). split; [exact H | left; reflexivity].
Qed.

(** [nunique] counts each value that occurs once. *)
Lemma nunique_spec (l : list (option string)) :
  exists ids, NoDup ids /\ List.length ids = nunique l
              /\ forall s, In s ids <-> In (Some s) l.
Proof.
  exists (nodup string_dec
                (flat_map (fun o => match o with Some s => [s] | None => [] end) l)).
  split; [apply NoDup_nodup | ]. split; [reflexivity | ].
  intros s. rewrite nodup_In. apply In_somes.
Qed.

Section Describe.

Variable fs : string -> option DataFrame.
Variable Series_mean : list Q -> Q.

Lemma describe_body_inv dummy_input dmin dmax ns nsec stats :
  describe_kpi_dataset_body fs Series_mean
        dummy_input = Ok (DatasetSummary dmin dmax ns nsec stats) ->
  exists df,
    fs KPI_CSV_PATH = Some df
    /\ rows df <> []
    /\ dmin = ts_min (map Date (rows df))
    /\ dmax = ts_max (map Date (rows df))
    /\ ns = nunique (map Site_ID (rows df))
    /\ nsec = nunique (map Sector_ID (rows df))
    /\ stats = map (column_stats Series_mean (rows df)) (columns df).
Proof.
  unfold describe_kpi_dataset_body, read_csv. intros H.
  destruct (fs KPI_CSV_PATH) as [df | ]; cbn [bind] in H; [ | discriminate].
  destruct (is_empty (rows df)) eqn:E; [discriminate | ].
  injection H as <- <- <- <- <-.
  exists df. repeat split; try reflexivity. apply is_empty_false_iff. exact E.
Qed.

(** The per-KPI lines of [describe_kpi_dataset]: one per KPI column, in
    column order; the missing count and the number of values add up to
    the number of rows; a column with values has its minimum and maximum
    among them, bounding every value, and pandas' mean of the values,
    which lies between the two whenever it is the exact average (the
    rounded mean of equal values can lie just outside); a column without
    any value has "nan" for all three. *)
Theorem describe_statistics_are_consistent :
  forall dummy_input dmin dmax ns nsec stats,
    describe_kpi_dataset_body fs Series_mean
          dummy_input = Ok (DatasetSummary dmin dmax ns nsec stats) ->
    exists df,
      fs KPI_CSV_PATH = Some df
      /\ map stat_kpi stats = columns df
      /\ forall st,
          In st stats ->
          let vals := column_values (stat_kpi st) (rows df) in
          (stat_missing st + List.length vals)%nat = List.length (rows df)
          /\ (vals = [] ->
              stat_mean st = None /\ stat_min st = None /\ stat_max st = None)
          /\ (vals <> [] ->
              exists mn mx,
                stat_min st = Some mn /\ stat_max st = Some mx
                /\ stat_mean st = Some (Series_mean vals)
                /\ In mn vals /\ In mx vals
                /\ (forall x, In x vals -> (mn <= x <= mx)%Q)
                /\ ((Series_mean vals == Qmean vals)%Q ->
                    (mn <= Series_mean vals <= mx)%Q)).
Proof.
  intros dummy_input dmin dmax ns nsec stats H.
  destruct (describe_body_inv _ _ _ _ _ _ H) as (df & Efs & Hne & _ & _ & _ & _ & Hstats).
  exists df. split; [exact Efs | ]. split.
  { rewrite Hstats, map_map. cbn [stat_kpi column_stats]. apply map_id. }
  intros st Hin. rewrite Hstats in Hin. apply in_map_iff in Hin.
  destruct Hin as (k & <- & Hk). cbn [stat_kpi column_stats stat_missing stat_mean stat_min stat_max].
  unfold column_values. cbv zeta.
  split.
  { rewrite missing_plus_values. apply length_map. }
  split.
  { intros ->. cbn. auto. }
  intros Hv.
  destruct (dropna_values (map (cell k) (rows df))) as [ | h t] eqn:Ev; [congruence | ].
  cbn [is_empty Qlist_min Qlist_max].
  destruct (fold_Qmin_spec t h) as [Hmin_in Hmin].
  destruct (fold_Qmax_spec t h) as [Hmax_in Hmax].
  eexists. eexists.
  split; [reflexivity | ]. split; [reflexivity | ]. split; [reflexivity | ].
  split; [exact Hmin_in | ]. split; [exact Hmax_in | ].
  split; [intros x Hx; split; [apply Hmin, Hx | apply Hmax, Hx] | ].
  intros E. rewrite E. split.
  - apply Qmean_ge; [discriminate | exact Hmin].
  - apply Qmean_le; [discriminate | exact Hmax].
Qed.

(** The head of the summary: every dated row lies in the reported date
    range, whose ends are dates of rows (both are NaT when no row has a
    date), and the site and sector counts are the numbers of distinct
    identifiers that occur, nulls not counted. *)
Theorem describe_coverage_is_exact :
  forall dummy_input dmin dmax ns nsec stats,
    describe_kpi_dataset_body fs Series_mean
          dummy_input = Ok (DatasetSummary dmin dmax ns nsec stats) ->
    exists df,
      fs KPI_CSV_PATH = Some df
      /\ (forall r d, In r (rows df) -> Date r = Some d ->
                      exists lo hi r_lo r_hi,
                        dmin = Some lo /\ dmax = Some hi /\ (lo <= d <= hi)%Z
                        /\ In r_lo (rows df) /\ Date r_lo = Some lo
                        /\ In r_hi (rows df) /\ Date r_hi = Some hi)
      /\ ((forall r, In r (rows df) -> Date r = NaT) -> dmin = NaT /\ dmax = NaT)
      /\ (exists sites, NoDup sites /\ List.length sites = ns
                        /\ forall s, In s sites <-> exists r, In r (rows df) /\ Site_ID r = Some s)
      /\ (exists sectors, NoDup sectors /\ List.length sectors = nsec
                          /\ forall s, In s sectors
                                       <-> exists r, In r (rows df) /\ Sector_ID r = Some s)
      /\ (ns <= List.length (rows df))%nat
      /\ (nsec <= List.length (rows df))%nat.
Proof.
  intros dummy_input dmin dmax ns nsec stats H.
  destruct (describe_body_inv _ _ _ _ _ _ H)
    as (df & Efs & Hne & Hdmin & Hdmax & Hns & Hnsec & _).
  exists df. split; [exact Efs | ].
  assert (Hcol : forall (f : Row -> option string) s,
             In (Some s) (map f (rows df)) <-> exists r, In r (rows df) /\ f r = Some s).
  { intros f s. rewrite in_map_iff. split; intros (r & A & B); exists r; auto. }
  assert (Hle : forall (f : Row -> option string),
             (nunique (map f (rows df)) <= List.length (rows df))%nat).
  { intros f. unfold nunique.
    eapply Nat.le_trans; [apply nodup_length_le | ].
    rewrite <- (length_map f (rows df)).
    generalize (map f (rows df)). intros l.
    induction l as [ | [s | ] t IH]; cbn [flat_map app List.length]; lia. }
  split.
  { intros r d Hr Hd.
    assert (Hin : In (Some d) (map Date (rows df))).
    { apply in_map_iff. exists r. auto. }
    destruct (ts_min_Some _ _ Hin) as (lo & Hlo & Hlo_in & Hlo_all).
    destruct (ts_max_Some _ _ Hin) as (hi & Hhi & Hhi_in & Hhi_all).
    apply in_map_iff in Hlo_in. destruct Hlo_in as (r_lo & Dlo & Rlo).
    apply in_map_iff in Hhi_in. destruct Hhi_in as (r_hi & Dhi & Rhi).
    exists lo, hi, r_lo, r_hi.
    rewrite Hdmin, Hdmax, Hlo, Hhi.
    split; [reflexivity | ]. split; [reflexivity | ].
    split; [split; [apply Hlo_all, Hin | apply Hhi_all, Hin] | ].
    auto. }
  split.
  { intros Hall. rewrite Hdmin, Hdmax. apply ts_extremes_NaT.
    intros t Ht. apply in_map_iff in Ht. destruct Ht as (r & <- & Hr). apply Hall, Hr. }
  split.
  { destruct (nunique_spec (map Site_ID (rows df))) as (ids & Hnd & Hlen & Hids).
    exists ids. split; [exact Hnd | ]. split; [congruence | ].
    intros s. rewrite Hids. apply Hcol. }
  split.
  { destruct (nunique_spec (map Sector_ID (rows df))) as (ids & Hnd & Hlen & Hids).
    exists ids. split; [exact Hnd | ]. split; [congruence | ].
    intros s. rewrite Hids. apply Hcol. }
  split; [rewrite Hns | rewrite Hnsec]; apply Hle.
Qed.

End Describe.

(** ** Counts per date *)

Lemma insert_count_keys (d x : Z) (g : list (Z * nat)) :
  In x (map fst (insert_count d g)) -> x = d \/ In x (map fst g).
Proof.
  induction g as [ | [d' n] g' IH]; cbn [insert_count map fst In].
  - intros [<- | []]. left; reflexivity.
  - destruct (Z.compare d d') eqn:E; cbn [map fst In].
    + tauto.
    + intros [<- | H]; tauto.
    + intros [<- | H]; [tauto | ]. destruct (IH H); tauto.
Qed.

Lemma insert_count_sorted (d : Z) (g : list (Z * nat)) :
  StronglySorted Z.lt (map fst g) -> StronglySorted Z.lt (map fst (insert_count d g)).
Proof.
  induction g as [ | [d' n] g' IH]; cbn [insert_count map fst]; intros Hs.
  - repeat constructor.
  - inversion Hs as [ | ? ? Hs' Hall]; subst.
    destruct (Z.compare d d') eqn:E; cbn [map fst].
    + exact Hs.
    + constructor; [exact Hs | ].
      apply -> Z.compare_lt_iff in E. constructor; [exact E | ].
      rewrite Forall_forall in Hall |- *. intros y Hy. specialize (Hall y Hy). cbn [fst] in Hall. lia.
    + constructor; [apply IH; exact Hs' | ].
      apply -> Z.compare_gt_iff in E.
      rewrite Forall_forall in Hall |- *. intros y Hy.
      apply insert_count_keys in Hy. destruct Hy as [-> | Hy]; [exact E | apply Hall; exact Hy].
Qed.

Lemma count_at_below (d : Z) (g : list (Z * nat)) :
  Forall (Z.lt d) (map fst g) -> count_at d g = 0%nat.
Proof.
  induction g as [ | [d' n] t IH]; cbn [map fst count_at]; intros H; [reflexivity | ].
  inversion H as [ | ? ? Hlt Ht]; subst. cbn [fst] in Hlt.
  destruct (d =? d')%Z eqn:E; [apply Z.eqb_eq in E; lia | apply IH, Ht].
Qed.

Lemma count_at_insert (d d0 : Z) (g : list (Z * nat)) :
  StronglySorted Z.lt (map fst g) ->
  count_at d (insert_count d0 g)
  = (count_at d g + if (d =? d0)%Z then 1 else 0)%nat.
Proof.
  induction g as [ | [d' n] g' IH]; cbn [insert_count map fst]; intros Hs.
  - cbn [count_at]. destruct (d =? d0)%Z; reflexivity.
  - inversion Hs as [ | ? ? Hs' Hall]; subst.
    destruct (Z.compare d0 d') eqn:E.
    + apply Z.compare_eq_iff in E. subst d'. cbn [count_at].
      destruct (d =? d0)%Z; lia.
    + apply -> Z.compare_lt_iff in E. cbn [count_at].
      destruct (d =? d0)%Z eqn:E0; [ | lia].
      apply Z.eqb_eq in E0. subst d0.
      assert (Hd : (d =? d')%Z = false) by (apply Z.eqb_neq; lia).
      rewrite Hd. rewrite (count_at_below d g'); [reflexivity | ].
      rewrite Forall_forall in Hall |- *. intros y Hy. specialize (Hall y Hy). cbn [fst] in Hall. lia.
    + apply -> Z.compare_gt_iff in E. cbn [count_at]. rewrite (IH Hs').
      destruct (d =? d')%Z eqn:Ed; [ | reflexivity].
      apply Z.eqb_eq in Ed. subst d'.
      assert (Hd : (d =? d0)%Z = false) by (apply Z.eqb_neq; lia).
      rewrite Hd. lia.
Qed.

Lemma count_by_date_snoc (ds : list Z) (d : Z) :
  count_by_date (ds ++ [d]) = insert_count d (count_by_date ds).
Proof. unfold count_by_date. rewrite fold_left_app. reflexivity. Qed.

Lemma count_by_date_sorted (ds : list Z) : StronglySorted Z.lt (map fst (count_by_date ds)).
Proof.
  induction ds as [ | d ds IH] using rev_ind; [constructor | ].
  rewrite count_by_date_snoc. apply insert_count_sorted, IH.
Qed.

(** The count kept for a date is the number of its occurrences. *)
Lemma count_at_count_by_date (ds : list Z) (d : Z) :
  count_at d (count_by_date ds) = count_occ Z.eq_dec ds d.
Proof.
  induction ds as [ | d0 ds IH] using rev_ind; [reflexivity | ].
  rewrite count_by_date_snoc, (count_at_insert _ _ _ (count_by_date_sorted ds)), IH.
  rewrite count_occ_app. cbn [count_occ].
  destruct (Z.eq_dec d0 d) as [-> | Hne].
  - rewrite Z.eqb_refl. reflexivity.
  - assert (E : (d =? d0)%Z = false) by (apply Z.eqb_neq; congruence).
    rewrite E. reflexivity.
Qed.

Lemma count_at_In (d : Z) (n : nat) (g : list (Z * nat)) :
  count_at d g = n -> (0 < n)%nat -> In (d, n) g.
Proof.
  induction g as [ | [d' m] t IH]; cbn [count_at]; intros H Hn; [lia | ].
  destruct (d =? d')%Z eqn:E.
  - apply Z.eqb_eq in E. subst. left; reflexivity.
  - right. apply IH; assumption.
Qed.

Lemma In_count_at (d : Z) (n : nat) (g : list (Z * nat)) :
  StronglySorted Z.lt (map fst g) -> In (d, n) g -> count_at d g = n.
Proof.
  induction g as [ | [d' m] t IH]; cbn [map fst In count_at]; intros Hs Hin; [contradiction | ].
  inversion Hs as [ | ? ? Hs' Hall]; subst.
  destruct Hin as [Hin | Hin].
  - injection Hin as -> ->. rewrite Z.eqb_refl. reflexivity.
  - assert (Hlt : (d' < d)%Z).
    { rewrite Forall_forall in Hall. apply Hall. apply in_map_iff. exists (d, n). auto. }
    assert (E : (d =? d')%Z = false) by (apply Z.eqb_neq; lia).
    rewrite E. apply IH; assumption.
Qed.

Lemma insert_count_positive (d : Z) (g : list (Z * nat)) :
  (forall x, In x g -> (0 < snd x)%nat) ->
  forall x, In x (insert_count d g) -> (0 < snd x)%nat.
Proof.
  induction g as [ | [d' n'] g' IH]; intros Hg x; cbn [insert_count].
  - intros [<- | []]. cbn. lia.
  - assert (Hn : (0 < n')%nat) by exact (Hg (d', n') (or_introl eq_refl)).
    destruct (Z.compare d d').
    + intros [<- | Hx]; [cbn; lia | apply Hg; right; exact Hx].
    + intros [<- | Hx]; [cbn; lia | apply Hg; exact Hx].
    + intros [<- | Hx]; [exact Hn | ].
      apply IH; [ | exact Hx]. intros y Hy. apply Hg. right; exact Hy.
Qed.

Lemma count_by_date_positive (ds : list Z) (x : Z * nat) :
  In x (count_by_date ds) -> (0 < snd x)%nat.
Proof.
  revert x. induction ds as [ | d ds IH] using rev_ind; [intros x [] | ].
  rewrite count_by_date_snoc. apply insert_count_positive. exact IH.
Qed.

Lemma fold_peak_spec (t : list (Z * nat)) (h : Z * nat) :
  let r := fold_left (fun best dc => if (snd best <? snd dc)%nat then dc else best) t h in
  (forall x, In x (h :: t) -> (snd x <= snd r)%nat)
  /\ exists pre post, h :: t = (pre ++ r :: post)%list
                      /\ forall x, In x pre -> (snd x < snd r)%nat.
Proof.
  revert h. induction t as [ | a t IH]; intros h; cbn [fold_left].
  - split; [intros x [<- | []]; lia | ].
    exists [], []. split; [reflexivity | intros x []].
  - specialize (IH (if (snd h <? snd a)%nat then a else h)). cbv zeta in IH.
    destruct IH as [Hmax (pre & post & Heq & Hpre)].
    destruct (snd h <? snd a)%nat eqn:E.
    + apply Nat.ltb_lt in E.
      assert (Ha := Hmax a (or_introl eq_refl)).
      split.
      * intros x [<- | [<- | Hx]]; [lia | exact Ha | apply Hmax; right; exact Hx].
      * exists (h :: pre), post. split; [cbn [app]; rewrite <- Heq; reflexivity | ].
        intros x [<- | Hx]; [lia | apply Hpre, Hx].
    + apply Nat.ltb_ge in E.
      assert (Hh := Hmax h (or_introl eq_refl)).
      split.
      * intros x [<- | [<- | Hx]]; [exact Hh | lia | apply Hmax; right; exact Hx].
      * destruct pre as [ | p pre'].
        -- cbn [app] in Heq. injection Heq as Hr Ht.
           exists [], (a :: t). split; [cbn [app]; rewrite <- Hr; reflexivity | intros x []].
        -- cbn [app] in Heq. injection Heq as Hp Ht. subst p.
           exists (h :: a :: pre'), post.
           split; [cbn [app]; rewrite <- Ht; reflexivity | ].
           assert (Hlt := Hpre h (or_introl eq_refl)).
           intros x [<- | [<- | Hx]]; [exact Hlt | lia | apply Hpre; right; exact Hx].
Qed.

Lemma count_occ_dates (l : list Row) (d : Z) :
  count_occ Z.eq_dec (dates_of l) d = rows_on d l.
Proof.
  unfold dates_of, rows_on.
  induction l as [ | r t IH]; [reflexivity | ].
  cbn [flat_map filter]. rewrite count_occ_app, IH.
  destruct (Date r) as [x | ]; cbn [count_occ ts_eqb].
  - destruct (Z.eq_dec x d) as [-> | Hne].
    + rewrite Z.eqb_refl. reflexivity.
    + assert (E : (x =? d)%Z = false) by (apply Z.eqb_neq; exact Hne).
      rewrite E. reflexivity.
  - reflexivity.
Qed.

(** The peak day of a frame: the date with the most rows, the earliest
    of them on a tie; none when no row has a date. *)
Lemma peak_day_spec (l : list Row) :
  match peak_day (count_by_date (dates_of l)) with
  | Some (d, c) =>
      c = rows_on d l /\ (1 <= c)%nat
      /\ forall d', (rows_on d' l <= c)%nat /\ (rows_on d' l = c -> (d <= d')%Z)
  | None => forall r, In r l -> Date r = NaT
  end.
Proof.
  set (g := count_by_date (dates_of l)).
  assert (Hsorted : StronglySorted Z.lt (map fst g)) by apply count_by_date_sorted.
  assert (Hcount : forall d, count_at d g = rows_on d l).
  { intros d. unfold g. rewrite count_at_count_by_date. apply count_occ_dates. }
  assert (Hpos : forall d n, In (d, n) g -> (1 <= n)%nat).
  { intros d n Hin. exact (count_by_date_positive _ _ Hin). }
  destruct g as [ | h t] eqn:Eg; cbn [peak_day].
  - intros r Hr. destruct (Date r) as [d | ] eqn:Ed; [ | reflexivity].
    exfalso. specialize (Hcount d). cbn [count_at] in Hcount.
    assert (Hin : In r (filter (fun r => ts_eqb (Date r) (Some d)) l)).
    { apply filter_In. split; [exact Hr | ]. rewrite Ed. cbn. apply Z.eqb_refl. }
    unfold rows_on in Hcount.
    destruct (filter (fun r => ts_eqb (Date r) (Some d)) l); [contradiction | discriminate].
  - destruct (fold_peak_spec t h) as [Hmax (pre & post & Heq & Hpre)].
    cbv zeta in *.
    destruct (fold_left (fun best dc => if (snd best <? snd dc)%nat then dc else best) t h)
      as [d c] eqn:Er.
    cbn [snd] in *.
    assert (Hin : In (d, c) (h :: t)).
    { rewrite Heq. apply in_or_app. right; left; reflexivity. }
    split; [rewrite <- Hcount; symmetry; apply (In_count_at _ _ _ Hsorted Hin) | ].
    split; [apply (Hpos d c Hin) | ].
    intros d'.
    destruct (rows_on d' l) as [ | n'] eqn:En.
    + split; [lia | ]. intros <-. pose proof (Hpos d 0%nat Hin). lia.
    + assert (Hin' : In (d', S n') (h :: t)).
      { apply count_at_In; [rewrite Hcount; exact En | lia]. }
      split; [apply (Hmax _ Hin') | ].
      intros Hc. subst c.
      rewrite Heq in Hin', Hsorted.
      rewrite map_app in Hsorted. cbn [map fst] in Hsorted. apply sorted_after in Hsorted.
      apply in_app_or in Hin'. destruct Hin' as [Hp | [Hp | Hp]].
      * specialize (Hpre _ Hp). cbn [snd] in Hpre. lia.
      * injection Hp as ->. lia.
      * rewrite Forall_forall in Hsorted.
        assert (Hlt : (d < d')%Z).
        { apply Hsorted. apply in_map_iff. exists (d', S n'). auto. }
        lia.
Qed.

(** ** The summary of kpi_anomalies *)

Lemma dropna_values_length (col : list (option Q)) :
  (List.length (dropna_values col) <= List.length col)%nat.
Proof. rewrite <- (missing_plus_values col). lia. Qed.

Lemma find_group_none_iff (kpi_name : string) :
  find_group kpi_name = None
  <-> ~ In kpi_name [ "RSRP"; "SINR"; "DL_Throughput"; "UL_Throughput"; "RTT";
                      "Active_Users"; "CPU_Utilization"; "Handover_Success_Rate";
                      "Packet_Loss"; "Call_Drop_Rate" ].
Proof.
  split.
  - intros H Hin. cases_In Hin; subst kpi_name; vm_compute in H; discriminate H.
  - intros Hn. destruct (find_group kpi_name) as [[g ks] | ] eqn:E; [ | reflexivity].
    exfalso. apply Hn. apply find_group_In in E. destruct E as [Hg Hk].
    cases_In Hg; injection Hg as <- <-; cases_In Hk; subst kpi_name; cbn [In]; tauto.
Qed.

Section Summary.

Variable fs : string -> option DataFrame.
Variable parse_datetime : string -> option Timestamp.
Variable Series_mean : list Q -> Q.

Lemma anomaly_rows_kpi_filter kpi_name site_id sector_id start_date end_date df0 :
  filter (kpi_is kpi_name)
         (anomaly_rows parse_datetime kpi_name site_id sector_id start_date end_date df0)
  = anomaly_rows parse_datetime kpi_name site_id sector_id start_date end_date df0.
Proof.
  apply forallb_filter_id, forallb_forall. intros r Hr.
  apply In_anomaly_rows in Hr. apply kpi_is_true. tauto.
Qed.

(** What a returned summary holds. *)
Lemma kpi_anomalies_report_fields kpi_name site_id sector_id start_date end_date k s :
  kpi_anomalies_body fs parse_datetime Series_mean kpi_name site_id sector_id start_date end_date
  = Ok (AnomalyReport k s) ->
  exists df0 dfb,
    fs "Data/df_ensemble.csv" = Some df0
    /\ fs "Data/KPI_data_cleaned.csv" = Some dfb
    /\ has_column dfb kpi_name = true
    /\ has_column df0 kpi_name = true
    /\ k = kpi_name
    /\ let df := anomaly_rows parse_datetime kpi_name site_id sector_id
                              start_date end_date df0 in
       let df_base := base_rows parse_datetime kpi_name site_id sector_id
                                start_date end_date dfb in
       let vals := column_values kpi_name df in
       df <> [] /\ df_base <> []
       /\ kpi_avg s = Series_mean (column_values kpi_name df_base)
       /\ anomaly_count s = List.length vals
       /\ avg_above s = (if is_empty (filter (fun v => Qlt_bool (kpi_avg s) v) vals)
                         then None
                         else Some (Series_mean (filter (fun v => Qlt_bool (kpi_avg s) v) vals)))
       /\ avg_below s = (if is_empty (filter (fun v => Qle_bool v (kpi_avg s)) vals)
                         then None
                         else Some (Series_mean (filter (fun v => Qle_bool v (kpi_avg s)) vals)))
       /\ peak_anomaly_note s = peak_day (count_by_date (dates_of df))
       /\ find_group kpi_name = Some (group s, Kpis s)
       /\ co_occurrence fs kpi_name site_id sector_id (Some (Kpis s)) df
          = Ok (related_counts s).
Proof.
  intros H.
  destruct (kpi_anomalies_body_report_inv fs parse_datetime Series_mean _ _ _ _ _ _ _ H)
    as (df0 & dfb & E0 & Hdf & Eb & Hcb & Hbase & Hc0).
  rewrite (kpi_anomalies_body_reached fs parse_datetime Series_mean _ _ _ _ _ _ _
                                      E0 Hdf Eb Hcb Hbase Hc0) in H.
  cbv zeta in H.
  destruct (find_group kpi_name) as [[g ks] | ] eqn:Eg; cbn [option_map snd] in H.
  - inv_bind H. cbn [local bind] in H. injection H as <- <-.
    exists df0, dfb. cbn [kpi_avg anomaly_count avg_above avg_below peak_anomaly_note
                                 group Kpis related_counts].
    rewrite anomaly_rows_kpi_filter. unfold column_values.
    repeat (split; [assumption || reflexivity | ]). exact E.
  - unfold co_occurrence in H. cbn [local bind] in H. discriminate H.
Qed.

(** The anomaly count of the summary is the number of anomaly rows that
    have a value; each such value is in exactly one of the two
    partitions; and a partition's mean is the "None" placeholder exactly
    when no value falls in it. *)
Theorem anomaly_values_split_into_two_partitions :
  forall kpi_name site_id sector_id start_date end_date k s,
    kpi_anomalies_body fs parse_datetime Series_mean kpi_name site_id sector_id start_date end_date
    = Ok (AnomalyReport k s) ->
    exists df0,
      fs "Data/df_ensemble.csv" = Some df0
      /\ let df := anomaly_rows parse_datetime kpi_name site_id sector_id
                                start_date end_date df0 in
         let vals := column_values kpi_name df in
         anomaly_count s = List.length vals
         /\ (anomaly_count s <= List.length df)%nat
         /\ (List.length (filter (fun v => Qlt_bool (kpi_avg s) v) vals)
             + List.length (filter (fun v => Qle_bool v (kpi_avg s)) vals))%nat
            = anomaly_count s
         /\ (forall v, In v vals -> (kpi_avg s < v)%Q \/ (v <= kpi_avg s)%Q)
         /\ (avg_above s = None <-> forall v, In v vals -> (v <= kpi_avg s)%Q)
         /\ (avg_below s = None <-> forall v, In v vals -> (kpi_avg s < v)%Q).
Proof.
  intros kpi_name site_id sector_id start_date end_date k s H.
  destruct (kpi_anomalies_report_fields _ _ _ _ _ _ _ H)
    as (df0 & dfb & E0 & _ & _ & _ & _ & Hf).
  cbv zeta in Hf. destruct Hf as (_ & _ & _ & Hcount & Habove & Hbelow & _).
  exists df0. split; [exact E0 | ]. cbv zeta.
  set (vals := column_values kpi_name
                 (anomaly_rows parse_datetime kpi_name site_id sector_id
                               start_date end_date df0)) in *.
  split; [exact Hcount | ].
  split.
  { rewrite Hcount. unfold vals, column_values.
    eapply Nat.le_trans; [apply dropna_values_length | rewrite length_map; lia]. }
  split.
  { rewrite Hcount, <- (filter_length (fun v => Qlt_bool (kpi_avg s) v) vals).
    f_equal. f_equal. apply filter_ext. intros v.
    unfold Qlt_bool. rewrite negb_involutive. reflexivity. }
  split.
  { intros v _. destruct (Qlt_le_dec (kpi_avg s) v); auto. }
  split.
  - rewrite Habove. split.
    + intros Hn v Hv.
      destruct (is_empty (filter (fun v => Qlt_bool (kpi_avg s) v) vals)) eqn:Ee;
        [ | discriminate Hn].
      apply is_empty_true in Ee. apply Qlt_bool_false_iff.
      destruct (Qlt_bool (kpi_avg s) v) eqn:Ev; [ | reflexivity].
      assert (Hin : In v (filter (fun v => Qlt_bool (kpi_avg s) v) vals))
        by (apply filter_In; auto).
      rewrite Ee in Hin. contradiction.
    + intros Hall.
      destruct (filter (fun v => Qlt_bool (kpi_avg s) v) vals) as [ | x t] eqn:Ef;
        [reflexivity | ].
      exfalso.
      assert (Hin : In x (filter (fun v => Qlt_bool (kpi_avg s) v) vals))
        by (rewrite Ef; left; reflexivity).
      apply filter_In in Hin. destruct Hin as [Hin Hlt].
      apply Qlt_bool_iff in Hlt. exact (Qlt_not_le _ _ Hlt (Hall x Hin)).
  - rewrite Hbelow. split.
    + intros Hn v Hv.
      destruct (is_empty (filter (fun v => Qle_bool v (kpi_avg s)) vals)) eqn:Ee;
        [ | discriminate Hn].
      apply is_empty_true in Ee. apply Qnot_le_lt. intros Hle.
      assert (Hin : In v (filter (fun v => Qle_bool v (kpi_avg s)) vals))
        by (apply filter_In; split; [exact Hv | apply Qle_bool_iff; exact Hle]).
      rewrite Ee in Hin. contradiction.
    + intros Hall.
      destruct (filter (fun v => Qle_bool v (kpi_avg s)) vals) as [ | x t] eqn:Ef;
        [reflexivity | ].
      exfalso.
      assert (Hin : In x (filter (fun v => Qle_bool v (kpi_avg s)) vals))
        by (rewrite Ef; left; reflexivity).
      apply filter_In in Hin. destruct Hin as [Hin Hle].
      apply Qle_bool_iff in Hle. exact (Qlt_not_le _ _ (Hall x Hin) Hle).
Qed.

(** The peak-day note of the summary names the date with the most
    filtered anomaly rows and gives that number; on a tie it is the
    earliest of the busiest dates; there is no note only when none of the
    rows has a date. *)
Theorem peak_note_is_the_busiest_day :
  forall kpi_name site_id sector_id start_date end_date k s,
    kpi_anomalies_body fs parse_datetime Series_mean kpi_name site_id sector_id start_date end_date
    = Ok (AnomalyReport k s) ->
    exists df0,
      fs "Data/df_ensemble.csv" = Some df0
      /\ let df := anomaly_rows parse_datetime kpi_name site_id sector_id
                                start_date end_date df0 in
         match peak_anomaly_note s with
         | Some (d, c) =>
             c = rows_on d df /\ (1 <= c)%nat
             /\ forall d', (rows_on d' df <= c)%nat /\ (rows_on d' df = c -> (d <= d')%Z)
         | None => forall r, In r df -> Date r = NaT
         end.
Proof.
  intros kpi_name site_id sector_id start_date end_date k s H.
  destruct (kpi_anomalies_report_fields _ _ _ _ _ _ _ H)
    as (df0 & dfb & E0 & _ & _ & _ & _ & Hf).
  cbv zeta in Hf. destruct Hf as (_ & _ & _ & _ & _ & _ & Hpeak & _).
  exists df0. split; [exact E0 | ]. cbv zeta. rewrite Hpeak.
  apply peak_day_spec.
Qed.

(** The two early answers of [kpi_anomalies], given a readable anomaly
    file: "No anomaly data" exactly when no anomaly row passes the
    filters, whatever the measurement file holds and whether the KPI
    name is known at all; "No base KPI data" exactly when there are such
    rows, the measurement file has the KPI's column and none of its rows
    with a value passes the same filters. *)
Theorem anomaly_early_answers :
  forall kpi_name site_id sector_id start_date end_date df0,
    fs "Data/df_ensemble.csv" = Some df0 ->
    let df := anomaly_rows parse_datetime kpi_name site_id sector_id
                           start_date end_date df0 in
    let body := kpi_anomalies_body fs parse_datetime Series_mean kpi_name site_id sector_id
                                   start_date end_date in
    (body = Ok (AnomalyNoData kpi_name) <-> df = [])
    /\ (body = Ok AnomalyNoBase
        <-> df <> []
            /\ exists dfb,
                fs "Data/KPI_data_cleaned.csv" = Some dfb
                /\ has_column dfb kpi_name = true
                /\ base_rows parse_datetime kpi_name site_id sector_id
                             start_date end_date dfb = []).
Proof.
  intros kpi_name site_id sector_id start_date end_date df0 E0 df body.
  unfold body, kpi_anomalies_body, read_csv, require_column.
  rewrite E0. cbn [bind]. fold df.
  destruct (is_empty df) eqn:Edf.
  - apply is_empty_true in Edf. split; [split; auto | ].
    split; [discriminate | intros [Hne _]; contradiction].
  - apply is_empty_false_iff in Edf.
    destruct (fs "Data/KPI_data_cleaned.csv") as [dfb | ]; cbn [bind].
    + destruct (has_column dfb kpi_name) eqn:Hc; cbn [bind].
      * destruct (is_empty (base_rows parse_datetime kpi_name site_id sector_id
                                      start_date end_date dfb)) eqn:Eb.
        -- apply is_empty_true in Eb. split.
           ++ split; [discriminate | intros C; contradiction].
           ++ split; [intros _; split; [exact Edf | exists dfb; auto] | reflexivity].
        -- apply is_empty_false_iff in Eb.
           destruct (has_column df0 kpi_name); cbn [bind].
           ++ split; (split; [intros C | ]).
              ** inv_bind C. inv_bind C. discriminate C.
              ** intros C; contradiction.
              ** inv_bind C. inv_bind C. discriminate C.
              ** intros [_ (dfb' & Hd & _ & Hb)]. injection Hd as <-. contradiction.
           ++ split; (split; [discriminate | ]).
              ** intros C; contradiction.
              ** intros [_ (dfb' & Hd & _ & Hb)]. injection Hd as <-. contradiction.
      * split; (split; [discriminate | ]).
        -- intros C; contradiction.
        -- intros [_ (dfb' & Hd & Hc' & _)]. injection Hd as <-. congruence.
    + split; (split; [discriminate | ]).
      * intros C; contradiction.
      * intros [_ (dfb' & Hd & _)]. discriminate Hd.
Qed.

Variable fmt_fixed : nat -> Q -> string.
Variable fmt_float : Q -> string.
Variable fmt_day : Z -> string.

(** A KPI name outside the ten of the catalog, for which both files have
    rows and a column, gets no summary: [Kpis] is never assigned and the
    call returns the error text of that fault. *)
Theorem kpi_outside_catalog_gets_error_text :
  forall kpi_name site_id sector_id start_date end_date df0 dfb,
    fs "Data/df_ensemble.csv" = Some df0 ->
    anomaly_rows parse_datetime kpi_name site_id sector_id start_date end_date df0 <> [] ->
    fs "Data/KPI_data_cleaned.csv" = Some dfb ->
    has_column dfb kpi_name = true ->
    base_rows parse_datetime kpi_name site_id sector_id start_date end_date dfb <> [] ->
    has_column df0 kpi_name = true ->
    ~ In kpi_name [ "RSRP"; "SINR"; "DL_Throughput"; "UL_Throughput"; "RTT";
                    "Active_Users"; "CPU_Utilization"; "Handover_Success_Rate";
                    "Packet_Loss"; "Call_Drop_Rate" ] ->
    kpi_anomalies fs parse_datetime Series_mean fmt_fixed fmt_float fmt_day
                  kpi_name site_id sector_id (Passed start_date) (Passed end_date)
    = Ok ("Error analyzing KPI anomalies: " ++ exn_str (UnboundLocalError "Kpis")).
Proof.
  intros kpi_name site_id sector_id start_date end_date df0 dfb
         E0 Hdf Eb Hcb Hbase Hc0 Hout.
  apply find_group_none_iff in Hout.
  unfold kpi_anomalies. cbn [or_default].
  rewrite (kpi_anomalies_body_reached fs parse_datetime Series_mean _ _ _ _ _ _ _
                                      E0 Hdf Eb Hcb Hbase Hc0).
  cbv zeta. rewrite Hout. reflexivity.
Qed.

End Summary.

(** ** The script's copy against the tool *)

(** Each group of the script lies within a group of the tool. *)
Lemma script_group_refines (kpi_name g : string) (ks : list string) :
  find_group kpi_name = Some (g, ks) ->
  exists g' ks',
    Test.find_group kpi_name = Some (g', ks') /\ incl ks' ks /\ In kpi_name ks'.
Proof.
  intros H. apply find_group_In in H. destruct H as [Hg Hk].
  cases_In Hg; injection Hg as <- <-; cases_In Hk; subst kpi_name;
    (eexists; eexists; split; [vm_compute; reflexivity | ];
     split; [intros x Hx; cases_In Hx; subst x; cbn [In]; tauto | cbn [In]; tauto]).
Qed.

Lemma group_within_rel_kpi (g : string * list string) (x : string) :
  In g kpi_groups -> In x (snd g) -> In x Test.rel_kpi.
Proof.
  intros Hg Hx. cases_In Hg; subst g; cases_In Hx; subst x;
    unfold Test.rel_kpi; cbn [In]; tauto.
Qed.

Section ScriptCopy.

Variable fs : string -> option DataFrame.
Variable parse_datetime : string -> option Timestamp.
Variable Series_mean : list Q -> Q.

Lemma script_body_reached kpi_name site_id sector_id start_date end_date df0 dfb :
  fs "Data/df_ensemble.csv" = Some df0 ->
  anomaly_rows parse_datetime kpi_name site_id sector_id start_date end_date df0 <> [] ->
  fs "Data/KPI_data_cleaned.csv" = Some dfb ->
  has_column dfb kpi_name = true ->
  base_rows parse_datetime kpi_name site_id sector_id start_date end_date dfb <> [] ->
  has_column df0 kpi_name = true ->
  Test.kpi_anomalies_body fs parse_datetime Series_mean
        kpi_name site_id sector_id start_date end_date
  = let df := anomaly_rows parse_datetime kpi_name site_id sector_id start_date end_date df0 in
    let df_base :=
      base_rows parse_datetime kpi_name site_id sector_id start_date end_date dfb in
    let kpi_avg := Series_mean (dropna_values (map (cell kpi_name) df_base)) in
    let anomaly_values := dropna_values (map (cell kpi_name) df) in
    let above_avg := filter (fun v => Qlt_bool kpi_avg v) anomaly_values in
    let below_avg := filter (fun v => Qle_bool v kpi_avg) anomaly_values in
    related_counts <- Test.co_occurrence fs kpi_name site_id sector_id df ;;
    Kpis <- local "Kpis" (option_map snd (Test.find_group kpi_name)) ;;
    Ok (AnomalyReport kpi_name
          (mkAnomalySummary
             (List.length anomaly_values) kpi_avg
             (if is_empty above_avg then None else Some (Series_mean above_avg))
             (if is_empty below_avg then None else Some (Series_mean below_avg))
             match Test.find_group kpi_name with Some (g, _) => g | None => "unknown" end
             Kpis
             (peak_day (count_by_date (dates_of (filter (kpi_is kpi_name) df))))
             related_counts)).
Proof.
  intros E0 Hdf Eb Hcb Hbase Hc0.
  unfold Test.kpi_anomalies_body, read_csv, require_column.
  rewrite E0. cbn [bind].
  rewrite (is_empty_false _ Hdf).
  rewrite Eb. cbn [bind]. rewrite Hcb. cbn [bind].
  rewrite (is_empty_false _ Hbase).
  rewrite Hc0. cbn [bind].
  reflexivity.
Qed.

Lemma script_co_occurrence_found kpi_name site_id sector_id df df0 :
  fs "Data/df_ensemble.csv" = Some df0 ->
  Test.co_occurrence fs kpi_name site_id sector_id df
  = Ok (flat_map (fun rkpi =>
                    if (0 <? co_occurrence_count site_id sector_id (rows df0) df rkpi)%nat
                    then [(rkpi, co_occurrence_count site_id sector_id (rows df0) df rkpi)]
                    else [])
                 (filter (fun k => negb (k =? kpi_name)) Test.rel_kpi)).
Proof.
  intros E0. unfold Test.co_occurrence, read_csv. rewrite E0. cbn [bind].
  f_equal. apply flat_map_ext. intros k. rewrite same_days_count. reflexivity.
Qed.

(** Whenever the tool's [kpi_anomalies] returns a summary, the copy in
    test.py returns one on the same inputs with the same count, baseline,
    partition means and peak day; its group is a subset of the tool's;
    its co-occurrence section counts all the other KPIs of the catalog,
    and the tool's section is that list restricted to the tool's group. *)
Theorem script_copy_differs_only_in_grouping :
  forall kpi_name site_id sector_id start_date end_date k s,
    kpi_anomalies_body fs parse_datetime Series_mean kpi_name site_id sector_id start_date end_date
    = Ok (AnomalyReport k s) ->
    exists df0 s',
      fs "Data/df_ensemble.csv" = Some df0
      /\ Test.kpi_anomalies_body fs parse_datetime Series_mean kpi_name site_id sector_id
                                 start_date end_date
         = Ok (AnomalyReport k s')
      /\ anomaly_count s' = anomaly_count s
      /\ kpi_avg s' = kpi_avg s
      /\ avg_above s' = avg_above s
      /\ avg_below s' = avg_below s
      /\ peak_anomaly_note s' = peak_anomaly_note s
      /\ incl (Kpis s') (Kpis s)
      /\ In kpi_name (Kpis s')
      /\ (forall kk v,
             In (kk, v) (related_counts s')
             <-> In kk Test.rel_kpi /\ kk <> kpi_name
                 /\ v = co_occurrence_count
                          site_id sector_id (rows df0)
                          (anomaly_rows parse_datetime kpi_name site_id sector_id
                                        start_date end_date df0) kk
                 /\ (1 <= v)%nat)
      /\ (forall kk v,
             In (kk, v) (related_counts s)
             <-> In (kk, v) (related_counts s') /\ In kk (Kpis s)).
Proof.
  intros kpi_name site_id sector_id start_date end_date k s H.
  destruct (kpi_anomalies_body_report_inv fs parse_datetime Series_mean _ _ _ _ _ _ _ H)
    as (df0 & dfb & E0 & Hdf & Eb & Hcb & Hbase & Hc0).
  rewrite (kpi_anomalies_body_reached fs parse_datetime Series_mean _ _ _ _ _ _ _
                                      E0 Hdf Eb Hcb Hbase Hc0) in H.
  cbv zeta in H.
  destruct (find_group kpi_name) as [[g ks] | ] eqn:Eg; cbn [option_map snd] in H;
    [ | unfold co_occurrence in H; cbn [local bind] in H; discriminate H].
  rewrite (co_occurrence_found fs _ _ _ _ _ _ E0) in H. cbn [bind local] in H.
  injection H as <- <-.
  destruct (script_group_refines _ _ _ Eg) as (g' & ks' & Eg' & Hincl & Hk').
  exists df0. eexists. split; [exact E0 | ].
  split.
  { rewrite (script_body_reached _ _ _ _ _ _ _ E0 Hdf Eb Hcb Hbase Hc0).
    cbv zeta. rewrite Eg', (script_co_occurrence_found _ _ _ _ _ E0).
    cbn [bind local option_map snd]. reflexivity. }
  cbn [anomaly_count kpi_avg avg_above avg_below peak_anomaly_note Kpis related_counts].
  repeat (split; [reflexivity || assumption | ]).
  set (count := co_occurrence_count site_id sector_id (rows df0)
                  (anomaly_rows parse_datetime kpi_name site_id sector_id
                                start_date end_date df0)).
  assert (Hscript : forall kk v,
             In (kk, v)
                (flat_map (fun rkpi => if (0 <? count rkpi)%nat then [(rkpi, count rkpi)] else [])
                          (filter (fun k => negb (k =? kpi_name)) Test.rel_kpi))
             <-> In kk Test.rel_kpi /\ kk <> kpi_name /\ v = count kk /\ (1 <= v)%nat).
  { intros kk v. rewrite (In_kept_counts count), filter_In, negb_true_iff, String.eqb_neq.
    tauto. }
  split; [exact Hscript | ].
  intros kk v.
  rewrite Hscript, (In_kept_counts count), filter_In, negb_true_iff, String.eqb_neq.
  apply find_group_In in Eg. destruct Eg as [Hgin _].
  split.
  - intros ((Hin & Hne) & Hv & H1). repeat split; auto.
    exact (group_within_rel_kpi (g, ks) kk Hgin Hin).
  - intros ((_ & Hne & Hv & H1) & Hin). auto.
Qed.

Lemma script_find_group_none (kpi_name : string) :
  find_group kpi_name = None -> Test.find_group kpi_name = None.
Proof.
  intros H. apply find_group_none_iff in H.
  destruct (Test.find_group kpi_name) as [[g ks] | ] eqn:E; [ | reflexivity].
  exfalso. apply H. unfold Test.find_group in E. apply find_some in E.
  destruct E as [Hg Hk]. cbn [snd] in Hk.
  apply existsb_exists in Hk. destruct Hk as (x & Hx & Ex).
  apply String.eqb_eq in Ex. subst x.
  unfold Test.kpi_groups in Hg.
  cases_In Hg; injection Hg as <- <-; cases_In Hx; subst kpi_name; cbn [In]; tauto.
Qed.

(** On every call of the tool's [kpi_anomalies] that does not end in a
    summary (a no-data answer, or an error text for a missing file, a
    missing column or a KPI name outside the catalog) the copy in
    test.py returns the same text, character for character. *)
Theorem script_copy_same_text_without_summary :
  forall fmt_fixed fmt_float fmt_day kpi_name site_id sector_id start_date end_date,
    (forall k s,
        kpi_anomalies_body fs parse_datetime Series_mean kpi_name site_id sector_id
                           (or_default (Some "2024-01-01") start_date)
                           (or_default (Some "2024-02-29") end_date)
        <> Ok (AnomalyReport k s)) ->
    Test.kpi_anomalies fs parse_datetime Series_mean fmt_fixed fmt_float fmt_day
                       kpi_name site_id sector_id start_date end_date
    = kpi_anomalies fs parse_datetime Series_mean fmt_fixed fmt_float fmt_day
                    kpi_name site_id sector_id start_date end_date.
Proof.
  intros fmt_fixed fmt_float fmt_day kpi_name site_id sector_id start_date end_date H.
  unfold Test.kpi_anomalies, kpi_anomalies. cbv zeta.
  set (sd := or_default (Some "2024-01-01") start_date) in *.
  set (ed := or_default (Some "2024-02-29") end_date) in *.
  assert (Hbody : Test.kpi_anomalies_body fs parse_datetime Series_mean
        kpi_name site_id sector_id sd ed
                  = kpi_anomalies_body fs parse_datetime Series_mean
                        kpi_name site_id sector_id sd ed).
  { destruct (fs "Data/df_ensemble.csv") as [df0 | ] eqn:E0;
      [ | unfold Test.kpi_anomalies_body, kpi_anomalies_body, read_csv;
          rewrite E0; reflexivity].
    destruct (is_empty (anomaly_rows parse_datetime kpi_name site_id sector_id sd ed df0))
      eqn:Edf;
      [unfold Test.kpi_anomalies_body, kpi_anomalies_body, read_csv;
       rewrite E0; cbn [bind]; rewrite Edf; reflexivity | ].
    destruct (fs "Data/KPI_data_cleaned.csv") as [dfb | ] eqn:Eb;
      [ | unfold Test.kpi_anomalies_body, kpi_anomalies_body, read_csv;
          rewrite E0; cbn [bind]; rewrite Edf, Eb; reflexivity].
    destruct (has_column dfb kpi_name) eqn:Hcb;
      [ | unfold Test.kpi_anomalies_body, kpi_anomalies_body, read_csv, require_column;
          rewrite E0; cbn [bind]; rewrite Edf, Eb; cbn [bind]; rewrite Hcb; reflexivity].
    destruct (is_empty (base_rows parse_datetime kpi_name site_id sector_id sd ed dfb))
      eqn:Ebase;
      [unfold Test.kpi_anomalies_body, kpi_anomalies_body, read_csv, require_column;
       rewrite E0; cbn [bind]; rewrite Edf, Eb; cbn [bind]; rewrite Hcb; cbn [bind];
       rewrite Ebase; reflexivity | ].
    destruct (has_column df0 kpi_name) eqn:Hc0;
      [ | unfold Test.kpi_anomalies_body, kpi_anomalies_body, read_csv, require_column;
          rewrite E0; cbn [bind]; rewrite Edf, Eb; cbn [bind]; rewrite Hcb; cbn [bind];
          rewrite Ebase, Hc0; reflexivity].
    apply is_empty_false_iff in Edf. apply is_empty_false_iff in Ebase.
    rewrite (script_body_reached _ _ _ _ _ _ _ E0 Edf Eb Hcb Ebase Hc0).
    pose proof (kpi_anomalies_body_reached fs parse_datetime Series_mean _ _ _ _ _ _ _
                                           E0 Edf Eb Hcb Ebase Hc0) as R.
    rewrite R. cbv zeta in R |- *.
    destruct (find_group kpi_name) as [[g ks] | ] eqn:Eg.
    - exfalso. cbn [option_map snd] in R.
      rewrite (co_occurrence_found fs _ _ _ _ _ _ E0) in R. cbn [bind local] in R.
      exact (H _ _ R).
    - rewrite (script_find_group_none _ Eg), (script_co_occurrence_found _ _ _ _ _ E0).
      reflexivity. }
  rewrite Hbody.
  destruct (kpi_anomalies_body fs parse_datetime Series_mean kpi_name site_id sector_id sd ed)
    as [r | e] eqn:E; [ | reflexivity].
  destruct r; try reflexivity.
  exfalso. exact (H _ _ eq_refl).
Qed.

End ScriptCopy.

(** ** The server's reply *)

Lemma find_app_split {A : Type} (f : A -> bool) (l1 l2 : list A) :
  find f (l1 ++ l2) = match find f l1 with Some x => Some x | None => find f l2 end.
Proof.
  induction l1 as [ | x t IH]; [reflexivity | ].
  cbn [app find]. destruct (f x); [reflexivity | exact IH].
Qed.

Lemma find_all_false {A : Type} (f : A -> bool) (l : list A) :
  (forall x, In x l -> f x = false) -> find f l = None.
Proof.
  induction l as [ | x t IH]; intros H; [reflexivity | ].
  cbn [find]. rewrite (H x (or_introl eq_refl)). apply IH.
  intros y Hy. apply H. right; exact Hy.
Qed.

(** [invoke_agent] answers with the content of the last message of type
    "ai" in the agent's result, whatever messages of other types come
    after it; with the fixed apology when the result has no such message
    or no messages at all; and it lets an exception of the agent through. *)
Theorem invoke_agent_returns_last_ai_content :
  forall (agent_executor : string -> list MCP_server.Message
                           -> result (option (list MCP_server.Message)))
         input chat_history,
    (forall pre msg post,
        agent_executor input chat_history = Ok (Some (pre ++ msg :: post)%list) ->
        MCP_server.type msg = "ai" ->
        (forall x, In x post -> MCP_server.type x <> "ai") ->
        MCP_server.invoke_agent agent_executor input chat_history
        = Ok (MCP_server.content msg))
    /\ (forall messages,
           agent_executor input chat_history = Ok (Some messages) ->
           (forall x, In x messages -> MCP_server.type x <> "ai") ->
           MCP_server.invoke_agent agent_executor input chat_history
           = Ok "❌ No response generated.")
    /\ (agent_executor input chat_history = Ok None ->
        MCP_server.invoke_agent agent_executor input chat_history
        = Ok "❌ No response generated.")
    /\ (forall e,
           agent_executor input chat_history = Raise e ->
           MCP_server.invoke_agent agent_executor input chat_history = Raise e).
Proof.
  intros agent_executor input chat_history.
  split; [ | split; [ | split]].
  - intros pre msg post Hres Hai Hpost.
    unfold MCP_server.invoke_agent. rewrite Hres. cbn [bind].
    unfold MCP_server.last_ai.
    rewrite rev_app_distr. cbn [rev]. rewrite <- app_assoc. cbn [app].
    rewrite find_app_split, find_all_false.
    + cbn [find]. apply String.eqb_eq in Hai. rewrite Hai. reflexivity.
    + intros x Hx. apply in_rev in Hx. apply String.eqb_neq. apply Hpost, Hx.
  - intros messages Hres Hnone.
    unfold MCP_server.invoke_agent. rewrite Hres. cbn [bind].
    unfold MCP_server.last_ai. rewrite find_all_false; [reflexivity | ].
    intros x Hx. apply in_rev in Hx. apply String.eqb_neq. apply Hnone, Hx.
  - intros Hres. unfold MCP_server.invoke_agent. rewrite Hres. reflexivity.
  - intros e Hres. unfold MCP_server.invoke_agent. rewrite Hres. reflexivity.
Qed.

(** ** The chat front end *)

Lemma transcript_messages_app (a b : list (string * string)) :
  App.transcript_messages (a ++ b)
  = (App.transcript_messages a ++ App.transcript_messages b)%list.
Proof. unfold App.transcript_messages. apply flat_map_app. Qed.

(** Pressing send for a sequence of messages never fails; it extends the
    chatbot's transcript by one (message, reply) pair per message, in
    order, and the history kept for the server by the same exchanges as
    a human and an AI message each; every reply is the server's output
    for the message and the history of the exchanges before it, or the
    text "Error: ..." of the exception met, which is recorded as the
    AI's message like any other reply. *)
Theorem chat_history_follows_transcript :
  forall (post : string -> list App.Msg -> result string) inputs chat_history history,
    exists exchanges,
      fst (App.respond_all post chat_history history inputs) = (history ++ exchanges)%list
      /\ snd (App.respond_all post chat_history history inputs)
         = (chat_history ++ App.transcript_messages exchanges)%list
      /\ map fst exchanges = inputs
      /\ forall before message reply after,
          exchanges = (before ++ (message, reply) :: after)%list ->
          reply = match post message (chat_history ++ App.transcript_messages before)%list with
                  | Ok output => output
                  | Raise e => "Error: " ++ exn_str e
                  end.
Proof.
  intros post inputs.
  induction inputs as [ | message rest IH]; intros chat_history history.
  - exists []. cbn [App.respond_all fst snd map].
    rewrite !app_nil_r. repeat split.
    intros before m r after H. destruct before; discriminate H.
  - cbn [App.respond_all]. unfold App.respond, App.chat.
    set (reply := match post message chat_history with
                  | Ok output => output
                  | Raise e => "Error: " ++ exn_str e
                  end).
    destruct (IH (chat_history ++ [App.HumanMessage message; App.AIMessage reply])%list
                 (history ++ [(message, reply)])%list)
      as (exchanges & Hh & Hc & Hin & Hrep).
    exists ((message, reply) :: exchanges).
    split; [rewrite Hh, <- app_assoc; reflexivity | ].
    split; [rewrite Hc, <- app_assoc; reflexivity | ].
    split; [cbn [map fst]; rewrite Hin; reflexivity | ].
    intros before m r after H.
    destruct before as [ | b before'].
    + cbn [app] in H. injection H as <- <- _.
      cbn [App.transcript_messages flat_map]. rewrite app_nil_r. reflexivity.
    + cbn [app] in H. injection H as <- H.
      rewrite (Hrep before' m r after H).
      change (App.transcript_messages ((message, reply) :: before'))
        with ([App.HumanMessage message; App.AIMessage reply]
                ++ App.transcript_messages before')%list.
      rewrite app_assoc. reflexivity.
Qed.

(** * The further properties on the sample tables *)

Lemma peak_day_row_sample :
  exists d v s e,
    get_peak_kpi_day_for_site_body Sample.fs Sample.iso_parse
                                   "SITE_001" "DL_Throughput" "highest"
                                   (Some "2024-01-01") (Some "2024-01-05")
    = Ok (PeakDay d "SITE_001" "highest" "DL_Throughput" v s e)
    /\ exists peak_row dz sz ez,
        In peak_row (rows Sample.KPI_data_cleaned)
        /\ Date peak_row = d /\ cell "DL_Throughput" peak_row = Some v
        /\ d = Some dz /\ s = Some sz /\ e = Some ez /\ (sz <= dz <= ez)%Z.
Proof.
  eexists. eexists. eexists. eexists.
  split; [vm_compute; reflexivity | ].
  destruct (peak_day_row_is_extreme_in_window
              Sample.fs Sample.iso_parse "SITE_001" "DL_Throughput" "highest"
              (Some "2024-01-01") (Some "2024-01-05") _ _ _ _ _
              ltac:(vm_compute; reflexivity))
    as (df & peak_row & dz & sz & ez & Efs & Hin & _ & Hd & Hv & H1 & H2 & H3 & Hb & _).
  injection Efs as <-.
  exists peak_row, dz, sz, ez. auto 10.
Defined.

Lemma peak_day_default_window_sample :
  Sample.fs KPI_CSV_PATH = Some Sample.KPI_data_cleaned
  /\ has_column Sample.KPI_data_cleaned "SINR" = true
  /\ truthy None = None
  /\ truthy (Some "") = None
  /\ filter (site_is "SITE_002")
            (dropna_subset ["SINR"] (rows Sample.KPI_data_cleaned)) <> []
  /\ exists d label v m,
      get_peak_kpi_day_for_site_body Sample.fs Sample.iso_parse "SITE_002" "SINR" "lowest"
                                     None (Some "")
      = Ok (PeakDay d "SITE_002" label "SINR" v (Some (m - 30)%Z) (Some m)).
Proof.
  assert (Hne : filter (site_is "SITE_002")
                       (dropna_subset ["SINR"] (rows Sample.KPI_data_cleaned)) <> [])
    by (vm_compute; discriminate).
  split; [reflexivity | ]. split; [reflexivity | ].
  split; [reflexivity | ]. split; [reflexivity | ].
  split; [exact Hne | ].
  destruct (peak_day_found_with_default_window
              Sample.fs Sample.iso_parse "SITE_002" "SINR" "lowest" None (Some "")
              Sample.KPI_data_cleaned eq_refl eq_refl eq_refl eq_refl Hne)
    as (d & label & v & m & H & _).
  exists d, label, v, m. exact H.
Defined.

Lemma extreme_site_value_sample :
  exists s e site v,
    get_site_kpi_extreme_body Sample.fs Sample.iso_parse Sample.groupby_mean
          "SINR" "highest" None None
    = Ok (ExtremeSite s e site "highest" "SINR" v)
    /\ exists filtered,
        extreme_frame Sample.fs Sample.iso_parse "SINR" None None = Ok (s, e, filtered)
        /\ (Sample.groupby_mean (site_kpi_values "SINR" "SITE_002" filtered) <= v)%Q.
Proof.
  eexists. eexists. eexists. eexists.
  split; [vm_compute; reflexivity | ].
  destruct (extreme_site_value_bounds_all_averages
              Sample.fs Sample.iso_parse Sample.groupby_mean "SINR" "highest" None None _ _ _ _ _ _
              ltac:(vm_compute; reflexivity))
    as (filtered & Hf & _ & _ & _ & _ & Hall).
  exists filtered. split; [exact Hf | ].
  assert (Hp : site_kpi_values "SINR" "SITE_002" filtered <> []).
  { vm_compute in Hf. injection Hf as <-. vm_compute. discriminate. }
  exact (Hall "SITE_002" Hp).
Defined.

(** SITE_002 and SITE_003 tie on the lowest average SINR of the last
    week; SITE_002 is reported. *)
Lemma extreme_site_tie_sample :
  exists s e v,
    get_site_kpi_extreme_body Sample.fs Sample.iso_parse Sample.groupby_mean
          "SINR" "lowest" None None
    = Ok (ExtremeSite s e "SITE_002" "lowest" "SINR" v)
    /\ site_le "SITE_002" "SITE_003".
Proof.
  eexists. eexists. eexists.
  split; [vm_compute; reflexivity | ].
  destruct (extreme_site_ties_go_to_least_site_id
              Sample.fs Sample.iso_parse Sample.groupby_mean
                    "SINR" "lowest" None None _ _ "SITE_002" "lowest"
              "SINR" _ ltac:(vm_compute; reflexivity))
    as (filtered & Hf & Hall).
  vm_compute in Hf. injection Hf as <-.
  apply Hall; [vm_compute; discriminate | vm_compute; reflexivity].
Defined.

Lemma extreme_site_default_window_sample :
  Sample.fs KPI_CSV_PATH = Some Sample.KPI_data_cleaned
  /\ has_column Sample.KPI_data_cleaned "DL_Throughput" = true
  /\ truthy None = None
  /\ dropna_subset ["DL_Throughput"] (rows Sample.KPI_data_cleaned) <> []
  /\ exists site dir v m,
      get_site_kpi_extreme_body Sample.fs Sample.iso_parse Sample.groupby_mean
            "DL_Throughput" "min" None None
      = Ok (ExtremeSite (Some (m - 7)%Z) (Some m) site dir "DL_Throughput" v).
Proof.
  assert (Hne : dropna_subset ["DL_Throughput"] (rows Sample.KPI_data_cleaned) <> [])
    by (vm_compute; discriminate).
  split; [reflexivity | ]. split; [reflexivity | ]. split; [reflexivity | ].
  split; [exact Hne | ].
  destruct (extreme_site_found_with_default_window
              Sample.fs Sample.iso_parse Sample.groupby_mean "DL_Throughput" "min" None None
              Sample.KPI_data_cleaned eq_refl eq_refl eq_refl eq_refl Hne)
    as (site & dir & v & m & H & _).
  exists site, dir, v, m. exact H.
Defined.

Lemma impact_no_data_sample :
  exists frame,
    impact_frame Sample.fs Sample.iso_parse "SINR" "DL_Throughput" (Some "SITE_003") None None
    = Ok frame
    /\ frame = []
    /\ compare_kpi_impact_body Sample.fs Sample.iso_parse Sample.sort_values_Date Sample.granger
                               "SINR" "DL_Throughput" (Some "SITE_003") None None
       = Ok (ImpactNoData "SINR" "DL_Throughput").
Proof.
  eexists. split; [vm_compute; reflexivity | ]. split; [reflexivity | ].
  destruct (impact_no_data_exactly_when_no_row_passes
              Sample.fs Sample.iso_parse Sample.sort_values_Date Sample.granger
              "SINR" "DL_Throughput" (Some "SITE_003") None None []
              ltac:(vm_compute; reflexivity)) as [_ H].
  apply H. reflexivity.
Defined.

Lemma describe_statistics_sample :
  exists dmin dmax ns nsec stats,
    describe_kpi_dataset_body Sample.fs Sample.Series_mean
          None = Ok (DatasetSummary dmin dmax ns nsec stats)
    /\ map stat_kpi stats = columns Sample.KPI_data_cleaned
    /\ forall st, In st stats ->
                  (stat_missing st
                   + List.length (column_values (stat_kpi st) (rows Sample.KPI_data_cleaned)))%nat
                  = 12%nat.
Proof.
  eexists. eexists. eexists. eexists. eexists.
  split; [vm_compute; reflexivity | ].
  destruct (describe_statistics_are_consistent
              Sample.fs Sample.Series_mean None _ _ _ _ _ ltac:(vm_compute; reflexivity))
    as (df & Efs & Hcols & Hall).
  injection Efs as <-.
  split; [exact Hcols | ].
  intros st Hst. destruct (Hall st Hst) as [H _]. exact H.
Defined.

Lemma describe_coverage_sample :
  exists dmin dmax ns nsec stats,
    describe_kpi_dataset_body Sample.fs Sample.Series_mean
          None = Ok (DatasetSummary dmin dmax ns nsec stats)
    /\ (ns <= 12)%nat
    /\ exists lo hi, dmin = Some lo /\ dmax = Some hi /\ (lo <= 19725 <= hi)%Z.
Proof.
  eexists. eexists. eexists. eexists. eexists.
  split; [vm_compute; reflexivity | ].
  destruct (describe_coverage_is_exact
              Sample.fs Sample.Series_mean None _ _ _ _ _ ltac:(vm_compute; reflexivity))
    as (df & Efs & Hdates & _ & _ & _ & Hns & _).
  injection Efs as <-.
  split; [exact Hns | ].
  destruct (Hdates (Sample.measurement 19725 "SITE_001" "SITE_001_SECTOR_A"
                                       (Sample.num 11) (Sample.num (-91))
                                       (Sample.num 52) (Sample.num 25)) 19725%Z)
    as (lo & hi & _ & _ & Hlo & Hhi & Hb & _).
  - cbn. tauto.
  - reflexivity.
  - exists lo, hi. auto.
Defined.

Lemma anomaly_partition_sample :
  exists s,
    kpi_anomalies_body Sample.fs Sample.iso_parse Sample.Series_mean "SINR" None None
                       (Some "2024-01-01") (Some "2024-02-29")
    = Ok (AnomalyReport "SINR" s)
    /\ (List.length (filter (fun v => Qlt_bool (kpi_avg s) v)
                            (column_values "SINR"
                               (anomaly_rows Sample.iso_parse "SINR" None None
                                             (Some "2024-01-01") (Some "2024-02-29")
                                             Sample.df_ensemble)))
        + List.length (filter (fun v => Qle_bool v (kpi_avg s))
                              (column_values "SINR"
                                 (anomaly_rows Sample.iso_parse "SINR" None None
                                               (Some "2024-01-01") (Some "2024-02-29")
                                               Sample.df_ensemble))))%nat
       = anomaly_count s.
Proof.
  eexists. split; [vm_compute; reflexivity | ].
  destruct (anomaly_values_split_into_two_partitions
              Sample.fs Sample.iso_parse Sample.Series_mean "SINR" None None
              (Some "2024-01-01") (Some "2024-02-29") "SINR" _
              ltac:(vm_compute; reflexivity))
    as (df0 & E0 & H).
  injection E0 as <-. cbv zeta in H. destruct H as (_ & _ & H & _). exact H.
Defined.

Lemma peak_note_sample :
  exists s d c,
    kpi_anomalies_body Sample.fs Sample.iso_parse Sample.Series_mean "RSRP" None None
                       (Some "2024-01-01") (Some "2024-02-29")
    = Ok (AnomalyReport "RSRP" s)
    /\ peak_anomaly_note s = Some (d, c)
    /\ c = rows_on d (anomaly_rows Sample.iso_parse "RSRP" None None
                                   (Some "2024-01-01") (Some "2024-02-29")
                                   Sample.df_ensemble)
    /\ (1 <= c)%nat.
Proof.
  eexists. eexists. eexists.
  split; [vm_compute; reflexivity | ].
  split; [reflexivity | ].
  destruct (peak_note_is_the_busiest_day
              Sample.fs Sample.iso_parse Sample.Series_mean "RSRP" None None
              (Some "2024-01-01") (Some "2024-02-29") "RSRP" _
              ltac:(vm_compute; reflexivity))
    as (df0 & E0 & H).
  injection E0 as <-. cbv zeta in H. cbn [peak_anomaly_note] in H.
  destruct H as (H1 & H2 & _). split; assumption.
Defined.

Lemma anomaly_early_answers_sample :
  Sample.fs "Data/df_ensemble.csv" = Some Sample.df_ensemble
  /\ anomaly_rows Sample.iso_parse "INVALID_KPI" None None
                  (Some "2024-01-01") (Some "2024-02-29") Sample.df_ensemble = []
  /\ kpi_anomalies_body Sample.fs Sample.iso_parse Sample.Series_mean "INVALID_KPI" None None
                        (Some "2024-01-01") (Some "2024-02-29")
     = Ok (AnomalyNoData "INVALID_KPI").
Proof.
  assert (Hrows : anomaly_rows Sample.iso_parse "INVALID_KPI" None None
                               (Some "2024-01-01") (Some "2024-02-29") Sample.df_ensemble = [])
    by (vm_compute; reflexivity).
  split; [reflexivity | ]. split; [exact Hrows | ].
  pose proof (anomaly_early_answers
                Sample.fs Sample.iso_parse Sample.Series_mean "INVALID_KPI" None None
                (Some "2024-01-01") (Some "2024-02-29") Sample.df_ensemble eq_refl) as T.
  cbv zeta in T. destruct T as [T _]. apply T. exact Hrows.
Defined.

Lemma kpi_outside_catalog_sample :
  Sample.fs "Data/df_ensemble.csv" = Some Sample.df_ensemble
  /\ anomaly_rows Sample.iso_parse "Latency" None None None None Sample.df_ensemble <> []
  /\ Sample.fs "Data/KPI_data_cleaned.csv" = Some Sample.KPI_data_cleaned
  /\ has_column Sample.KPI_data_cleaned "Latency" = true
  /\ base_rows Sample.iso_parse "Latency" None None None None Sample.KPI_data_cleaned <> []
  /\ has_column Sample.df_ensemble "Latency" = true
  /\ ~ In "Latency" [ "RSRP"; "SINR"; "DL_Throughput"; "UL_Throughput"; "RTT";
                      "Active_Users"; "CPU_Utilization"; "Handover_Success_Rate";
                      "Packet_Loss"; "Call_Drop_Rate" ]
  /\ kpi_anomalies Sample.fs Sample.iso_parse Sample.Series_mean
        Sample.decimal_fixed Sample.decimal_float
                   Sample.iso_day "Latency" None None (Passed None) (Passed None)
     = Ok ("Error analyzing KPI anomalies: " ++ exn_str (UnboundLocalError "Kpis")).
Proof.
  assert (H2 : anomaly_rows Sample.iso_parse "Latency" None None None None
                            Sample.df_ensemble <> []) by (vm_compute; discriminate).
  assert (H5 : base_rows Sample.iso_parse "Latency" None None None None
                         Sample.KPI_data_cleaned <> []) by (vm_compute; discriminate).
  assert (H7 : ~ In "Latency" [ "RSRP"; "SINR"; "DL_Throughput"; "UL_Throughput"; "RTT";
                                "Active_Users"; "CPU_Utilization"; "Handover_Success_Rate";
                                "Packet_Loss"; "Call_Drop_Rate" ]).
  { intros C. cases_In C; discriminate C. }
  split; [reflexivity | ]. split; [exact H2 | ]. split; [reflexivity | ].
  split; [reflexivity | ]. split; [exact H5 | ]. split; [reflexivity | ].
  split; [exact H7 | ].
  exact (kpi_outside_catalog_gets_error_text
           Sample.fs Sample.iso_parse Sample.Series_mean
                 Sample.decimal_fixed Sample.decimal_float Sample.iso_day
           "Latency" None None None None Sample.df_ensemble Sample.KPI_data_cleaned
           eq_refl H2 eq_refl eq_refl H5 eq_refl H7).
Defined.

Lemma script_copy_sample :
  exists s s',
    kpi_anomalies_body Sample.fs Sample.iso_parse Sample.Series_mean "SINR" None None
                       (Some "2024-01-01") (Some "2024-02-29")
    = Ok (AnomalyReport "SINR" s)
    /\ Test.kpi_anomalies_body Sample.fs Sample.iso_parse Sample.Series_mean "SINR" None None
                               (Some "2024-01-01") (Some "2024-02-29")
       = Ok (AnomalyReport "SINR" s')
    /\ anomaly_count s' = anomaly_count s
    /\ kpi_avg s' = kpi_avg s
    /\ In ("DL_Throughput", 1%nat) (related_counts s')
    /\ ~ In ("DL_Throughput", 1%nat) (related_counts s).
Proof.
  eexists.
  destruct (script_copy_differs_only_in_grouping
              Sample.fs Sample.iso_parse Sample.Series_mean "SINR" None None
              (Some "2024-01-01") (Some "2024-02-29") "SINR" _
              ltac:(vm_compute; reflexivity))
    as (df0 & s' & E0 & Hs' & Hc & Ha & _ & _ & _ & _ & _ & Hscript & Htool).
  injection E0 as <-.
  exists s'. split; [vm_compute; reflexivity | ].
  split; [exact Hs' | ]. split; [exact Hc | ]. split; [exact Ha | ].
  split.
  - apply Hscript. split; [unfold Test.rel_kpi; cbn [In]; tauto | ].
    split; [discriminate | ]. split; [vm_compute; reflexivity | lia].
  - intros C. apply Htool in C. destruct C as [_ C].
    cbn [Kpis] in C. cases_In C; discriminate C.
Defined.

(** "Latency" has anomaly rows and measurements but no group: the tool
    and the script answer with the same error text. *)
Lemma script_copy_same_text_sample :
  (forall k s,
      kpi_anomalies_body Sample.fs Sample.iso_parse Sample.Series_mean "Latency" None None
                         (or_default (Some "2024-01-01") Omitted)
                         (or_default (Some "2024-02-29") (Passed None))
      <> Ok (AnomalyReport k s))
  /\ Test.kpi_anomalies Sample.fs Sample.iso_parse Sample.Series_mean
        Sample.decimal_fixed Sample.decimal_float
                        Sample.iso_day "Latency" None None Omitted (Passed None)
     = kpi_anomalies Sample.fs Sample.iso_parse Sample.Series_mean
           Sample.decimal_fixed Sample.decimal_float
                     Sample.iso_day "Latency" None None Omitted (Passed None)
  /\ Test.kpi_anomalies Sample.fs Sample.iso_parse Sample.Series_mean
        Sample.decimal_fixed Sample.decimal_float
                        Sample.iso_day "Latency" None None Omitted (Passed None)
     = Ok ("Error analyzing KPI anomalies: " ++ exn_str (UnboundLocalError "Kpis")).
Proof.
  assert (H : forall k s,
             kpi_anomalies_body Sample.fs Sample.iso_parse Sample.Series_mean "Latency" None None
                                (or_default (Some "2024-01-01") Omitted)
                                (or_default (Some "2024-02-29") (Passed None))
             <> Ok (AnomalyReport k s)).
  { intros k s C. vm_compute in C. discriminate C. }
  split; [exact H | ].
  split; [ | vm_compute; reflexivity].
  exact (script_copy_same_text_without_summary
           Sample.fs Sample.iso_parse Sample.Series_mean
                 Sample.decimal_fixed Sample.decimal_float Sample.iso_day
           "Latency" None None Omitted (Passed None) H).
Defined.

(** An agent run that ends with a tool message after two AI messages:
    the later AI message is the reply. *)
Lemma invoke_agent_sample :
  MCP_server.invoke_agent
    (fun _ _ => Ok (Some [ MCP_server.mkMessage "human" "Which site is worst?";
                           MCP_server.mkMessage "ai" "";
                           MCP_server.mkMessage "tool" "SITE_002";
                           MCP_server.mkMessage "ai" "SITE_002 is.";
                           MCP_server.mkMessage "tool" "late" ]))
    "Which site is worst?" []
  = Ok "SITE_002 is.".
Proof.
  destruct (invoke_agent_returns_last_ai_content
              (fun _ _ => Ok (Some [ MCP_server.mkMessage "human" "Which site is worst?";
                                     MCP_server.mkMessage "ai" "";
                                     MCP_server.mkMessage "tool" "SITE_002";
                                     MCP_server.mkMessage "ai" "SITE_002 is.";
                                     MCP_server.mkMessage "tool" "late" ]))
              "Which site is worst?" []) as [H _].
  apply (H [ MCP_server.mkMessage "human" "Which site is worst?";
             MCP_server.mkMessage "ai" "";
             MCP_server.mkMessage "tool" "SITE_002" ]
           (MCP_server.mkMessage "ai" "SITE_002 is.")
           [ MCP_server.mkMessage "tool" "late" ]).
  - reflexivity.
  - reflexivity.
  - intros x [<- | []]. discriminate.
Defined.

(** SITE_001's report on SINR and DL_Throughput: SINR rises from the
    first row of the sorted frame to the second. *)
Lemma directional_section_sample :
  exists eff best verdict,
    compare_kpi_impact_body Sample.fs Sample.iso_parse Sample.sort_values_Date Sample.granger
                            "SINR" "DL_Throughput" (Some "SITE_001") None None
    = Ok (Impact "SINR" "DL_Throughput" (Some "SITE_001") eff best verdict)
    /\ directional_comment eff <> NoPositiveChanges
    /\ exists frame xy,
        impact_frame Sample.fs Sample.iso_parse "SINR" "DL_Throughput" (Some "SITE_001")
                     None None
        = Ok frame
        /\ kpi_pairs "SINR" "DL_Throughput" (Sample.sort_values_Date frame) = Ok xy
        /\ nth_error xy 0 = Some (10%Q, 50%Q)
        /\ nth_error xy 1 = Some (12%Q, 55%Q).
Proof.
  eexists. eexists. eexists.
  split; [vm_compute; reflexivity | ].
  destruct (directional_section_reads_consecutive_rows
              Sample.fs Sample.iso_parse Sample.sort_values_Date Sample.granger
              "SINR" "DL_Throughput" (Some "SITE_001") None None _ _ _ _ _ _
              ltac:(vm_compute; reflexivity))
    as (frame & xy & Hframe & Hxy & Hnone & _).
  assert (E0 : nth_error xy 0 = Some (10%Q, 50%Q)).
  { vm_compute in Hframe. injection Hframe as <-.
    vm_compute in Hxy. injection Hxy as <-. reflexivity. }
  assert (E1 : nth_error xy 1 = Some (12%Q, 55%Q)).
  { vm_compute in Hframe. injection Hframe as <-.
    vm_compute in Hxy. injection Hxy as <-. reflexivity. }
  split.
  - intros C.
    pose proof (proj1 Hnone C (10%Q, 50%Q) (12%Q, 55%Q) (ex_intro _ 0%nat (conj E0 E1)))
      as Hle.
    vm_compute in Hle. apply Hle. reflexivity.
  - exists frame, xy. auto.
Defined.
